(** * ha_strava: the webhook view, the activity fetch and the subscription
      reconciler of [custom_components/ha_strava/__init__.py]

    The Python module is embedded shallowly.  Values that come out of
    [json.loads] are a datatype [json]; the builtins the module applies to
    them ([len], [int], [float], [*], [dt.strptime], [sorted], indexing,
    [.get]) are total functions into [outcome], whose [Raised] case carries
    the exception class Python would raise.  The coroutines are computations
    in a small monad that threads the state of the remote services and of the
    Home Assistant objects, collects the calls made on the way (HTTP
    requests, log records, the update event, scheduled tasks, the config
    entry update) and stops at the first exception.

    Strings are sequences of ASCII characters.  The text of an HTTP response
    is kept as what [json.loads] makes of it. *)

From Stdlib Require Import ZArith List String Ascii Bool Lia.
From Stdlib Require Import SpecFloat Sorted Permutation.
Import ListNotations.

Set Warnings "-register-all".

Local Open Scope Z_scope.
Local Open Scope string_scope.
Local Open Scope list_scope.

(** ** Python values and builtins *)

Module Py.

(** The exception classes the module can meet. *)
Variant exn : Type :=
  | JSONDecodeError
  | TypeError
  | ValueError
  | KeyError
  | IndexError
  | AttributeError
  | OverflowError
  | ZeroDivisionError
  | NoURLAvailableError.

(** What evaluating an expression gives: a value, or an exception. *)
Variant outcome (A : Type) : Type :=
  | Returned (a : A)
  | Raised (e : exn).
Arguments Returned {A} a.
Arguments Raised {A} e.

Definition exn_eqb (a b : exn) : bool :=
  match a, b with
  | JSONDecodeError, JSONDecodeError
  | TypeError, TypeError
  | ValueError, ValueError
  | KeyError, KeyError
  | IndexError, IndexError
  | AttributeError, AttributeError
  | OverflowError, OverflowError
  | ZeroDivisionError, ZeroDivisionError
  | NoURLAvailableError, NoURLAvailableError => true
  | _, _ => false
  end.

Definition obind {A B} (o : outcome A) (k : A -> outcome B) : outcome B :=
  match o with
  | Returned a => k a
  | Raised e => Raised e
  end.

Definition of_option {A} (e : exn) (o : option A) : outcome A :=
  match o with
  | Some a => Returned a
  | None => Raised e
  end.

(** A Python [float] is an IEEE 754 binary64 number. *)
Definition prec : Z := 53.
Definition emax : Z := 1024.
Definition float : Type := spec_float.

(** The values [json.loads] builds: [None], [bool], [int], [float], [str],
    [list] and [dict] (keys are strings; a lookup takes the first binding of
    a key). *)
Inductive json : Type :=
  | JNull
  | JBool (b : bool)
  | JInt (z : Z)
  | JFloat (f : float)
  | JStr (s : string)
  | JArr (l : list json)
  | JObj (d : list (string * json)).

Definition dict : Type := list (string * json).

(** *** Dictionaries *)

(** [d.get(k)] on a [dict], as an option. *)
Fixpoint dict_get (d : dict) (k : string) : option json :=
  match d with
  | [] => None
  | (k', v) :: d' => if String.eqb k k' then Some v else dict_get d' k
  end.

(** [d[k] = v]: overwrite in place, or append a new key. *)
Fixpoint dict_set (d : dict) (k : string) (v : json) : dict :=
  match d with
  | [] => [(k, v)]
  | (k', v') :: d' =>
      if String.eqb k k' then (k, v) :: d' else (k', v') :: dict_set d' k v
  end.


(** [d[k]] on a [dict]: [KeyError] when the key is missing. *)
Definition dict_item (d : dict) (k : string) : outcome json :=
  of_option KeyError (dict_get d k).

(** [x.get(k, default)]: only a [dict] has the method. *)
Definition get (x : json) (k : string) (default : json) : outcome json :=
  match x with
  | JObj d =>
      Returned (match dict_get d k with Some v => v | None => default end)
  | _ => Raised AttributeError
  end.

(** [x[k]] with a string key: a [dict] is looked up, a [list] or [str]
    refuses a string index, anything else is not subscriptable. *)
Definition item (x : json) (k : string) : outcome json :=
  match x with
  | JObj d => dict_item d k
  | _ => Raised TypeError
  end.

(** [x[0]]: a [dict] from [json.loads] has no integer key. *)
Definition item0 (x : json) : outcome json :=
  match x with
  | JArr (v :: _) => Returned v
  | JArr [] => Raised IndexError
  | JStr (String c _) => Returned (JStr (String c EmptyString))
  | JStr EmptyString => Raised IndexError
  | JObj _ => Raised KeyError
  | _ => Raised TypeError
  end.

(** [len(x)]. *)
Definition len (x : json) : outcome nat :=
  match x with
  | JArr l => Returned (List.length l)
  | JObj d => Returned (List.length (List.nodup string_dec (List.map fst d)))
  | JStr s => Returned (String.length s)
  | _ => Raised TypeError
  end.

(** What [for a in x] visits: the elements of a list, the keys of a dict,
    the characters of a string. *)
Definition iter (x : json) : outcome (list json) :=
  match x with
  | JArr l => Returned l
  | JObj d => Returned (List.map JStr (List.nodup string_dec (List.map fst d)))
  | JStr s =>
      Returned
        (List.map (fun c => JStr (String c EmptyString))
           (list_ascii_of_string s))
  | _ => Raised TypeError
  end.

(** Truth value of [if x:]. *)
Definition truthy (x : json) : bool :=
  match x with
  | JNull => false
  | JBool b => b
  | JInt z => negb (Z.eqb z 0)
  | JFloat f =>
      match f with
      | S754_zero _ => false
      | _ => true
      end
  | JStr s => negb (String.eqb s "")
  | JArr l => match l with [] => false | _ => true end
  | JObj d => match d with [] => false | _ => true end
  end.

(** [s in t] for two strings. *)
Fixpoint contains (t s : string) : bool :=
  String.prefix s t
  || match t with
     | EmptyString => false
     | String _ t' => contains t' s
     end.

(** *** Numbers *)

Definition is_digit (c : ascii) : bool :=
  let n := nat_of_ascii c in (48 <=? n)%nat && (n <=? 57)%nat.

Definition digit_val (c : ascii) : Z := Z.of_nat (nat_of_ascii c) - 48.

(** The characters [int] and [float] skip around an ASCII literal. *)
Definition is_space (c : ascii) : bool :=
  let n := nat_of_ascii c in
  ((9 <=? n)%nat && (n <=? 13)%nat) || (n =? 32)%nat.

Fixpoint lstrip (l : list ascii) : list ascii :=
  match l with
  | c :: l' => if is_space c then lstrip l' else l
  | [] => []
  end.

Definition strip (l : list ascii) : list ascii :=
  List.rev (lstrip (List.rev (lstrip l))).

Definition lower (c : ascii) : ascii :=
  let n := nat_of_ascii c in
  if (65 <=? n)%nat && (n <=? 90)%nat then ascii_of_nat (n + 32) else c.

(** After a first digit: more digits, each optionally preceded by one
    underscore.  Gives the value, the number of digits and what is left. *)
Fixpoint digits_tail (acc : Z) (n : nat) (l : list ascii)
  : Z * nat * list ascii :=
  match l with
  | c :: l' =>
      if is_digit c then digits_tail (10 * acc + digit_val c) (S n) l'
      else if Ascii.eqb c "_" then
        match l' with
        | c' :: l'' =>
            if is_digit c'
            then digits_tail (10 * acc + digit_val c') (S n) l''
            else (acc, n, l)
        | [] => (acc, n, l)
        end
      else (acc, n, l)
  | [] => (acc, n, l)
  end.

(** [digitpart ::= digit (["_"] digit)*] *)
Definition digitpart (l : list ascii) : option (Z * nat * list ascii) :=
  match l with
  | c :: l' =>
      if is_digit c then Some (digits_tail (digit_val c) 1 l') else None
  | [] => None
  end.

(** An optional sign: [true] for minus. *)
Definition sign (l : list ascii) : bool * list ascii :=
  match l with
  | "-"%char :: l' => (true, l')
  | "+"%char :: l' => (false, l')
  | _ => (false, l)
  end.

(** [int(s)] for an ASCII string in base 10; [None] is [ValueError]. *)
Definition int_of_str (s : string) : option Z :=
  let '(neg, l) := sign (strip (list_ascii_of_string s)) in
  match digitpart l with
  | Some (v, _, []) => Some (if neg then - v else v)
  | _ => None
  end.

(** [float(z)] for an [int], rounded to nearest even. *)
Definition float_of_Z (z : Z) : float := binary_normalize prec emax z 0 false.

(** The quotient of two positive integers rounded once, to nearest even. *)
Definition float_of_ratio (neg : bool) (n d : Z) : float :=
  let '(q, e, l) := SFdiv_core_binary prec emax n 0 d 0 in
  binary_round_aux prec emax neg q e l.

(** The binary64 number nearest to [m * 10^k], for [0 <= m]. *)
Definition float_of_decimal (neg : bool) (m k : Z) : float :=
  if Z.eqb m 0 then S754_zero neg
  else if Z.leb 0 k then
    binary_normalize prec emax ((if neg then - m else m) * 10 ^ k) 0 false
  else float_of_ratio neg m (10 ^ (- k)).

(** The exponent part of a float literal, read after the mantissa. *)
Definition exponent (l : list ascii) : option Z :=
  match l with
  | [] => Some 0
  | c :: l' =>
      if Ascii.eqb (lower c) "e" then
        let '(neg, l'') := sign l' in
        match digitpart l'' with
        | Some (v, _, []) => Some (if neg then - v else v)
        | _ => None
        end
      else None
  end.

(** [float(s)] for an ASCII string; [None] is [ValueError].
    [floatvalue ::= [sign] (floatnumber | "inf" | "infinity" | "nan")],
    [floatnumber ::= ([digitpart] "." digitpart | digitpart ["."]) [exponent]]. *)
Definition float_of_str (s : string) : option float :=
  let '(neg, l) := sign (strip (list_ascii_of_string s)) in
  let word := string_of_list_ascii (List.map lower l) in
  if String.eqb word "inf" || String.eqb word "infinity"
  then Some (S754_infinity neg)
  else if String.eqb word "nan" then Some S754_nan
  else
    match digitpart l with
    | Some (ip, _, "."%char :: l') =>
        match digitpart l' with
        | Some (fp, n, l'') =>
            option_map
              (fun e => float_of_decimal neg (ip * 10 ^ Z.of_nat n + fp)
                          (e - Z.of_nat n))
              (exponent l'')
        | None => option_map (float_of_decimal neg ip) (exponent l')
        end
    | Some (ip, _, l') => option_map (float_of_decimal neg ip) (exponent l')
    | None =>
        match l with
        | "."%char :: l' =>
            match digitpart l' with
            | Some (fp, n, l'') =>
                option_map
                  (fun e => float_of_decimal neg fp (e - Z.of_nat n))
                  (exponent l'')
            | None => None
            end
        | _ => None
        end
    end.

(** [int(x)] on a float: towards zero. *)
Definition trunc (f : float) : outcome Z :=
  match f with
  | S754_zero _ => Returned 0
  | S754_finite s m e =>
      let a := if Z.leb 0 e then Z.shiftl (Zpos m) e else Z.shiftr (Zpos m) (- e) in
      Returned (if s then - a else a)
  | S754_infinity _ => Raised OverflowError
  | S754_nan => Raised ValueError
  end.

(** An [int] as a float operand: too large a magnitude is [OverflowError]. *)
Definition float_of_int (z : Z) : outcome float :=
  match float_of_Z z with
  | S754_infinity _ | S754_nan => Raised OverflowError
  | f => Returned f
  end.

Definition float_of_bool (b : bool) : float :=
  if b then float_of_Z 1 else float_of_Z 0.

(** The builtin [float(x)]. *)
Definition float_ (x : json) : outcome float :=
  match x with
  | JBool b => Returned (float_of_bool b)
  | JInt z => float_of_int z
  | JFloat f => Returned f
  | JStr s => of_option ValueError (float_of_str s)
  | JNull | JArr _ | JObj _ => Raised TypeError
  end.

(** The builtin [int(x)]. *)
Definition int (x : json) : outcome Z :=
  match x with
  | JBool b => Returned (if b then 1 else 0)
  | JInt z => Returned z
  | JFloat f => trunc f
  | JStr s => of_option ValueError (int_of_str s)
  | JNull | JArr _ | JObj _ => Raised TypeError
  end.

(** [x * f] with a float right operand: numbers multiply as floats, a
    sequence cannot be repeated a float number of times. *)
Definition mul_float (x : json) (f : float) : outcome float :=
  match x with
  | JBool b => Returned (SFmul prec emax (float_of_bool b) f)
  | JInt z => obind (float_of_int z) (fun g => Returned (SFmul prec emax g f))
  | JFloat g => Returned (SFmul prec emax g f)
  | JNull | JStr _ | JArr _ | JObj _ => Raised TypeError
  end.

(** [a / f] on floats. *)
Definition div_float (a f : float) : outcome float :=
  match f with
  | S754_zero _ => Raised ZeroDivisionError
  | _ => Returned (SFdiv prec emax a f)
  end.

(** *** Dates *)

(** A naive [datetime] with no microseconds. *)
Record datetime : Type := mk_datetime {
  year : Z;
  month : Z;
  day : Z;
  hour : Z;
  minute : Z;
  second : Z
}.

Definition is_leap (y : Z) : bool :=
  (Z.eqb (y mod 4) 0 && negb (Z.eqb (y mod 100) 0)) || Z.eqb (y mod 400) 0.

Definition days_in_month (y m : Z) : Z :=
  if Z.eqb m 2 then (if is_leap y then 29 else 28)
  else if Z.eqb m 4 || Z.eqb m 6 || Z.eqb m 9 || Z.eqb m 11 then 30
  else 31.

(** The ranges the [datetime] constructor accepts. *)
Definition valid_datetime (d : datetime) : bool :=
  Z.leb 1 (year d) && Z.leb (year d) 9999
  && Z.leb 1 (month d) && Z.leb (month d) 12
  && Z.leb 1 (day d) && Z.leb (day d) (days_in_month (year d) (month d))
  && Z.leb 0 (hour d) && Z.leb (hour d) 23
  && Z.leb 0 (minute d) && Z.leb (minute d) 59
  && Z.leb 0 (second d) && Z.leb (second d) 59.

(** One or two digits, as the directives [%m %d %H %M %S] read them: two
    when a second digit follows, since the character after each directive
    in the format is not a digit. *)
Definition field (l : list ascii) : option (Z * list ascii) :=
  match l with
  | c1 :: c2 :: l' =>
      if is_digit c1 && is_digit c2
      then Some (10 * digit_val c1 + digit_val c2, l')
      else if is_digit c1 then Some (digit_val c1, c2 :: l')
      else None
  | [c1] => if is_digit c1 then Some (digit_val c1, []) else None
  | [] => None
  end.

(** [%d] also takes a blank followed by one digit. *)
Definition day_field (l : list ascii) : option (Z * list ascii) :=
  match l with
  | " "%char :: c :: l' =>
      if is_digit c then Some (digit_val c, l') else None
  | _ => field l
  end.

(** [%Y]: exactly four digits. *)
Definition year_field (l : list ascii) : option (Z * list ascii) :=
  match l with
  | a :: b :: c :: d :: l' =>
      if is_digit a && is_digit b && is_digit c && is_digit d
      then
        Some
          (1000 * digit_val a + 100 * digit_val b + 10 * digit_val c
           + digit_val d, l')
      else None
  | _ => None
  end.

(** A literal character of the format, matched whatever its case. *)
Definition literal (c : ascii) (l : list ascii) : option (list ascii) :=
  match l with
  | c' :: l' => if Ascii.eqb (lower c') (lower c) then Some l' else None
  | [] => None
  end.

Definition obind_opt {A B} (o : option A) (k : A -> option B) : option B :=
  match o with
  | Some a => k a
  | None => None
  end.

(** [dt.strptime(s, "%Y-%m-%dT%H:%M:%SZ")] on an ASCII string; [None] is
    [ValueError] (no match, text left over, or a date that does not exist). *)
Definition strptime_str (s : string) : option datetime :=
  obind_opt (year_field (list_ascii_of_string s)) (fun '(y, l) =>
  obind_opt (literal "-" l) (fun l =>
  obind_opt (field l) (fun '(m, l) =>
  obind_opt (literal "-" l) (fun l =>
  obind_opt (day_field l) (fun '(d, l) =>
  obind_opt (literal "T" l) (fun l =>
  obind_opt (field l) (fun '(h, l) =>
  obind_opt (literal ":" l) (fun l =>
  obind_opt (field l) (fun '(mi, l) =>
  obind_opt (literal ":" l) (fun l =>
  obind_opt (field l) (fun '(sec, l) =>
  obind_opt (literal "Z" l) (fun l =>
    match l with
    | [] =>
        let r := mk_datetime y m d h mi sec in
        if valid_datetime r then Some r else None
    | _ => None
    end)))))))))))).

(** [dt.strptime(x, ...)]: the first argument must be a [str]. *)
Definition strptime (x : json) : outcome datetime :=
  match x with
  | JStr s => of_option ValueError (strptime_str s)
  | _ => Raised TypeError
  end.

(** Datetimes compare field by field, the year first. *)
Fixpoint lex_compare (a b : list Z) : comparison :=
  match a, b with
  | x :: a', y :: b' =>
      match Z.compare x y with
      | Eq => lex_compare a' b'
      | c => c
      end
  | [], [] => Eq
  | [], _ :: _ => Lt
  | _ :: _, [] => Gt
  end.

Definition fields (d : datetime) : list Z :=
  [year d; month d; day d; hour d; minute d; second d].

Definition dt_compare (a b : datetime) : comparison :=
  lex_compare (fields a) (fields b).

Definition dt_ltb (a b : datetime) : bool :=
  match dt_compare a b with Lt => true | _ => false end.

Definition dt_leb (a b : datetime) : bool := negb (dt_ltb b a).

(** *** Sorting *)

Section Sorted.
Context {A : Type} (key : A -> datetime).

(** [x] goes in front of the first element whose key is not greater, so
    that equal keys keep the order they came in. *)
Fixpoint insert_desc (x : A) (l : list A) : list A :=
  match l with
  | [] => [x]
  | y :: l' =>
      if dt_ltb (key x) (key y) then y :: insert_desc x l' else x :: l
  end.

(** [sorted(l, key=key, reverse=True)]: a stable sort, greatest key
    first. *)
Definition sorted_reverse (l : list A) : list A :=
  List.fold_right insert_desc [] l.
End Sorted.

(** *** Equality *)

(** [int == float]: the two numbers are compared exactly. *)
Definition int_eq_float (z : Z) (f : float) : bool :=
  match f with
  | S754_zero _ => Z.eqb z 0
  | S754_finite s m e =>
      let v := if s then Zneg m else Zpos m in
      if Z.leb 0 e then Z.eqb z (v * 2 ^ e) else Z.eqb (z * 2 ^ (- e)) v
  | S754_infinity _ | S754_nan => false
  end.

Definition int_of_bool (b : bool) : Z := if b then 1 else 0.

(** [a == b]: numbers (booleans included) by value, strings by content,
    lists element by element, dicts key by key. *)
Fixpoint eq (a b : json) {struct a} : bool :=
  match a, b with
  | JNull, JNull => true
  | JBool x, JBool y => Bool.eqb x y
  | JBool x, JInt z | JInt z, JBool x => Z.eqb (int_of_bool x) z
  | JBool x, JFloat f | JFloat f, JBool x => int_eq_float (int_of_bool x) f
  | JInt x, JInt y => Z.eqb x y
  | JInt z, JFloat f | JFloat f, JInt z => int_eq_float z f
  | JFloat f, JFloat g => SFeqb f g
  | JStr s, JStr t => String.eqb s t
  | JArr l, JArr m =>
      (fix all2 (l m : list json) {struct l} : bool :=
         match l, m with
         | [], [] => true
         | x :: l', y :: m' => eq x y && all2 l' m'
         | _, _ => false
         end) l m
  | JObj d, JObj e =>
      Nat.eqb (List.length (List.nodup string_dec (List.map fst d)))
              (List.length (List.nodup string_dec (List.map fst e)))
      && (fix each (seen : list string) (d : dict) {struct d} : bool :=
            match d with
            | [] => true
            | (k, v) :: d' =>
                (if List.existsb (String.eqb k) seen then true
                 else match dict_get e k with
                      | Some w => eq v w
                      | None => false
                      end)
                && each (k :: seen) d'
            end) [] d
  | _, _ => false
  end.

End Py.

Import Py.

(** ** The constants of [const.py]

    The module [const.py] is not part of the sources that were read: what
    [__init__.py] imports from it and uses as a value is a parameter of the
    model.  The factor is taken to be a [float].  The twelve [CONF_SENSOR_*]
    keys of an activity are taken to be pairwise distinct and appear as the
    fields of the record [Activity]; [WEBHOOK_SUBSCRIPTION_URL] only names
    where a request goes. *)
Class Const : Type := {
  CONF_CALLBACK_URL : string;
  MAX_NB_ACTIVITIES : nat;
  FACTOR_KILOJOULES_TO_KILOCALORIES : float
}.

(** From [homeassistant.const]. *)
Definition CONF_CLIENT_ID : string := "client_id".
Definition CONF_CLIENT_SECRET : string := "client_secret".
Definition CONF_WEBHOOK_ID : string := "webhook_id".
Definition HTTP_OK : Z := 200.

(** ** Requests and responses *)

Variant method : Type := GET | POST | DELETE.

(** Where a request goes.  The f-strings of the source only spell these
    addresses out; the values they interpolate are kept as they are. *)
Variant url : Type :=
  | activities_url (per_page : nat)
  | geocode_url (start_latitude start_longitude : json)
  | url_of (u : json)
  | WEBHOOK_SUBSCRIPTION_URL
  | subscription_url (id : json).

Record request : Type := mk_request {
  req_method : method;
  req_url : url;
  req_data : dict
}.

(** The text of a response, as [json.loads] reads it. *)
Variant body : Type :=
  | NotJson
  | Json (v : json).

Record response : Type := mk_response {
  status : Z;
  text : body
}.

(** ** What a run leaves behind *)

(** The dict [fetch_strava_data] builds for one activity. *)
Record Activity : Type := mk_activity {
  sensor_title : json;
  sensor_city : json;
  sensor_activity_type : json;
  sensor_distance : float;
  sensor_date : datetime;
  sensor_duration : float;
  sensor_moving_time : float;
  sensor_kudos : Z;
  sensor_calories : Z;
  sensor_elevation : Z;
  sensor_power : float;
  sensor_trophies : Z
}.

Variant level : Type := DEBUG | ERROR.

(** One constructor per logging call of the module. *)
Variant message : Type :=
  | FetchingData
  | CouldNotFetch (status : Z)
  | PostReceived (request_host : option string)
  | NoPublicUrl
  | CallbackNotAvailable
  | DeletingOutdated (callback : json)
  | DeletedOutdated
  | UnexpectedDelete (status : Z)
  | CreatingSubscription (callback : json)
  | UnexpectedCreate (status : Z)
  | ExpectedOneSubscription (callback : json) (found : nat).

(** The coroutines handed to [hass.async_create_task]. *)
Variant task : Type := fetch_task.

Variant event : Type :=
  | Request (r : request) (resp : response)
  | Log (l : level) (m : message)
  | Fire (activities : list Activity)
  | CreateTask (t : task)
  | UpdateEntry (data : dict).

(** The object of class [StravaWebhookView]: the attributes that hold data.
    [websession], [event_factory] and [hass] are the handles through which
    the events above are made. *)
Record StravaWebhookView_obj : Type := mk_view {
  webhook_id : option Z;
  host : string
}.

(** The state a coroutine runs in: what the services on the network
    remember, what [get_url(hass, allow_internal=False, allow_ip=False)]
    finds ([None] makes it raise [NoURLAvailableError]), [entry.data], and
    the registered view. *)
Record world (R : Type) : Type := mk_world {
  remote : R;
  external_url : option string;
  entry_data : dict;
  webhook_view : StravaWebhookView_obj
}.
Arguments mk_world {R}.
Arguments remote {R}.
Arguments external_url {R}.
Arguments entry_data {R}.
Arguments webhook_view {R}.

(** ** The monad of coroutines *)

Section Monad.
Context {R : Type}.

Definition M (A : Type) : Type := world R -> outcome A * world R * list event.

Definition ret {A} (a : A) : M A := fun w => (Returned a, w, []).

Definition bind {A B} (m : M A) (k : A -> M B) : M B :=
  fun w =>
    match m w with
    | (Returned a, w', evs) =>
        let '(r, w'', evs') := k a w' in (r, w'', evs ++ evs')
    | (Raised e, w', evs) => (Raised e, w', evs)
    end.

Definition lift {A} (o : outcome A) : M A := fun w => (o, w, []).

Definition emit (e : event) : M unit := fun w => (Returned tt, w, [e]).

(** [try: m  except e: handler] *)
Definition try_except {A} (m : M A) (e : exn) (handler : M A) : M A :=
  fun w =>
    match m w with
    | (Raised e', w', evs) =>
        if exn_eqb e' e
        then let '(r, w'', evs') := handler w' in (r, w'', evs ++ evs')
        else (Raised e', w', evs)
    | r => r
    end.

(** [for x in l: ...], collecting what each round appends. *)
Fixpoint for_each {A B} (l : list A) (f : A -> M B) : M (list B) :=
  match l with
  | [] => ret []
  | x :: l' =>
      bind (f x) (fun y => bind (for_each l' f) (fun ys => ret (y :: ys)))
  end.
End Monad.

Notation "x <- m ;; k" := (bind m (fun x => k))
  (at level 61, m at next level, right associativity).
Notation "m ;; k" := (bind m (fun _ => k))
  (at level 61, right associativity).

(** ** The component *)

(** What an aiohttp handler receives and answers. *)
Record web_request : Type := mk_web_request {
  headers : list (string * string);
  query : list (string * string);
  payload : body
}.

Record web_response : Type := mk_web_response {
  resp_status : Z;
  resp_data : option dict
}.

(** [request.headers.get(k, None)]: header names match whatever their
    case. *)
Fixpoint header_get (h : list (string * string)) (k : string) : option string :=
  match h with
  | [] => None
  | (k', v) :: h' =>
      if String.eqb (string_of_list_ascii (List.map lower (list_ascii_of_string k')))
                    (string_of_list_ascii (List.map lower (list_ascii_of_string k)))
      then Some v
      else header_get h' k
  end.

(** [request.query.get(k, None)] *)
Fixpoint query_get (q : list (string * string)) (k : string) : option string :=
  match q with
  | [] => None
  | (k', v) :: q' => if String.eqb k k' then Some v else query_get q' k
  end.

(** [x in t] where [x] is a string or [None] and [t] a string. *)
Definition str_in (x : option string) (t : string) : outcome bool :=
  match x with
  | Some s => Returned (contains t s)
  | None => Raised TypeError
  end.

(** [i == x] where [i] is an [int] and [x] an [int] or [None]. *)
Definition int_eq_opt (i : Z) (x : option Z) : bool :=
  match x with
  | Some j => Z.eqb i j
  | None => false
  end.

(** The world after the remote services have moved on to [r]. *)
Definition set_remote {R} (w : world R) (r : R) : world R :=
  mk_world r (external_url w) (entry_data w) (webhook_view w).

Section Component.
Context {C : Const} {R : Type}.

(** How the services on the network answer a request, and what they
    remember of it. *)
Variable serve : request -> R -> response * R.

(** A request through [ClientSession] or the OAuth session. *)
Definition http (m : method) (u : url) (data : dict) : M (R := R) response :=
  fun w =>
    let rq := mk_request m u data in
    let '(resp, r') := serve rq (remote w) in
    (Returned resp, set_remote w r', [Request rq resp]).

Definition log (l : level) (m : message) : M (R := R) unit := emit (Log l m).

(** [json.loads(await response.text())] *)
Definition loads (b : body) : M (R := R) json :=
  lift match b with
       | Json v => Returned v
       | NotJson => Raised JSONDecodeError
       end.

(** [get_url(hass, allow_internal=False, allow_ip=False)] *)
Definition get_url : M (R := R) string :=
  fun w => (of_option NoURLAvailableError (external_url w), w, []).

Definition read_view : M (R := R) StravaWebhookView_obj :=
  fun w => (Returned (webhook_view w), w, []).

Definition read_entry_data : M (R := R) dict :=
  fun w => (Returned (entry_data w), w, []).

(** [hass.config_entries.async_update_entry(entry=entry, data=data)] *)
Definition async_update_entry (data : dict) : M (R := R) unit :=
  fun w =>
    (Returned tt,
     mk_world (remote w) (external_url w) data (webhook_view w),
     [UpdateEntry data]).

(** *** [StravaWebhookView.fetch_strava_data] *)

(** The body of the [for activity in activities] loop: the city of one
    activity. *)
Definition lookup_city (activity : json) : M (R := R) json :=
  start_latitude <- lift (get activity "start_latitude" (JInt 0)) ;;
  start_longitude <- lift (get activity "start_longitude" (JInt 0)) ;;
  geo_location_response <-
    http GET (geocode_url start_latitude start_longitude) [] ;;
  geo_location <- loads (text geo_location_response) ;;
  city <- lift (get geo_location "city" JNull) ;;
  if truthy city then ret city
  else lift (get geo_location "name" (JStr "Paradise City")).

(** The dict display of the list comprehension, its values in the order
    Python evaluates them. *)
Definition sensor_dict (cities : list json) (idx : nat) (activity : json)
  : outcome Activity :=
  obind (get activity "name" (JStr "Strava Activity")) (fun title =>
  obind (of_option IndexError (List.nth_error cities idx)) (fun city =>
  obind (get activity "type" (JStr "Ride")) (fun activity_type =>
  obind (obind (get activity "distance" (JInt (-1))) float_) (fun distance =>
  obind (obind (get activity "start_date_local" (JStr "2000-01-01T00:00:00Z"))
           strptime) (fun date =>
  obind (obind (get activity "elapsed_time" (JInt (-1))) float_) (fun duration =>
  obind (obind (get activity "moving_time" (JInt (-1))) float_) (fun moving_time =>
  obind (obind (get activity "kudos_count" (JInt (-1))) int) (fun kudos =>
  obind (div_float (float_of_Z (-1)) FACTOR_KILOJOULES_TO_KILOCALORIES)
    (fun default =>
  obind (get activity "kilojoules" (JFloat default)) (fun kilojoules =>
  obind (mul_float kilojoules FACTOR_KILOJOULES_TO_KILOCALORIES)
    (fun product =>
  obind (trunc product) (fun calories =>
  obind (obind (get activity "total_elevation_gain" (JInt (-1))) int)
    (fun elevation =>
  obind (obind (get activity "average_watts" (JInt (-1))) float_) (fun power =>
  obind (obind (get activity "achievement_count" (JInt (-1))) int)
    (fun trophies =>
  Returned
    (mk_activity title city activity_type distance date duration
       moving_time kudos calories elevation power trophies)))))))))))))))).

(** [[ {...} for idx, activity in enumerate(activities) ]], from index
    [idx] on. *)
Fixpoint sensor_dicts (cities : list json) (idx : nat) (activities : list json)
  : outcome (list Activity) :=
  match activities with
  | [] => Returned []
  | activity :: rest =>
      obind (sensor_dict cities idx activity) (fun a =>
      obind (sensor_dicts cities (S idx) rest) (fun l => Returned (a :: l)))
  end.

Definition fetch_strava_data : M (R := R) json :=
  log DEBUG FetchingData ;;
  activities_response <- http GET (activities_url MAX_NB_ACTIVITIES) [] ;;
  if Z.eqb (status activities_response) 200 then
    activities <- loads (text activities_response) ;;
    items <- lift (iter activities) ;;
    cities <- for_each items lookup_city ;;
    dicts <- lift (sensor_dicts cities 0 items) ;;
    emit (Fire (sorted_reverse sensor_date dicts)) ;;
    ret JNull
  else
    log ERROR (CouldNotFetch (status activities_response)) ;;
    ret JNull.

(** *** [StravaWebhookView.get] *)

Definition get_ (request : web_request) : M (R := R) web_response :=
  match query_get (query request) "hub.challenge" with
  | Some challenge =>
      if negb (String.eqb challenge "")
      then ret (mk_web_response HTTP_OK
                  (Some [("hub.challenge", JStr challenge)]))
      else ret (mk_web_response HTTP_OK None)
  | None => ret (mk_web_response HTTP_OK None)
  end.

(** *** [StravaWebhookView.post] *)

Definition post (request : web_request) : M (R := R) web_response :=
  let request_host := header_get (headers request) "Host" in
  subscription_id <-
    try_except
      (data <- loads (payload request) ;;
       v <- lift (get data "subscription_id" (JInt (-1))) ;;
       lift (int v))
      JSONDecodeError
      (ret (-1)) ;;
  log DEBUG (PostReceived request_host) ;;
  self <- read_view ;;
  matched <-
    (if int_eq_opt subscription_id (webhook_id self) then ret true
     else lift (str_in request_host (host self))) ;;
  (if matched : bool then emit (CreateTask fetch_task) else ret tt) ;;
  ret (mk_web_response HTTP_OK None).

(** *** [renew_webhook_subscription] *)

(** The two statements every path that does not return early ends with. *)
Definition finish (config_data : dict) : M (R := R) json :=
  async_update_entry config_data ;;
  ret (JBool true).

(** The body of [if len(existing_webhook_subscriptions) == 1:]. *)
Definition one_existing (config_data : dict) (existing : json)
  : M (R := R) json :=
  first <- lift (item0 existing) ;;
  id <- lift (item first "id") ;;
  let config_data := dict_set config_data CONF_WEBHOOK_ID id in
  current <- lift (dict_item config_data CONF_CALLBACK_URL) ;;
  registered <-
    lift (obind (item0 existing) (fun s => item s CONF_CALLBACK_URL)) ;;
  if negb (eq current registered) then
    log DEBUG (DeletingOutdated registered) ;;
    id <- lift (dict_item config_data CONF_WEBHOOK_ID) ;;
    client_id <- lift (dict_item config_data CONF_CLIENT_ID) ;;
    client_secret <- lift (dict_item config_data CONF_CLIENT_SECRET) ;;
    delete_response <-
      http DELETE (subscription_url id)
        [("client_id", client_id); ("client_secret", client_secret)] ;;
    if Z.eqb (status delete_response) 204 then
      log DEBUG DeletedOutdated ;;
      (* existing_webhook_subscriptions = []: nothing reads the variable
         after this, the [elif] that creates belongs to the [if] that was
         just taken *)
      finish config_data
    else
      log ERROR (UnexpectedDelete (status delete_response)) ;;
      ret JNull
  else finish config_data.

(** The body of [elif len(existing_webhook_subscriptions) == 0:]. *)
Definition none_existing (config_data : dict) : M (R := R) json :=
  current <- lift (dict_item config_data CONF_CALLBACK_URL) ;;
  log DEBUG (CreatingSubscription current) ;;
  client_id <- lift (dict_item config_data CONF_CLIENT_ID) ;;
  client_secret <- lift (dict_item config_data CONF_CLIENT_SECRET) ;;
  callback <- lift (dict_item config_data CONF_CALLBACK_URL) ;;
  post_response <-
    http POST WEBHOOK_SUBSCRIPTION_URL
      (dict_set
         (dict_set
            (dict_set (dict_set [] CONF_CLIENT_ID client_id)
               CONF_CLIENT_SECRET client_secret)
            CONF_CALLBACK_URL callback)
         "verify_token" (JStr "HA_STRAVA")) ;;
  if Z.eqb (status post_response) 201 then
    post_response_content <- loads (text post_response) ;;
    id <- lift (item post_response_content "id") ;;
    finish (dict_set config_data CONF_WEBHOOK_ID id)
  else
    log ERROR (UnexpectedCreate (status post_response)) ;;
    ret JNull.

(** The body of the last [else:]. *)
Definition several_existing (config_data : dict) (n : nat)
  : M (R := R) json :=
  current <- lift (dict_item config_data CONF_CALLBACK_URL) ;;
  log ERROR (ExpectedOneSubscription current n) ;;
  ret JNull.

Definition renew_webhook_subscription : M (R := R) json :=
  entry <- read_entry_data ;;
  let config_data := entry in
  found <-
    try_except (ha_host <- get_url ;; ret (Some ha_host))
      NoURLAvailableError
      (log ERROR NoPublicUrl ;; ret None) ;;
  match found with
  | None => ret JNull
  | Some ha_host =>
    let config_data :=
      dict_set config_data CONF_CALLBACK_URL
        (JStr (ha_host ++ "/api/strava/webhook")%string) in
    callback <- lift (dict_item config_data CONF_CALLBACK_URL) ;;
    callback_response <- http GET (url_of callback) [] ;;
    if negb (Z.eqb (status callback_response) 200) then
      log ERROR CallbackNotAvailable ;;
      ret JNull
    else
      client_id <- lift (dict_item entry CONF_CLIENT_ID) ;;
      client_secret <- lift (dict_item entry CONF_CLIENT_SECRET) ;;
      existing_response <-
        http GET WEBHOOK_SUBSCRIPTION_URL
          [("client_id", client_id); ("client_secret", client_secret)] ;;
      existing <- loads (text existing_response) ;;
      n <- lift (len existing) ;;
      if Nat.eqb n 1 then one_existing config_data existing
      else if Nat.eqb n 0 then none_existing config_data
      else several_existing config_data n
  end.
End Component.

(** ** Reading a run *)

Section Runs.
Context {R A : Type}.

Definition result (x : outcome A * world R * list event) : outcome A :=
  fst (fst x).
Definition final (x : outcome A * world R * list event) : world R :=
  snd (fst x).
Definition events (x : outcome A * world R * list event) : list event :=
  snd x.
End Runs.

Definition count (p : event -> bool) (evs : list event) : nat :=
  List.length (List.filter p evs).

(** The create call: [websession.post(url=WEBHOOK_SUBSCRIPTION_URL, ...)]. *)
Definition is_create (e : event) : bool :=
  match e with
  | Request (mk_request POST WEBHOOK_SUBSCRIPTION_URL _) _ => true
  | _ => false
  end.

(** The delete call: [websession.delete(url=WEBHOOK_SUBSCRIPTION_URL/id)]. *)
Definition is_delete (e : event) : bool :=
  match e with
  | Request (mk_request DELETE (subscription_url _) _) _ => true
  | _ => false
  end.

(** The call of [event_factory]. *)
Definition is_fire (e : event) : bool :=
  match e with
  | Fire _ => true
  | _ => false
  end.

(** A fetch handed to [hass.async_create_task]. *)
Definition is_fetch_task (e : event) : bool :=
  match e with
  | CreateTask fetch_task => true
  | _ => false
  end.

Definition is_update (e : event) : bool :=
  match e with
  | UpdateEntry _ => true
  | _ => false
  end.

(** ** Remote services to run the model against *)

(** Services with no memory: every request is answered from a table. *)
Definition scripted (answer : request -> response) (rq : request) (r : unit)
  : response * unit :=
  (answer rq, r).

(** A subscription service of the kind the reconciler talks to: it lists,
    creates (201, with the new id) and deletes (204) the subscriptions of
    the client, and keeps at most one.  The callback address answers the
    self-probe with 200. *)
Record subscriptions : Type := mk_subscriptions {
  registered : list json;
  next_id : Z
}.

Definition subscription (id : Z) (callback : json) : json :=
  JObj [("id", JInt id); ("callback_url", callback)].

Definition has_id (id : json) (s : json) : bool :=
  match item s "id" with
  | Returned i => eq i id
  | Raised _ => false
  end.

Definition subscription_service (rq : request) (st : subscriptions)
  : response * subscriptions :=
  match req_method rq, req_url rq with
  | GET, url_of _ => (mk_response 200 NotJson, st)
  | GET, WEBHOOK_SUBSCRIPTION_URL =>
      (mk_response 200 (Json (JArr (registered st))), st)
  | POST, WEBHOOK_SUBSCRIPTION_URL =>
      match registered st, dict_get (req_data rq) "callback_url" with
      | [], Some callback =>
          (mk_response 201 (Json (JObj [("id", JInt (next_id st))])),
           mk_subscriptions [subscription (next_id st) callback]
             (next_id st + 1))
      | _, _ => (mk_response 400 (Json (JObj [("message", JStr "Bad Request")])), st)
      end
  | DELETE, subscription_url id =>
      if List.existsb (has_id id) (registered st)
      then (mk_response 204 NotJson,
            mk_subscriptions
              (List.filter (fun s => negb (has_id id s)) (registered st))
              (next_id st))
      else (mk_response 404 (Json (JObj [("message", JStr "Record Not Found")])), st)
  | _, _ => (mk_response 404 NotJson, st)
  end.

(** One assignment of the constants of [const.py], to run the model on
    concrete inputs: the key under which the remote service reports a
    callback address, a page of ten activities, and 0.239006 kcal per kJ. *)
Definition sample_const : Const := {|
  CONF_CALLBACK_URL := "callback_url";
  MAX_NB_ACTIVITIES := 10;
  FACTOR_KILOJOULES_TO_KILOCALORIES := S754_finite false 8611098660314502 (-55)
|}.

(** [StravaWebhookView.__init__] *)
Definition StravaWebhookView (host : string) : StravaWebhookView_obj :=
  mk_view None host.

(** A Home Assistant instance reachable at [https://ha.example.org], with
    the credentials of the config flow in its entry. *)
Definition sample_world {R} (r : R) : world R :=
  mk_world r (Some "https://ha.example.org")
    [("client_id", JStr "4711"); ("client_secret", JStr "s3cr3t")]
    (StravaWebhookView "https://ha.example.org").


(** * Vocabulary of the properties *)

(** ** Order *)

(** [a] may stand in front of [b] in a list sorted with [reverse=True]. *)
Definition not_before (a b : datetime) : Prop := dt_ltb a b = false.

(** The order of a list sorted by [key] with [reverse=True]. *)
Definition desc {A : Type} (key : A -> datetime) (x y : A) : Prop :=
  not_before (key x) (key y).

(** ** The fetch *)

(** What [lookup_city] makes of the text of a geocode response. *)
Definition assigned (b : body) : outcome json :=
  match b with
  | NotJson => Raised JSONDecodeError
  | Json geo_location =>
      obind (get geo_location "city" JNull) (fun city =>
      if truthy city then Returned city
      else get geo_location "name" (JStr "Paradise City"))
  end.

(** The city as the specification words it: the "city" field when present
    and truthy, otherwise the "name" field when present, otherwise the
    placeholder. *)
Definition city_of (geo_location : dict) : json :=
  let fallback :=
    match dict_get geo_location "name" with
    | Some name => name
    | None => JStr "Paradise City"
    end in
  match dict_get geo_location "city" with
  | Some city => if truthy city then city else fallback
  | None => fallback
  end.

Definition geocode_response (e : event) : list response :=
  match e with
  | Request (mk_request GET (geocode_url _ _) _) resp => [resp]
  | _ => []
  end.

(** The responses to the geocode requests of a run, in the order they
    came. *)
Definition geocode_responses (evs : list event) : list response :=
  List.flat_map geocode_response evs.

(** The request for the page of activities. *)
Definition activities_request {C : Const} : request :=
  mk_request GET (activities_url MAX_NB_ACTIVITIES) [].

(** What [int(activity.get("kilojoules", -1 / F) * F)] is when the activity
    has no "kilojoules". *)
Definition calories_default {C : Const} : outcome Z :=
  obind (div_float (float_of_Z (-1)) FACTOR_KILOJOULES_TO_KILOCALORIES)
    (fun default =>
       obind (mul_float (JFloat default) FACTOR_KILOJOULES_TO_KILOCALORIES)
         trunc).

(** [dt.strptime("2000-01-01T00:00:00Z", ...)] *)
Definition sentinel_date : datetime := mk_datetime 2000 1 1 0 0 0.


(** The activity lists a run handed to [event_factory]. *)
Definition published (evs : list event) : list (list Activity) :=
  List.flat_map (fun e => match e with Fire acts => [acts] | _ => [] end) evs.

(** ** The POST handler *)

(** The subscription id [post] reads from the body of a request: what the
    [try] block computes, with the one exception its [except] clause
    catches. *)
Definition extracted (b : body) : outcome Z :=
  match
    match b with
    | NotJson => Raised JSONDecodeError
    | Json data => obind (get data "subscription_id" (JInt (-1))) int
    end
  with
  | Raised JSONDecodeError => Returned (-1)
  | o => o
  end.

(** The answer every path of [post] that returns ends with. *)
Definition ok_response : web_response := mk_web_response HTTP_OK None.

(** [request_host in self.host], read as a condition: a request without a
    Host header matches nothing. *)
Definition host_matches (self : StravaWebhookView_obj) (request : web_request)
  : bool :=
  match header_get (headers request) "Host" with
  | Some h => contains (host self) h
  | None => false
  end.

(** ** The reconciler *)

(** The responses to the requests that list the subscriptions. *)
Definition list_response (e : event) : list response :=
  match e with
  | Request (mk_request GET WEBHOOK_SUBSCRIPTION_URL _) resp => [resp]
  | _ => []
  end.

Definition list_responses (evs : list event) : list response :=
  List.flat_map list_response evs.

(** A run that reports success ends with the one update of the config
    entry it makes; any other run makes none and leaves the entry as it
    was. *)
Definition updates_on_success {R : Type} (w : world R)
           (x : outcome json * world R * list event) : Prop :=
  (result x = Returned (JBool true)
   /\ exists pre data,
        events x = pre ++ [UpdateEntry data]
        /\ count is_update pre = 0%nat
        /\ entry_data (final x) = data)
  \/ (result x <> Returned (JBool true)
      /\ count is_update (events x) = 0%nat
      /\ entry_data (final x) = entry_data w).

(** What every branch of the reconciler keeps to: it does not list the
    subscriptions again, does not both delete and create, leaves the view
    alone, and updates the entry on success only. *)
Definition well_behaved {R : Type} (w : world R)
           (x : outcome json * world R * list event) : Prop :=
  list_responses (events x) = []
  /\ webhook_view (final x) = webhook_view w
  /\ (count is_create (events x) = 0%nat \/ count is_delete (events x) = 0%nat)
  /\ updates_on_success w x.

(** The answer of the services to [rq] in [w], and the world after it. *)
Definition answer {R : Type} (serve : request -> R -> response * R)
           (rq : request) (w : world R) : response :=
  fst (serve rq (remote w)).

Definition after {R : Type} (serve : request -> R -> response * R)
           (rq : request) (w : world R) : world R :=
  set_remote w (snd (serve rq (remote w))).

(** The self-probe and the request that lists the subscriptions. *)
Definition probe_request (callback : json) : request :=
  mk_request GET (url_of callback) [].

Definition list_request (client_id client_secret : json) : request :=
  mk_request GET WEBHOOK_SUBSCRIPTION_URL
    [("client_id", client_id); ("client_secret", client_secret)].

(** The branch taken on [n] existing subscriptions. *)
Definition branch {C : Const} {R : Type}
           (serve : request -> R -> response * R) (config_data : dict)
           (existing : json) (n : nat) : M (R := R) json :=
  if Nat.eqb n 1 then one_existing serve config_data existing
  else if Nat.eqb n 0 then none_existing serve config_data
  else several_existing config_data n.

(** [n] runs of the reconciler, one after the other. *)
Fixpoint renew_times {C : Const} {R : Type}
         (serve : request -> R -> response * R) (n : nat) (w : world R)
  : world R :=
  match n with
  | O => w
  | S n' => renew_times serve n' (final (renew_webhook_subscription serve w))
  end.

(** ** Sample inputs *)

(** Services that answer the activities request with [activities] and every
    other request with [geo], both with status 200. *)
Definition page (activities geo : body) (rq : request) : response :=
  match req_url rq with
  | activities_url _ => mk_response 200 activities
  | _ => mk_response 200 geo
  end.

Definition oslo : body := Json (JObj [("city", JStr "Oslo")]).

Definition morning_ride : dict :=
  [("name", JStr "Morning Ride"); ("type", JStr "Ride");
   ("distance", JInt 24931); ("start_date_local", JStr "2018-02-16T06:52:54Z");
   ("elapsed_time", JInt 4500); ("moving_time", JInt 4200);
   ("kudos_count", JInt 3); ("kilojoules", JInt 788);
   ("total_elevation_gain", JInt 516); ("average_watts", JInt 175);
   ("achievement_count", JInt 0)].

Definition evening_run : dict :=
  [("name", JStr "Evening Run"); ("type", JStr "Run");
   ("start_date_local", JStr "2018-02-17T18:05:00Z")].

(** The run of [fetch_strava_data] against [page activities geo]. *)
Definition sample_fetch (activities geo : body)
  : outcome json * world unit * list event :=
  fetch_strava_data (C := sample_const) (scripted (page activities geo))
    (sample_world tt).

(** A page with one activity more than was asked for. *)
Definition long_page : body :=
  Json
    (JArr
       (List.repeat (JObj evening_run)
          (S (MAX_NB_ACTIVITIES (Const := sample_const))))).

(** What the sample run below publishes. *)
Definition two_activities : list Activity :=
  Eval vm_compute in
    List.hd []
      (published
         (events
            (sample_fetch (Json (JArr [JObj morning_ride; JObj evening_run]))
               oslo))).


(** A notification whose Host header names the instance. *)
Definition notification (b : body) : web_request :=
  mk_web_request [("Host", "ha.example.org")] [] b.

(** Home Assistant against the subscription service holding [subs]. *)
Definition reconciled_with (subs : list json) : world subscriptions :=
  sample_world (mk_subscriptions subs 8).

Definition sample_renew (subs : list json)
  : outcome json * world subscriptions * list event :=
  renew_webhook_subscription (C := sample_const) subscription_service
    (reconciled_with subs).

Definition current_callback : json :=
  JStr "https://ha.example.org/api/strava/webhook".

Definition stale_callback : json :=
  JStr "https://old.example.org/api/strava/webhook".

(** ** Tactics *)



(** Run a computation symbolically: split on every scrutinee. *)
Ltac exec :=
  repeat
    (cbn [fst snd app exn_eqb obind negb];
     match goal with
     | |- context [match ?x with _ => _ end] =>
         lazymatch x with
         | context [match _ with _ => _ end] => fail
         | _ => destruct x eqn:?
         end
     end).

(** Close [well_behaved] on a run whose events are spelled out. *)
Ltac behaved :=
  unfold well_behaved, updates_on_success, result, final, events, count,
    list_responses, set_remote;
  cbn [fst snd app List.flat_map list_response List.filter is_update
       is_create is_delete List.length entry_data webhook_view external_url];
  repeat split;
  try reflexivity; try (left; reflexivity);
  try (right; repeat split; (reflexivity || discriminate));
  try (left; split;
       [reflexivity
       |eexists _, _; split; [|split];
        [match goal with
         | |- ?l = _ =>
             exact (eq_refl
                    : l = List.removelast l
                          ++ [List.last l (Log DEBUG FetchingData)])
         end
        |reflexivity|reflexivity]]).

(** * The start-up coroutines and more vocabulary *)

(** The requests of a run, in the order they were made. *)
Definition requests (evs : list event) : list request :=
  List.flat_map (fun e => match e with Request rq _ => [rq] | _ => [] end) evs.

(** The request [lookup_city] makes for an activity: its coordinates, 0
    for one that is missing; there is none when the activity is no dict. *)
Definition geocode_request (activity : json) : outcome request :=
  obind (get activity "start_latitude" (JInt 0)) (fun start_latitude =>
  obind (get activity "start_longitude" (JInt 0)) (fun start_longitude =>
  Returned (mk_request GET (geocode_url start_latitude start_longitude) []))).

(** An event of [fetch_strava_data]: a log record, the update event, or a
    GET request for the activities or for a city. *)
Definition is_fetch_event (e : event) : bool :=
  match e with
  | Log _ _ | Fire _ => true
  | Request (mk_request GET (activities_url _) _) _
  | Request (mk_request GET (geocode_url _ _) _) _ => true
  | _ => false
  end.

(** An event of [post]: a log record or a scheduled task. *)
Definition is_post_event (e : event) : bool :=
  match e with
  | Log _ _ | CreateTask _ => true
  | _ => false
  end.

(** A request to the subscription service. *)
Definition to_subscription_service (rq : request) : bool :=
  match req_url rq with
  | WEBHOOK_SUBSCRIPTION_URL | subscription_url _ => true
  | _ => false
  end.

Section StartUp.
Context {C : Const} {R : Type}.
Variable serve : request -> R -> response * R.

(** [strava_startup_functions], the coroutine [async_setup_entry] hands to
    [async_create_task] on start and on reload. *)
Definition strava_startup_functions : M (R := R) json :=
  renew_webhook_subscription serve ;;
  fetch_strava_data serve ;;
  ret (JBool true).

(** [async_strava_config_update_handler] *)
Definition async_strava_config_update_handler : M (R := R) json :=
  fetch_strava_data serve ;;
  ret JNull.
End StartUp.

(** The elements of [l] whose key is the timestamp [d]. *)
Definition dated {A : Type} (key : A -> datetime) (d : datetime) (l : list A)
  : list A :=
  List.filter
    (fun a => match dt_compare (key a) d with Eq => true | _ => false end) l.

(** An event of [renew_webhook_subscription]: a log record, an update of
    the config entry, the self-probe, or a request to the subscription
    service. *)
Definition is_renew_event (e : event) : bool :=
  match e with
  | Log _ _ | UpdateEntry _ => true
  | Request (mk_request GET (url_of _) _) _ => true
  | Request rq _ => to_subscription_service rq
  | _ => false
  end.

(** * The config entry: set-up and unloading *)

(** More of [const.py]: the names of the two bus events of the component,
    parameters like the constants above. *)
Class EventNames : Type := {
  CONF_STRAVA_CONFIG_UPDATE_EVENT : string;
  CONF_STRAVA_RELOAD_EVENT : string
}.

(** From [homeassistant.const]. *)
Definition EVENT_HOMEASSISTANT_START : string := "homeassistant_start".
Definition EVENT_CORE_CONFIG_UPDATE : string := "core_config_updated".

Definition PLATFORMS : list string := ["sensor"].

(** The closures [async_setup_entry] hands to [hass.bus.async_listen]. *)
Variant handler : Type :=
  | ha_start_handler
  | core_config_update_handler
  | component_reload_handler
  | strava_config_update_handler.

(** A listener on the bus: the event type it listens to, the closure, and
    the view the closure was made with.  Two calls of [async_listen] give
    two listeners, told apart by [listener_id]. *)
Record listener : Type := mk_listener {
  listener_id : nat;
  event_type : string;
  job : handler;
  closed_over : StravaWebhookView_obj
}.

(** The callables [hass.bus.async_listen] and [entry.add_update_listener]
    return. *)
Variant remover : Type :=
  | remove_listener (id : nat)
  | remove_update_listener (id : nat).

(** What the closures and the set-up hand to [hass.async_create_task]. *)
Variant coroutine : Type :=
  | startup_of (view : StravaWebhookView_obj)
  | config_update_of (view : StravaWebhookView_obj)
  | renew_of (view : StravaWebhookView_obj)
  | fetch_of (view : StravaWebhookView_obj)
  | async_forward_entry_setup (component : string).

(** What a closure does with an event whose data has the keys [keys]. *)
Definition handle (l : listener) (keys : list string) : list coroutine :=
  match job l with
  | ha_start_handler => [startup_of (closed_over l)]
  | component_reload_handler => [startup_of (closed_over l)]
  | strava_config_update_handler => [config_update_of (closed_over l)]
  | core_config_update_handler =>
      (if List.existsb (String.eqb "external_url") keys
       then [renew_of (closed_over l)] else [])
      ++ (if List.existsb (String.eqb "unit_system") keys
          then [fetch_of (closed_over l)] else [])
  end.

(** The logging calls of [strava_config_update_helper] and
    [async_unload_entry]. *)
Variant entry_message : Type :=
  | ConfigUpdateFired (data : dict)
  | DeletedSubscription (callback : json)
  | CouldNotDelete (callback : json) (text : body)
  | ExpectedOne (callback : json) (found : nat).

(** The instance: the state the coroutines above run in, [hass.data] at
    [DOMAIN] (absent, or a dict in which the list of removers is absent or
    present), the listeners on the bus, the update listeners of the entry,
    and the number of listeners made so far. *)
Record hass (R : Type) : Type := mk_hass {
  core : world R;
  domain_data : option (option (list remover));
  bus : list listener;
  update_listeners : list nat;
  allocated : nat
}.
Arguments mk_hass {R}.
Arguments core {R}.
Arguments domain_data {R}.
Arguments bus {R}.
Arguments update_listeners {R}.
Arguments allocated {R}.

(** What set-up, unloading and the helper leave behind: the events of the
    coroutines above, the removers called, the coroutines scheduled, the
    platforms asked to unload, and their log records. *)
Variant hass_event : Type :=
  | Core (e : event)
  | Called (r : remover)
  | Scheduled (c : coroutine)
  | Unloading (component : string)
  | Logged (l : level) (m : entry_message).

(** The calls into Home Assistant whose outcome this module does not
    decide: looking up and registering the OAuth implementation and
    registering the view raise or return; refreshing the token and
    unloading a platform may also change the instance. *)
Class Library (R : Type) : Type := {
  async_get_config_entry_implementation : hass R -> outcome unit;
  async_register_implementation : hass R -> outcome unit;
  async_ensure_token_valid : hass R -> outcome unit * hass R;
  register_view : StravaWebhookView_obj -> hass R -> outcome unit;
  async_forward_entry_unload : string -> hass R -> outcome bool * hass R
}.

Section Hass.
Context {R : Type}.

Definition HM (A : Type) : Type :=
  hass R -> outcome A * hass R * list hass_event.

Definition hret {A} (a : A) : HM A := fun h => (Returned a, h, []).

Definition hbind {A B} (m : HM A) (k : A -> HM B) : HM B :=
  fun h =>
    match m h with
    | (Returned a, h', evs) =>
        let '(r, h'', evs') := k a h' in (r, h'', evs ++ evs')
    | (Raised e, h', evs) => (Raised e, h', evs)
    end.

Definition hlift {A} (o : outcome A) : HM A := fun h => (o, h, []).

Definition hemit (e : hass_event) : HM unit := fun h => (Returned tt, h, [e]).

(** [try: m  except e: handler] *)
Definition htry_except {A} (m : HM A) (e : exn) (handler : HM A) : HM A :=
  fun h =>
    match m h with
    | (Raised e', h', evs) =>
        if exn_eqb e' e
        then let '(r, h'', evs') := handler h' in (r, h'', evs ++ evs')
        else (Raised e', h', evs)
    | r => r
    end.

Fixpoint hfor_each {A B} (l : list A) (f : A -> HM B) : HM (list B) :=
  match l with
  | [] => hret []
  | x :: l' =>
      hbind (f x) (fun y => hbind (hfor_each l' f) (fun ys => hret (y :: ys)))
  end.

(** A call into the library that reads the instance, and one that may
    change it. *)
Definition ask {A} (f : hass R -> outcome A) : HM A := fun h => (f h, h, []).

Definition call {A} (f : hass R -> outcome A * hass R) : HM A :=
  fun h => let '(o, h') := f h in (o, h', []).

Definition set_core (h : hass R) (w : world R) : hass R :=
  mk_hass w (domain_data h) (bus h) (update_listeners h) (allocated h).

Definition set_domain (h : hass R) (d : option (option (list remover)))
  : hass R :=
  mk_hass (core h) d (bus h) (update_listeners h) (allocated h).

(** A coroutine of the module, run on the instance. *)
Definition core_run {A} (m : M (R := R) A) : HM A :=
  fun h =>
    let '(o, w, evs) := m (core h) in (o, set_core h w, List.map Core evs).

Definition hresult {A} (x : outcome A * hass R * list hass_event)
  : outcome A := fst (fst x).
Definition hfinal {A} (x : outcome A * hass R * list hass_event) : hass R :=
  snd (fst x).
Definition hevents {A} (x : outcome A * hass R * list hass_event)
  : list hass_event := snd x.
End Hass.

Declare Scope hass_scope.
Notation "x <- m ;; k" := (hbind m (fun x => k))
  (at level 61, m at next level, right associativity) : hass_scope.
Notation "m ;; k" := (hbind m (fun _ => k))
  (at level 61, right associativity) : hass_scope.

(** [hass.bus.async_listeners().get(t, 0)] on the bus [b]. *)
Definition listeners (b : list listener) (t : string) : nat :=
  List.length (List.filter (fun l => String.eqb (event_type l) t) b).

(** [l.remove(x)]: the first [x] goes; there must be one. *)
Fixpoint list_remove (x : nat) (l : list nat) : outcome (list nat) :=
  match l with
  | [] => Raised ValueError
  | y :: l' =>
      if Nat.eqb x y then Returned l'
      else obind (list_remove x l') (fun r => Returned (y :: r))
  end.

Section Entry.
Context {C : Const} {N : EventNames} {R : Type} {L : Library R}.
Variable serve : request -> R -> response * R.

Local Open Scope hass_scope.

(** [hass.data.setdefault(DOMAIN, {})] *)
Definition setdefault_domain : HM (R := R) unit :=
  fun h =>
    (Returned tt,
     match domain_data h with
     | None => set_domain h (Some None)
     | Some _ => h
     end,
     []).

(** [hass.data[DOMAIN]] *)
Definition domain : HM (R := R) (option (list remover)) :=
  fun h => (of_option KeyError (domain_data h), h, []).

(** [hass.data[DOMAIN]["remove_update_listener"]] *)
Definition read_removers : HM (R := R) (list remover) :=
  d <- domain ;;
  hlift (of_option KeyError d).

(** [hass.data[DOMAIN]["remove_update_listener"] = l] *)
Definition write_removers (l : list remover) : HM (R := R) unit :=
  domain ;;
  fun h => (Returned tt, set_domain h (Some (Some l)), []).

(** [del hass.data[DOMAIN]] *)
Definition del_domain : HM (R := R) unit :=
  domain ;;
  fun h => (Returned tt, set_domain h None, []).

(** [hass.bus.async_listeners().get(t, 0)] *)
Definition async_listeners_get (t : string) : HM (R := R) nat :=
  fun h => (Returned (listeners (bus h) t), h, []).

(** [hass.bus.async_listen(t, job)], [job] a closure over [view] *)
Definition async_listen (t : string) (j : handler)
           (view : StravaWebhookView_obj) : HM (R := R) remover :=
  fun h =>
    (Returned (remove_listener (allocated h)),
     mk_hass (core h) (domain_data h)
       (bus h ++ [mk_listener (allocated h) t j view])
       (update_listeners h) (S (allocated h)),
     []).

(** [entry.add_update_listener(strava_config_update_helper)] *)
Definition add_update_listener : HM (R := R) remover :=
  fun h =>
    (Returned (remove_update_listener (allocated h)),
     mk_hass (core h) (domain_data h) (bus h)
       (update_listeners h ++ [allocated h]) (S (allocated h)),
     []).

(** [remove_listener()]: the bus forgets the listener, and only warns when
    it does not know it; the entry removes the update listener from its
    list with [list.remove]. *)
Definition call_remover (r : remover) : HM (R := R) unit :=
  hemit (Called r) ;;
  match r with
  | remove_listener id =>
      fun h =>
        (Returned tt,
         mk_hass (core h) (domain_data h)
           (List.filter (fun l => negb (Nat.eqb (listener_id l) id)) (bus h))
           (update_listeners h) (allocated h),
         [])
  | remove_update_listener id =>
      fun h =>
        match list_remove id (update_listeners h) with
        | Returned l =>
            (Returned tt,
             mk_hass (core h) (domain_data h) (bus h) l (allocated h), [])
        | Raised e => (Raised e, h, [])
        end
  end.

(** [entry.data[k]] *)
Definition entry_item (k : string) : HM (R := R) json :=
  fun h => (dict_item (entry_data (core h)) k, h, []).

(** *** [strava_config_update_helper] *)

(** [hass.bus.fire(t, data)]: every listener for [t] gets the event, and
    its closure hands its coroutines to [hass.async_create_task]. *)
Definition fire (t : string) (keys : list string) : HM (R := R) unit :=
  fun h =>
    (Returned tt, h,
     List.map Scheduled
       (List.flat_map (fun l => handle l keys)
          (List.filter (fun l => String.eqb (event_type l) t) (bus h)))).

(** The update listener of the entry; its second argument is the entry. *)
Definition strava_config_update_helper : HM (R := R) unit :=
  data <- (fun h => (Returned (entry_data (core h)), h, [])) ;;
  hemit (Logged DEBUG (ConfigUpdateFired data)) ;;
  fire CONF_STRAVA_CONFIG_UPDATE_EVENT [].

(** *** [async_setup_entry] *)

(** The block under [# OAuth Stuff]. *)
Definition oauth_session : HM (R := R) unit :=
  htry_except (ask async_get_config_entry_implementation)
    ValueError
    (entry_item CONF_CLIENT_ID ;;
     entry_item CONF_CLIENT_SECRET ;;
     ask async_register_implementation) ;;
  call async_ensure_token_valid.

(** [hass.http.register_view(view)]: a view the library accepts is the
    registered view from then on. *)
Definition register (view : StravaWebhookView_obj) : HM (R := R) unit :=
  ask (register_view view) ;;
  fun h =>
    (Returned tt,
     set_core h
       (mk_world (remote (core h)) (external_url (core h))
          (entry_data (core h)) view),
     []).

(** One of the four statements
    [if hass.bus.async_listeners().get(t, 0) < 1:
         hass.data[DOMAIN]["remove_update_listener"].append(
             hass.bus.async_listen(t, job))]. *)
Definition listen_once (t : string) (j : handler)
           (view : StravaWebhookView_obj) : HM (R := R) unit :=
  n <- async_listeners_get t ;;
  if Nat.ltb n 1 then
    removers <- read_removers ;;
    r <- async_listen t j view ;;
    fun h => (Returned tt, set_domain h (Some (Some (removers ++ [r]))), [])
  else hret tt.

(** The block under [# register event listeners]. *)
Definition register_event_listeners (view : StravaWebhookView_obj)
  : HM (R := R) unit :=
  write_removers [] ;;
  listen_once EVENT_HOMEASSISTANT_START ha_start_handler view ;;
  listen_once EVENT_CORE_CONFIG_UPDATE core_config_update_handler view ;;
  listen_once CONF_STRAVA_RELOAD_EVENT component_reload_handler view ;;
  listen_once CONF_STRAVA_CONFIG_UPDATE_EVENT strava_config_update_handler
    view ;;
  r <- add_update_listener ;;
  write_removers [r].

Definition async_setup_entry : HM (R := R) bool :=
  setdefault_domain ;;
  oauth_session ;;
  host <- core_run get_url ;;
  let strava_webhook_view := StravaWebhookView host in
  register strava_webhook_view ;;
  register_event_listeners strava_webhook_view ;;
  hfor_each PLATFORMS
    (fun component => hemit (Scheduled (async_forward_entry_setup component))) ;;
  hret true.

(** *** [async_unload_entry] *)

(** The block under [# delete strava webhook subscription]: [false] when
    it returns [False], [true] when control leaves the [async with]. *)
Definition delete_subscription : HM (R := R) bool :=
  client_id <- entry_item CONF_CLIENT_ID ;;
  client_secret <- entry_item CONF_CLIENT_SECRET ;;
  existing_response <-
    core_run
      (http serve GET WEBHOOK_SUBSCRIPTION_URL
         [("client_id", client_id); ("client_secret", client_secret)]) ;;
  existing <- core_run (loads (text existing_response)) ;;
  n <- hlift (len existing) ;;
  if Nat.eqb n 1 then
    first <- hlift (item0 existing) ;;
    id <- hlift (item first "id") ;;
    client_id <- entry_item CONF_CLIENT_ID ;;
    client_secret <- entry_item CONF_CLIENT_SECRET ;;
    delete_response <-
      core_run
        (http serve DELETE (subscription_url id)
           [("client_id", client_id); ("client_secret", client_secret)]) ;;
    if Z.eqb (status delete_response) 204 then
      callback <- entry_item CONF_CALLBACK_URL ;;
      hemit (Logged DEBUG (DeletedSubscription callback)) ;;
      hret true
    else
      callback <- entry_item CONF_CALLBACK_URL ;;
      hemit (Logged ERROR (CouldNotDelete callback (text delete_response))) ;;
      hret false
  else
    callback <- entry_item CONF_CALLBACK_URL ;;
    hemit (Logged ERROR (ExpectedOne callback n)) ;;
    hret false.

Definition async_unload_entry : HM (R := R) bool :=
  ask async_get_config_entry_implementation ;;
  removers <- read_removers ;;
  hfor_each removers call_remover ;;
  deleted <- delete_subscription ;;
  if deleted : bool then
    oks <-
      hfor_each PLATFORMS
        (fun component =>
           hemit (Unloading component) ;;
           call (async_forward_entry_unload component)) ;;
    let unload_ok := List.forallb (fun ok : bool => ok) oks in
    del_domain ;;
    hret unload_ok
  else hret false.
End Entry.

(** ** Vocabulary and sample inputs for set-up and unloading *)

(** The four event types [async_setup_entry] listens to, each with the
    closure it registers for it. *)
Definition wiring {N : EventNames} : list (string * handler) :=
  [(EVENT_HOMEASSISTANT_START, ha_start_handler);
   (EVENT_CORE_CONFIG_UPDATE, core_config_update_handler);
   (CONF_STRAVA_RELOAD_EVENT, component_reload_handler);
   (CONF_STRAVA_CONFIG_UPDATE_EVENT, strava_config_update_handler)].

Definition listened {N : EventNames} : list string := List.map fst wiring.

(** The statements that listen for [l], one after the other, and then [k]. *)
Fixpoint listen_each {R : Type} (l : list (string * handler))
         (view : StravaWebhookView_obj) (k : HM (R := R) unit)
  : HM (R := R) unit :=
  match l with
  | [] => k
  | (t, j) :: l' => hbind (listen_once t j view) (fun _ => listen_each l' view k)
  end.

(** The requests of a run, the removers it called and the platforms it
    asked to unload. *)
Definition core_events (evs : list hass_event) : list event :=
  List.flat_map (fun e => match e with Core e' => [e'] | _ => [] end) evs.

Definition called (evs : list hass_event) : list remover :=
  List.flat_map (fun e => match e with Called r => [r] | _ => [] end) evs.

Definition unloading (evs : list hass_event) : list string :=
  List.flat_map (fun e => match e with Unloading c => [c] | _ => [] end) evs.

(** What is left of [async_unload_entry] once the subscription is
    deleted. *)
Definition unload_platforms {R : Type} {L : Library R} : HM (R := R) bool :=
  hbind
    (hfor_each PLATFORMS
       (fun component =>
          hbind (hemit (Unloading component))
            (fun _ => call (async_forward_entry_unload component))))
    (fun oks =>
       hbind del_domain
         (fun _ => hret (List.forallb (fun ok : bool => ok) oks))).

(** One assignment of the event names, and a library in which every call
    returns and changes nothing. *)
Definition sample_names : EventNames := {|
  CONF_STRAVA_CONFIG_UPDATE_EVENT := "ha_strava_config_update";
  CONF_STRAVA_RELOAD_EVENT := "ha_strava_reload"
|}.

Definition plain_library (R : Type) : Library R := {|
  async_get_config_entry_implementation := fun _ => Returned tt;
  async_register_implementation := fun _ => Returned tt;
  async_ensure_token_valid := fun h => (Returned tt, h);
  register_view := fun _ _ => Returned tt;
  async_forward_entry_unload := fun _ h => (Returned true, h)
|}.

(** An instance that has not set the entry up, against the subscription
    service holding [subs]. *)
Definition fresh_hass (subs : list json) : hass subscriptions :=
  mk_hass (reconciled_with subs) None [] [] 0.

Definition sample_setup (subs : list json)
  : outcome bool * hass subscriptions * list hass_event :=
  async_setup_entry (N := sample_names) (L := plain_library subscriptions)
    (fresh_hass subs).

(** The entry set up, reconciled, and then unloaded. *)
Definition set_up_and_reconciled (subs : list json) : hass subscriptions :=
  let h := hfinal (sample_setup subs) in
  set_core h
    (final
       (renew_webhook_subscription (C := sample_const) subscription_service
          (core h))).

Definition sample_unload (h : hass subscriptions)
  : outcome bool * hass subscriptions * list hass_event :=
  async_unload_entry (C := sample_const) (L := plain_library subscriptions)
    subscription_service h.

(** A request of [async_unload_entry]: the listing or a delete call. *)
Definition is_unload_request (e : event) : bool :=
  match e with
  | Request (mk_request GET WEBHOOK_SUBSCRIPTION_URL _) _ => true
  | Request (mk_request DELETE (subscription_url _) _) _ => true
  | _ => false
  end.

(** An instance without a public address, and one on which an earlier
    set-up has left a listener for the start of Home Assistant. *)
Definition no_address_hass : hass subscriptions :=
  mk_hass
    (mk_world (mk_subscriptions [] 8) None
       [("client_id", JStr "4711"); ("client_secret", JStr "s3cr3t")]
       (StravaWebhookView ""))
    None [] [] 0.

Definition reloading_hass : hass subscriptions :=
  mk_hass (reconciled_with []) (Some None)
    [mk_listener 0 "homeassistant_start" ha_start_handler
       (StravaWebhookView "https://old.example.org")]
    [] 1.

(** The paths through the network part of [async_unload_entry], [run] its
    equation. *)
Ltac delete_paths run serve h :=
  rewrite run; cbn zeta;
  destruct (dict_item (entry_data (core h)) CONF_CLIENT_ID)
    as [client_id|?];
  [destruct (dict_item (entry_data (core h)) CONF_CLIENT_SECRET)
     as [client_secret|?];
   [destruct (text (answer serve (list_request client_id client_secret)
                      (core h))) as [|existing] eqn:Et;
    [|destruct (len existing) as [n|?] eqn:En;
      [destruct (Nat.eqb_spec n 1) as [Hn|Hn];
       [destruct (obind (item0 existing) (fun s => item s "id"))
          as [id|?] eqn:Eid;
        [destruct (dict_item (entry_data (core h)) CONF_CALLBACK_URL)
           as [callback|?] eqn:Ec;
         [match goal with
          | |- context [Z.eqb ?a 204] => destruct (Z.eqb_spec a 204) as [Hs|Hs]
          end|]|]
       |destruct (dict_item (entry_data (core h)) CONF_CALLBACK_URL)
          as [callback|?] eqn:Ec]|]]|]|];
  unfold hresult, hfinal, hevents, core_events, called, unloading, set_core,
    after, set_remote;
  cbn [fst snd app List.flat_map core domain_data bus update_listeners
       allocated entry_data].

(** ** Vocabulary of the error paths *)



(** The geocode requests of a run, each with its answer, in the order they
    were made. *)
Definition geocode_exchanges (evs : list event) : list (request * response) :=
  List.flat_map
    (fun e =>
       match e with
       | Request (mk_request GET (geocode_url lat lon) data) resp =>
           [(mk_request GET (geocode_url lat lon) data, resp)]
       | _ => []
       end)
    evs.


(** ** More sample inputs *)

(** A walk that starts when the evening run does. *)
Definition evening_walk : dict :=
  [("name", JStr "Evening Walk"); ("type", JStr "Walk");
   ("start_date_local", JStr "2018-02-17T18:05:00Z")].

Definition tied_page : body :=
  Json (JArr [JObj evening_run; JObj morning_ride; JObj evening_walk]).

(** What the run on [tied_page] publishes. *)
Definition tied_activities : list Activity :=
  Eval vm_compute in
    List.hd [] (published (events (sample_fetch tied_page oslo))).

(** Two activities that start in different places, and services that know
    the city of a latitude. *)
Definition oslo_ride : dict :=
  [("name", JStr "Oslo Ride"); ("start_latitude", JInt 59);
   ("start_longitude", JInt 10);
   ("start_date_local", JStr "2018-02-16T06:52:54Z")].

Definition rome_run : dict :=
  [("name", JStr "Rome Run"); ("start_latitude", JInt 41);
   ("start_longitude", JInt 12);
   ("start_date_local", JStr "2018-02-17T18:05:00Z")].

Definition atlas (rq : request) : response :=
  match req_url rq with
  | activities_url _ =>
      mk_response 200 (Json (JArr [JObj oslo_ride; JObj rome_run]))
  | geocode_url (JInt 59) _ =>
      mk_response 200 (Json (JObj [("city", JStr "Oslo")]))
  | _ => mk_response 200 (Json (JObj [("city", JStr "Rome")]))
  end.

Definition atlas_fetch : outcome json * world unit * list event :=
  fetch_strava_data (C := sample_const) (scripted atlas) (sample_world tt).




(** * Properties *)

(** ** The builtins on sample arguments *)

Example int_of_str_samples :
  List.map int_of_str [" 12 "; "1_0"; "+5"; "-0"; "_1"; "1__0"; ""; "1.5"; "+ 5"]
  = [Some 12; Some 10; Some 5; Some 0; None; None; None; None; None].
Proof. reflexivity. Qed.

Example float_of_str_samples :
  List.map float_of_str ["0.239006"; "1."; ".5"; "1e400"; "-1e-400"; "."; "1e"]
  = [Some (S754_finite false 8611098660314502 (-55));
     Some (S754_finite false 4503599627370496 (-52));
     Some (S754_finite false 4503599627370496 (-53));
     Some (S754_infinity false); Some (S754_zero true); None; None].
Proof. vm_compute. reflexivity. Qed.

Example strptime_samples :
  List.map strptime_str
    ["2000-01-01T00:00:00Z"; "2000-1-1t0:0:0z"; "2000-01- 1T00:00:00Z";
     "2000-01-01T00:00:60Z"; "0000-01-01T00:00:00Z"; "2001-02-29T00:00:00Z";
     "2000-01-01T00:00:00Z "; "2000-13-01T00:00:00Z"; "20000-01-01T00:00:00Z"]
  = [Some sentinel_date; Some sentinel_date; Some sentinel_date;
     None; None; None; None; None; None].
Proof. reflexivity. Qed.

(** With 0.239006 for the factor, [(-1 / F) * F] is the float just above
    -1, and the calories of an activity without "kilojoules" are 0. *)
Example calories_default_sample :
  calories_default (C := sample_const) = Returned 0.
Proof. vm_compute. reflexivity. Qed.

Example sorted_reverse_is_stable :
  sorted_reverse (fun p => mk_datetime (fst p) 1 1 0 0 0)
    [(2003, 1); (2005, 2); (2003, 3); (2007, 4); (2005, 5)]
  = [(2007, 4); (2005, 2); (2005, 5); (2003, 1); (2003, 3)].
Proof. reflexivity. Qed.

(** ** Dictionaries *)

Lemma dict_get_set_same (d : dict) (k : string) (v : json) :
  dict_get (dict_set d k v) k = Some v.
Proof.
  induction d as [|[k' v'] d IH]; simpl.
  - now rewrite String.eqb_refl.
  - destruct (String.eqb k k') eqn:E; simpl.
    + now rewrite String.eqb_refl.
    + now rewrite E.
Qed.

Lemma dict_get_set_other (d : dict) (k k' : string) (v : json) :
  k <> k' -> dict_get (dict_set d k v) k' = dict_get d k'.
Proof.
  intros Hk. induction d as [|[k0 v0] d IH]; simpl.
  - destruct (String.eqb_spec k' k); congruence.
  - destruct (String.eqb_spec k k0) as [->|Hn]; simpl.
    + destruct (String.eqb_spec k' k0); congruence.
    + destruct (String.eqb_spec k' k0); congruence.
Qed.



(** ** The order on dates and the sort *)

Lemma lex_compare_antisym (a b : list Z) :
  lex_compare b a = CompOpp (lex_compare a b).
Proof.
  revert b; induction a as [|x a IH]; intros [|y b]; simpl; try reflexivity.
  rewrite (Z.compare_antisym x y).
  destruct (Z.compare x y); simpl; auto.
Qed.

Lemma lex_compare_not_lt_trans (a b c : list Z) :
  lex_compare a b <> Lt -> lex_compare b c <> Lt -> lex_compare a c <> Lt.
Proof.
  revert b c; induction a as [|x a IH]; intros [|y b] [|z c]; simpl;
    try congruence.
  destruct (Z.compare_spec x y), (Z.compare_spec y z), (Z.compare_spec x z);
    try congruence; try lia; eauto.
Qed.

Lemma not_before_trans (a b c : datetime) :
  not_before a b -> not_before b c -> not_before a c.
Proof.
  unfold not_before, dt_ltb, dt_compare. intros H1 H2.
  pose proof (lex_compare_not_lt_trans (fields a) (fields b) (fields c)) as T.
  destruct (lex_compare (fields a) (fields b)); try discriminate;
    destruct (lex_compare (fields b) (fields c)); try discriminate;
    destruct (lex_compare (fields a) (fields c)); try reflexivity;
    exfalso; apply T; congruence.
Qed.

Lemma dt_ltb_not_before (a b : datetime) :
  dt_ltb a b = true -> not_before b a.
Proof.
  unfold not_before, dt_ltb, dt_compare.
  rewrite (lex_compare_antisym (fields a) (fields b)).
  destruct (lex_compare (fields a) (fields b)); simpl; congruence.
Qed.

Section SortedReverse.
Context {A : Type} (key : A -> datetime).

Lemma insert_desc_perm (x : A) (l : list A) :
  Permutation (x :: l) (insert_desc key x l).
Proof.
  induction l as [|y l IH]; simpl; [apply Permutation_refl|].
  destruct (dt_ltb (key x) (key y)); [|apply Permutation_refl].
  eapply perm_trans; [apply perm_swap|]. now apply perm_skip.
Qed.

Lemma insert_desc_hd (x y : A) (l : list A) :
  (desc key) y x -> HdRel (desc key) y l -> HdRel (desc key) y (insert_desc key x l).
Proof.
  intros Hyx Hl. destruct l as [|z l]; simpl.
  - now constructor.
  - destruct (dt_ltb (key x) (key z)); constructor; auto.
    now inversion Hl.
Qed.

Lemma insert_desc_sorted (x : A) (l : list A) :
  Sorted (desc key) l -> Sorted (desc key) (insert_desc key x l).
Proof.
  induction 1 as [|y l Hs IH Hh]; simpl.
  - repeat constructor.
  - destruct (dt_ltb (key x) (key y)) eqn:E.
    + constructor; [exact IH|].
      apply insert_desc_hd; [|exact Hh].
      now apply dt_ltb_not_before.
    + constructor; [now constructor|]. constructor. exact E.
Qed.

Lemma sorted_reverse_sorted (l : list A) :
  StronglySorted (desc key) (sorted_reverse key l).
Proof.
  apply Sorted_StronglySorted.
  - intros a b c. apply not_before_trans.
  - induction l as [|x l IH]; simpl; [constructor|].
    now apply insert_desc_sorted.
Qed.

Lemma sorted_reverse_perm (l : list A) :
  Permutation l (sorted_reverse key l).
Proof.
  induction l as [|x l IH]; simpl; [constructor|].
  eapply perm_trans; [apply perm_skip, IH|apply insert_desc_perm].
Qed.

Lemma sorted_reverse_length (l : list A) :
  List.length (sorted_reverse key l) = List.length l.
Proof. symmetry. apply Permutation_length, sorted_reverse_perm. Qed.
End SortedReverse.

(** ** Runs of the monad *)

Section RunLemmas.
Context {R : Type}.

Lemma bind_run {A B} (m : M (R := R) A) (k : A -> M B) (w : world R) :
  bind m k w =
  match m w with
  | (Returned a, w', evs) =>
      (result (k a w'), final (k a w'), evs ++ events (k a w'))
  | (Raised e, w', evs) => (Raised e, w', evs)
  end.
Proof.
  unfold bind, result, final, events.
  destruct (m w) as [[[a|e] w'] evs]; [|reflexivity].
  now destruct (k a w') as [[r w''] evs'].
Qed.

Lemma count_app (p : event -> bool) (l l' : list event) :
  count p (l ++ l') = (count p l + count p l')%nat.
Proof. unfold count. now rewrite List.filter_app, List.length_app. Qed.
End RunLemmas.

(** ** The geocoding loop *)

Lemma assigned_city_of (geo_location : dict) :
  assigned (Json (JObj geo_location)) = Returned (city_of geo_location).
Proof.
  unfold assigned, city_of; simpl.
  destruct (dict_get geo_location "city") as [c|]; simpl.
  - now destruct (truthy c).
  - reflexivity.
Qed.

Section FetchLemmas.
Context {C : Const} {R : Type} (serve : request -> R -> response * R).

(** One round of the loop makes no request and raises, or makes the
    geocode request and gives what [assigned] reads from the answer. *)
Lemma lookup_city_run (activity : json) (w : world R) :
  (events (lookup_city serve activity w) = []
   /\ exists e, result (lookup_city serve activity w) = Raised e)
  \/ (exists lat lon resp,
        events (lookup_city serve activity w)
        = [Request (mk_request GET (geocode_url lat lon) []) resp]
        /\ result (lookup_city serve activity w) = assigned (text resp)).
Proof.
  unfold lookup_city, bind, lift, http, loads, ret, events, result.
  destruct (get activity "start_latitude" (JInt 0)) as [lat|e];
    [|left; split; [reflexivity|now exists e]].
  destruct (get activity "start_longitude" (JInt 0)) as [lon|e];
    [|left; split; [reflexivity|now exists e]].
  right. exists lat, lon.
  destruct (serve (mk_request GET (geocode_url lat lon) []) (remote w))
    as [resp r'].
  exists resp.
  destruct (text resp) as [|g]; simpl; [split; reflexivity|].
  destruct (get g "city" JNull) as [c|e]; simpl; [|split; reflexivity].
  destruct (truthy c); simpl; [split; reflexivity|].
  destruct (get g "name" (JStr "Paradise City")); split; reflexivity.
Qed.
(** The whole loop: it only makes requests; when it ends normally the
    cities are what [assigned] reads from the geocode answers, one per
    activity and in their order; an answer from which [assigned] reads no
    city ends it with the exception [assigned] raises. *)
Lemma for_each_lookup_city (items : list json) (w : world R) :
  let x := for_each items (lookup_city serve) w in
  count is_fire (events x) = 0%nat
  /\ (forall cities, result x = Returned cities ->
        List.map (fun r => assigned (text r)) (geocode_responses (events x))
        = List.map Returned cities
        /\ List.length cities = List.length items)
  /\ (forall resp e, In resp (geocode_responses (events x)) ->
        assigned (text resp) = Raised e -> result x = Raised e).
Proof.
  revert w; induction items as [|a items IH]; intros w; cbn zeta.
  - simpl. unfold ret, result, events; simpl.
    split; [reflexivity|split].
    + intros cities [= <-]. split; reflexivity.
    + intros resp e [].
  - simpl for_each. rewrite bind_run.
    pose proof (lookup_city_run a w) as Ha.
    destruct (lookup_city serve a w) as [[[c|e] w1] evs1].
    + unfold result, events in Ha; simpl in Ha.
      destruct Ha as [[_ [e He]]|(lat & lon & resp & -> & Hc)];
        [discriminate|].
      rewrite bind_run.
      specialize (IH w1).
      destruct (for_each items (lookup_city serve) w1)
        as [[[cs|e] w2] evs2];
        unfold ret, result, events in *; simpl in *;
        destruct IH as (IHf & IHc & IHn).
      * destruct (IHc cs eq_refl) as [IHm IHl].
        rewrite List.app_nil_r.
        split; [exact IHf|split].
        -- intros cities [= <-]. simpl. now rewrite <- Hc, IHm, IHl.
        -- intros resp' e [<-|Hin] Ht.
           ++ rewrite Ht in Hc. discriminate.
           ++ now specialize (IHn _ _ Hin Ht).
      * split; [exact IHf|split].
        -- discriminate.
        -- intros resp' e' [<-|Hin] Ht.
           ++ rewrite Ht in Hc. discriminate.
           ++ now specialize (IHn _ _ Hin Ht).
    + unfold result, events in *; simpl in *.
      destruct Ha as [[-> _]|(lat & lon & resp & -> & Hc)].
      * split; [reflexivity|split]; [discriminate|intros resp e' []].
      * split; [reflexivity|split]; [discriminate|].
        intros resp' e' [<-|[]] Ht. rewrite Ht in Hc.
        now injection Hc as ->.
Qed.

(** A run of [fetch_strava_data], path by path. *)
Lemma fetch_run (w : world R) :
  let resp := fst (serve activities_request (remote w)) in
  let w1 :=
    mk_world (snd (serve activities_request (remote w))) (external_url w)
      (entry_data w) (webhook_view w) in
  let pre := [Log DEBUG FetchingData; Request activities_request resp] in
  fetch_strava_data serve w =
  if Z.eqb (status resp) 200 then
    match text resp with
    | NotJson => (Raised JSONDecodeError, w1, pre)
    | Json activities =>
        match iter activities with
        | Raised e => (Raised e, w1, pre)
        | Returned items =>
            match for_each items (lookup_city serve) w1 with
            | (Raised e, w2, evs) => (Raised e, w2, pre ++ evs)
            | (Returned cities, w2, evs) =>
                match sensor_dicts cities 0 items with
                | Raised e => (Raised e, w2, pre ++ evs)
                | Returned dicts =>
                    (Returned JNull, w2,
                     pre ++ evs ++ [Fire (sorted_reverse sensor_date dicts)])
                end
            end
        end
    end
  else (Returned JNull, w1, pre ++ [Log ERROR (CouldNotFetch (status resp))]).
Proof.
  cbn zeta.
  unfold fetch_strava_data, bind, log, emit, http, loads, lift, ret.
  fold activities_request.
  destruct (serve activities_request (remote w)) as [resp r1]; simpl.
  destruct (Z.eqb (status resp) 200); [|reflexivity].
  destruct (text resp) as [|activities]; [reflexivity|].
  destruct (iter activities) as [items|e]; [|reflexivity].
  destruct (for_each items (lookup_city serve) _) as [[[cities|e] w2] evs];
    [|reflexivity].
  destruct (sensor_dicts cities 0 items) as [dicts|e]; simpl;
    [|now rewrite List.app_nil_r].
  reflexivity.
Qed.
(** *** The list comprehension *)

Lemma sensor_dict_city (cities : list json) (idx : nat) (activity : json)
      (a : Activity) :
  sensor_dict cities idx activity = Returned a ->
  List.nth_error cities idx = Some (sensor_city a).
Proof.
  unfold sensor_dict.
  repeat match goal with
         | |- obind ?x _ = _ -> _ =>
             destruct x eqn:?; cbn [obind]; [|discriminate]
         end.
  intros [= <-]; simpl.
  destruct (List.nth_error cities idx); simpl in *; congruence.
Qed.

Lemma sensor_dicts_cities (cities : list json) (items : list json) :
  forall (idx : nat) (dicts : list Activity),
    sensor_dicts cities idx items = Returned dicts ->
    List.length dicts = List.length items
    /\ List.map (fun a => Some (sensor_city a)) dicts
       = List.map (List.nth_error cities) (List.seq idx (List.length items)).
Proof.
  induction items as [|x items IH]; intros idx dicts; simpl.
  - intros [= <-]. split; reflexivity.
  - destruct (sensor_dict cities idx x) as [a|e] eqn:Ea; simpl;
      [|discriminate].
    destruct (sensor_dicts cities (S idx) items) as [l|e] eqn:El; simpl;
      [|discriminate].
    intros [= <-]. destruct (IH _ _ El) as [Hl Hm]. simpl.
    rewrite Hl, Hm, (sensor_dict_city _ _ _ _ Ea). split; reflexivity.
Qed.

Lemma map_nth_error_seq {A} (l : list A) :
  List.map (List.nth_error l) (List.seq 0 (List.length l)) = List.map Some l.
Proof.
  induction l as [|x l IH]; simpl; [reflexivity|].
  f_equal. rewrite <- List.seq_shift, List.map_map. exact IH.
Qed.

(** With one city per activity, the dicts carry the cities in order. *)
Lemma sensor_dicts_all_cities (cities items : list json)
      (dicts : list Activity) :
  List.length cities = List.length items ->
  sensor_dicts cities 0 items = Returned dicts ->
  List.map sensor_city dicts = cities.
Proof.
  intros Hlen H. apply sensor_dicts_cities in H as [_ Hm].
  rewrite <- Hlen, map_nth_error_seq in Hm.
  revert Hm. clear. revert cities.
  induction dicts as [|a dicts IH]; intros [|c cities]; simpl;
    try discriminate; [reflexivity|].
  intros [= -> Hm]. f_equal. now apply IH.
Qed.

(** Nothing is published by a run that raises. *)
Lemma fetch_raised_fires_nothing (w : world R) (e : exn) :
  result (fetch_strava_data serve w) = Raised e ->
  count is_fire (events (fetch_strava_data serve w)) = 0%nat.
Proof.
  rewrite fetch_run.
  destruct (Z.eqb _ 200); [|discriminate].
  destruct (text _) as [|activities]; [reflexivity|].
  destruct (iter activities) as [items|e']; [|reflexivity].
  pose proof (for_each_lookup_city items
                (mk_world (snd (serve activities_request (remote w)))
                   (external_url w) (entry_data w) (webhook_view w)))
    as (Hf & _ & _).
  destruct (for_each items (lookup_city serve) _) as [[[cities|e'] w2] evs];
    unfold events, result in *; simpl in *.
  - destruct (sensor_dicts cities 0 items); simpl; [discriminate|].
    intros _. exact Hf.
  - intros _. exact Hf.
Qed.
Lemma not_fired (evs : list event) (acts : list Activity) :
  count is_fire evs = 0%nat -> ~ In (Fire acts) evs.
Proof.
  unfold count. induction evs as [|e evs IH]; simpl; [tauto|].
  intros Hc [->|Hin]; simpl in Hc; [discriminate|].
  destruct (is_fire e); simpl in Hc; [discriminate|]. tauto.
Qed.

(** What a run publishes: the activities of the response, each turned
    into its dict with the city the loop found for it, sorted. *)
Lemma fetch_published (w : world R) (acts : list Activity) :
  In (Fire acts) (events (fetch_strava_data serve w)) ->
  exists activities items cities dicts,
    status (fst (serve activities_request (remote w))) = 200
    /\ text (fst (serve activities_request (remote w))) = Json activities
    /\ iter activities = Returned items
    /\ List.length cities = List.length items
    /\ List.map (fun r => assigned (text r))
         (geocode_responses (events (fetch_strava_data serve w)))
       = List.map Returned cities
    /\ sensor_dicts cities 0 items = Returned dicts
    /\ acts = sorted_reverse sensor_date dicts
    /\ result (fetch_strava_data serve w) = Returned JNull
    /\ count is_fire (events (fetch_strava_data serve w)) = 1%nat.
Proof.
  rewrite fetch_run.
  destruct (Z.eqb_spec (status (fst (serve activities_request (remote w)))) 200)
    as [Hs|Hs].
  2:{ unfold events; simpl. intros [|[|[|[]]]]; discriminate. }
  destruct (text _) as [|activities] eqn:Et.
  { unfold events; simpl. intros [|[|[]]]; discriminate. }
  destruct (iter activities) as [items|e] eqn:Ei.
  2:{ unfold events; simpl. intros [|[|[]]]; discriminate. }
  pose proof (for_each_lookup_city items
                (mk_world (snd (serve activities_request (remote w)))
                   (external_url w) (entry_data w) (webhook_view w)))
    as (Hf & Hc & _).
  destruct (for_each items (lookup_city serve) _) as [[[cities|e] w2] evs];
    unfold events, result in *; simpl in *.
  2:{ intros [|[|Hin]]; try discriminate. now apply not_fired in Hin. }
  destruct (Hc cities eq_refl) as [Hm Hl].
  destruct (sensor_dicts cities 0 items) as [dicts|e] eqn:Ed; simpl.
  2:{ intros [|[|Hin]]; try discriminate. now apply not_fired in Hin. }
  intros [|[|Hin]]; try discriminate.
  apply List.in_app_or in Hin as [Hin|[[= <-]|[]]];
    [now apply not_fired in Hin|].
  exists activities, items, cities, dicts.
  split; [exact Hs|]. split; [reflexivity|]. split; [exact Ei|].
  split; [exact Hl|]. split.
  { unfold geocode_responses in *. rewrite List.flat_map_app. simpl.
    now rewrite List.app_nil_r. }
  split; [exact Ed|]. split; [reflexivity|]. split; [reflexivity|].
  unfold count in *. simpl.
  rewrite List.filter_app, List.length_app, Hf. reflexivity.
Qed.
(** One round of the loop, in full. *)
Lemma lookup_city_eq (activity : json) (w : world R) :
  lookup_city serve activity w =
  match geocode_request activity with
  | Raised e => (Raised e, w, [])
  | Returned rq =>
      (assigned (text (answer serve rq w)), after serve rq w,
       [Request rq (answer serve rq w)])
  end.
Proof.
  unfold lookup_city, geocode_request, loads, bind, lift, http, ret, answer,
    after, assigned.
  destruct (get activity "start_latitude" (JInt 0)) as [lat|e];
    cbn [obind]; [|reflexivity].
  destruct (get activity "start_longitude" (JInt 0)) as [lon|e];
    cbn [obind]; [|reflexivity].
  destruct (serve (mk_request GET (geocode_url lat lon) []) (remote w))
    as [resp r']; cbn [fst snd app].
  destruct (text resp) as [|g]; cbn [app]; [reflexivity|].
  destruct (get g "city" JNull) as [c|e]; cbn [obind app]; [|reflexivity].
  destruct (truthy c); cbn [app]; [reflexivity|].
  destruct (get g "name" (JStr "Paradise City")); reflexivity.
Qed.
End FetchLemmas.

(** *** The exchange behind each city *)

Section Exchanges.
Context {C : Const} {R : Type} (serve : request -> R -> response * R).

Lemma geocode_exchanges_app (l l' : list event) :
  geocode_exchanges (l ++ l') = geocode_exchanges l ++ geocode_exchanges l'.
Proof. apply List.flat_map_app. Qed.

Lemma geocode_request_exchange (activity : json) (rq : request)
      (resp : response) :
  geocode_request activity = Returned rq ->
  geocode_exchanges [Request rq resp] = [(rq, resp)].
Proof.
  unfold geocode_request.
  destruct (get activity "start_latitude" (JInt 0)); cbn [obind];
    [|discriminate].
  destruct (get activity "start_longitude" (JInt 0)); cbn [obind];
    [|discriminate].
  now intros [= <-].
Qed.

(** The loop asks, for each activity in turn, for the place of its own
    coordinates, and the city it appends is the one read from that
    answer. *)
Lemma for_each_lookup_city_exchanges (items : list json) (w : world R)
      (cities : list json) :
  result (for_each items (lookup_city serve) w) = Returned cities ->
  List.map (fun p => (Returned (fst p), assigned (text (snd p))))
    (geocode_exchanges (events (for_each items (lookup_city serve) w)))
  = List.map (fun p => (geocode_request (fst p), Returned (snd p)))
      (List.combine items cities)
  /\ List.length cities = List.length items.
Proof.
  revert w cities; induction items as [|a items IH]; intros w cities.
  - cbn [for_each]. unfold ret, result, events. cbn [fst snd].
    intros [= <-]. split; reflexivity.
  - cbn [for_each]. rewrite bind_run, lookup_city_eq.
    destruct (geocode_request a) as [rq|e] eqn:Ea; [|discriminate].
    destruct (assigned (text (answer serve rq w))) as [c|e] eqn:Ec;
      [|discriminate].
    rewrite bind_run.
    specialize (IH (after serve rq w)).
    destruct (for_each items (lookup_city serve) (after serve rq w))
      as [[[cs|e] w2] evs]; [|discriminate].
    unfold ret, result, events in *. cbn [fst snd] in *.
    intros [= <-]. destruct (IH cs eq_refl) as [IHm IHl].
    rewrite List.app_nil_r.
    change (Request rq (answer serve rq w) :: evs)
      with ([Request rq (answer serve rq w)] ++ evs).
    rewrite geocode_exchanges_app, (geocode_request_exchange a rq _ Ea).
    cbn [app List.map List.combine fst snd List.length].
    rewrite IHm, Ea, Ec, IHl. split; reflexivity.
Qed.

(** What a run publishes, with the exchange behind each city. *)
Lemma fetch_exchanges (w : world R) (acts : list Activity) :
  In (Fire acts) (events (fetch_strava_data serve w)) ->
  exists activities items cities dicts,
    text (fst (serve activities_request (remote w))) = Json activities
    /\ iter activities = Returned items
    /\ List.map (fun p => (Returned (fst p), assigned (text (snd p))))
         (geocode_exchanges (events (fetch_strava_data serve w)))
       = List.map (fun p => (geocode_request (fst p), Returned (snd p)))
           (List.combine items cities)
    /\ List.length cities = List.length items
    /\ sensor_dicts cities 0 items = Returned dicts
    /\ acts = sorted_reverse sensor_date dicts.
Proof.
  rewrite fetch_run. cbn zeta.
  destruct (Z.eqb _ 200).
  2:{ unfold events; cbn [snd app]. intros [|[|[|[]]]]; discriminate. }
  destruct (text _) as [|activities] eqn:Et.
  { unfold events; cbn [snd]. intros [|[|[]]]; discriminate. }
  destruct (iter activities) as [items|e] eqn:Ei.
  2:{ unfold events; cbn [snd]. intros [|[|[]]]; discriminate. }
  pose proof (for_each_lookup_city serve items
                (mk_world (snd (serve activities_request (remote w)))
                   (external_url w) (entry_data w) (webhook_view w)))
    as (Hf & _ & _).
  pose proof (for_each_lookup_city_exchanges items
                (mk_world (snd (serve activities_request (remote w)))
                   (external_url w) (entry_data w) (webhook_view w)))
    as Hx.
  destruct (for_each items (lookup_city serve) _) as [[[cities|e] w2] evs];
    unfold events, result in *; cbn [fst snd app] in *.
  2:{ intros [|[|Hin]]; try discriminate. now apply not_fired in Hin. }
  destruct (Hx cities eq_refl) as [Hm Hl].
  destruct (sensor_dicts cities 0 items) as [dicts|e] eqn:Ed; cbn [snd app].
  2:{ intros [|[|Hin]]; try discriminate. now apply not_fired in Hin. }
  intros [|[|Hin]]; try discriminate.
  apply List.in_app_or in Hin as [Hin|[[= <-]|[]]];
    [now apply not_fired in Hin|].
  exists activities, items, cities, dicts.
  split; [reflexivity|]. split; [exact Ei|].
  split.
  { change (Log DEBUG FetchingData
            :: Request activities_request
                 (fst (serve activities_request (remote w)))
            :: evs ++ [Fire (sorted_reverse sensor_date dicts)])
      with ([Log DEBUG FetchingData;
             Request activities_request
               (fst (serve activities_request (remote w)))]
            ++ evs ++ [Fire (sorted_reverse sensor_date dicts)]).
    rewrite !geocode_exchanges_app.
    unfold activities_request at 1. cbn [geocode_exchanges List.flat_map app].
    rewrite List.app_nil_r. exact Hm. }
  split; [exact Hl|]. split; [exact Ed|reflexivity].
Qed.
End Exchanges.

Lemma nth_error_combine {A B : Type} (l : list A) (l' : list B) (i : nat)
      (x : A) (y : B) :
  List.nth_error l i = Some x ->
  List.nth_error l' i = Some y ->
  List.nth_error (List.combine l l') i = Some (x, y).
Proof.
  revert l' i; induction l as [|a l IH]; intros [|b l'] [|i]; cbn;
    try discriminate.
  - now intros [= ->] [= ->].
  - apply IH.
Qed.

(** The dict of the [i]th activity is built from that activity and the
    [i]th city. *)
Lemma sensor_dicts_nth {C : Const} (cities items : list json) :
  forall (idx : nat) (dicts : list Activity) (i : nat) (activity : json)
         (a : Activity),
    sensor_dicts cities idx items = Returned dicts ->
    List.nth_error items i = Some activity ->
    List.nth_error dicts i = Some a ->
    sensor_dict cities (idx + i) activity = Returned a.
Proof.
  induction items as [|x items IH]; intros idx dicts i activity a;
    cbn [sensor_dicts].
  - intros _ Hi. destruct i; discriminate.
  - destruct (sensor_dict cities idx x) as [b|e] eqn:Eb; cbn [obind];
      [|discriminate].
    destruct (sensor_dicts cities (S idx) items) as [l|e] eqn:El;
      cbn [obind]; [|discriminate].
    intros [= <-]. destruct i as [|i]; cbn [List.nth_error].
    + intros [= <-] [= <-]. now rewrite Nat.add_0_r.
    + intros Hi Ha. rewrite Nat.add_succ_r.
      now apply (IH (S idx) l i activity a El).
Qed.

(** Of the cities, a dict takes the one at its index only. *)
Lemma sensor_dict_own_city {C : Const} (cities : list json) (idx : nat)
      (activity : json) (city : json) :
  List.nth_error cities idx = Some city ->
  sensor_dict cities idx activity = sensor_dict [city] 0 activity.
Proof.
  intros Hn. unfold sensor_dict. cbn [List.nth_error]. now rewrite Hn.
Qed.

(** ** Absent fields of an activity *)


Lemma float_default : float_ (JInt (-1)) = Returned (float_of_Z (-1)).
Proof. reflexivity. Qed.

Lemma strptime_default :
  strptime (JStr "2000-01-01T00:00:00Z") = Returned sentinel_date.
Proof. reflexivity. Qed.


(** ** Fields that do not convert *)




(** ** Publishing *)

(** C6: [fetch_strava_data] calls [event_factory] exactly once when the
    activities response has status 200 and the run returns, and not at all
    when the status is not 200, in which case it returns without raising. *)
Theorem fetch_publishes_once {C : Const} {R : Type}
        (serve : request -> R -> response * R) (w : world R) :
  let x := fetch_strava_data serve w in
  let resp := fst (serve activities_request (remote w)) in
  (status resp <> 200 ->
   result x = Returned JNull /\ count is_fire (events x) = 0%nat)
  /\ (status resp = 200 ->
      forall v, result x = Returned v -> count is_fire (events x) = 1%nat).
Proof.
  cbn zeta. rewrite fetch_run. split.
  - intros Hs. apply Z.eqb_neq in Hs. rewrite Hs. split; reflexivity.
  - intros Hs v. rewrite Hs; cbn [Z.eqb Pos.eqb].
    destruct (text _) as [|activities]; [discriminate|].
    destruct (iter activities) as [items|e]; [|discriminate].
    pose proof (for_each_lookup_city serve items
                  (mk_world (snd (serve activities_request (remote w)))
                     (external_url w) (entry_data w) (webhook_view w)))
      as (Hf & _ & _).
    destruct (for_each items (lookup_city serve) _) as [[[cities|e] w2] evs];
      unfold events, result in *; simpl in *; [|discriminate].
    destruct (sensor_dicts cities 0 items); simpl; [|discriminate].
    intros _. unfold count in *. simpl.
    rewrite List.filter_app, List.length_app, Hf. reflexivity.
Qed.

Lemma fetch_publishes_once_witness :
  count is_fire
    (events (sample_fetch (Json (JArr [JObj morning_ride; JObj evening_run]))
               oslo)) = 1%nat
  /\ count is_fire
       (events
          (fetch_strava_data (C := sample_const)
             (scripted (fun _ => mk_response 401 NotJson)) (sample_world tt)))
     = 0%nat.
Proof.
  split.
  - apply (proj2 (fetch_publishes_once
                    (scripted
                       (page (Json (JArr [JObj morning_ride; JObj evening_run]))
                          oslo))
                    (sample_world tt)))
      with (v := JNull); vm_compute; reflexivity.
  - apply (proj1 (fetch_publishes_once
                    (scripted (fun _ => mk_response 401 NotJson))
                    (sample_world tt))).
    vm_compute. discriminate.
Defined.

(** ** Order and length of what is published *)

(** C5, as the claim states it, fails: the request asks for at most
    [MAX_NB_ACTIVITIES] activities, but nothing cuts the answer down;
    a 200 response that lists one more is published whole. *)
Lemma fetch_exceeds_page_size :
  result (sample_fetch long_page oslo) = Returned JNull
  /\ List.map (@List.length Activity)
       (published (events (sample_fetch long_page oslo)))
     = [S (MAX_NB_ACTIVITIES (Const := sample_const))].
Proof. vm_compute. split; reflexivity. Qed.

(** C5, amended: what a run of [fetch_strava_data] publishes is sorted by
    start timestamp, latest first, and has exactly as many activities as the
    200 response lists; so it stays within [MAX_NB_ACTIVITIES] whenever the
    response does. *)
Theorem fetch_published_sorted {C : Const} {R : Type}
        (serve : request -> R -> response * R) (w : world R)
        (acts : list Activity) :
  In (Fire acts) (events (fetch_strava_data serve w)) ->
  StronglySorted (desc sensor_date) acts
  /\ exists activities items,
       status (fst (serve activities_request (remote w))) = 200
       /\ text (fst (serve activities_request (remote w))) = Json activities
       /\ iter activities = Returned items
       /\ List.length acts = List.length items
       /\ ((List.length items <= MAX_NB_ACTIVITIES)%nat ->
           (List.length acts <= MAX_NB_ACTIVITIES)%nat).
Proof.
  intros H.
  apply fetch_published in H
    as (activities & items & cities & dicts & Hs & Ht & Hi & _ & _ & Hd & -> & _).
  split; [apply sorted_reverse_sorted|].
  exists activities, items.
  assert (Hlen : List.length (sorted_reverse sensor_date dicts)
                 = List.length items).
  { rewrite sorted_reverse_length.
    now apply sensor_dicts_cities in Hd as [Hl _]. }
  repeat (split; [assumption|]). now rewrite Hlen.
Qed.

Lemma fetch_published_sorted_witness :
  StronglySorted (desc sensor_date) two_activities
  /\ List.map sensor_title two_activities
     = [JStr "Evening Run"; JStr "Morning Ride"].
Proof.
  split; [|reflexivity].
  apply (fetch_published_sorted
           (C := sample_const)
           (scripted (page (Json (JArr [JObj morning_ride; JObj evening_run]))
                        oslo))
           (sample_world tt) two_activities).
  vm_compute. do 4 right. left. reflexivity.
Defined.

(** ** The city of an activity *)

(** C9, as the claim states it, fails: a geocode answer that is not JSON
    makes [json.loads] raise inside the loop; the run ends with
    [JSONDecodeError] and publishes nothing, instead of falling back. *)
Lemma fetch_unparsable_geocode_aborts :
  result (sample_fetch (Json (JArr [JObj morning_ride])) NotJson)
  = Raised JSONDecodeError
  /\ published (events (sample_fetch (Json (JArr [JObj morning_ride])) NotJson))
     = [].
Proof. vm_compute. split; reflexivity. Qed.

(** C9, amended: when the geocode answer is a JSON object, the city is its
    "city" field when present and truthy, otherwise its "name" field when
    present, otherwise "Paradise City"; each activity of the response has
    its own exchange with the geocoder, the request made for its
    coordinates, and the dict published for it carries the city read from
    the answer to that request; and an answer from which no city can be
    read (its text is not JSON, or not a JSON object) ends the run with the
    exception raised and nothing published. *)
Theorem fetch_city_assignment {C : Const} {R : Type}
        (serve : request -> R -> response * R) (w : world R) :
  let x := fetch_strava_data serve w in
  (forall geo_location,
      assigned (Json (JObj geo_location)) = Returned (city_of geo_location))
  /\ assigned NotJson = Raised JSONDecodeError
  /\ (forall acts, In (Fire acts) (events x) ->
        exists activities items dicts,
          text (fst (serve activities_request (remote w))) = Json activities
          /\ iter activities = Returned items
          /\ Permutation dicts acts
          /\ List.length dicts = List.length items
          /\ List.length (geocode_exchanges (events x)) = List.length items
          /\ forall i activity a,
               List.nth_error items i = Some activity ->
               List.nth_error dicts i = Some a ->
               exists rq resp,
                 List.nth_error (geocode_exchanges (events x)) i
                 = Some (rq, resp)
                 /\ geocode_request activity = Returned rq
                 /\ assigned (text resp) = Returned (sensor_city a)
                 /\ sensor_dict [sensor_city a] 0 activity = Returned a)
  /\ (forall resp e, In resp (geocode_responses (events x)) ->
        assigned (text resp) = Raised e ->
        result x = Raised e /\ count is_fire (events x) = 0%nat).
Proof.
  cbn zeta. split; [exact assigned_city_of|]. split; [reflexivity|]. split.
  - intros acts H.
    apply fetch_exchanges in H
      as (activities & items & cities & dicts & Ht & Hi & Hm & Hl & Hd & ->).
    exists activities, items, dicts.
    split; [exact Ht|]. split; [exact Hi|].
    split; [apply sorted_reverse_perm|].
    split; [now apply sensor_dicts_cities in Hd as [Hd _]|].
    split.
    { apply (f_equal (@List.length _)) in Hm.
      rewrite !List.length_map, List.length_combine, Hl, Nat.min_id in Hm.
      exact Hm. }
    intros i activity a Hitem Hdict.
    pose proof (sensor_dicts_nth cities items 0 dicts i activity a Hd Hitem
                  Hdict) as Ha.
    cbn [Nat.add] in Ha.
    pose proof (sensor_dict_city _ _ _ _ Ha) as Hcity.
    pose proof (nth_error_combine _ _ _ _ _ Hitem Hcity) as Hpair.
    apply (f_equal (fun l => List.nth_error l i)) in Hm.
    rewrite !List.nth_error_map, Hpair in Hm. cbn [option_map fst snd] in Hm.
    destruct (List.nth_error (geocode_exchanges _) i) as [[rq resp]|];
      [|discriminate].
    cbn [option_map fst snd] in Hm. injection Hm as Hrq Hresp.
    exists rq, resp. split; [reflexivity|]. split; [now symmetry|].
    split; [exact Hresp|].
    now rewrite <- (sensor_dict_own_city cities i activity _ Hcity).
  - intros resp e Hin Ha.
    assert (Hr : result (fetch_strava_data serve w) = Raised e).
    { revert Hin. rewrite fetch_run.
      destruct (Z.eqb _ 200);
        [|unfold events, geocode_responses, activities_request; simpl;
          intros []].
      destruct (text (fst (serve activities_request (remote w))))
        as [|activities];
        [unfold events, geocode_responses, activities_request; simpl;
         intros []|].
      destruct (iter activities) as [items|e'];
        [|unfold events, geocode_responses, activities_request; simpl;
          intros []].
      pose proof (for_each_lookup_city serve items
                    (mk_world (snd (serve activities_request (remote w)))
                       (external_url w) (entry_data w) (webhook_view w)))
        as (_ & Hc & Hn).
      destruct (for_each items (lookup_city serve) _) as [[[cities|e'] w2] evs];
        unfold events, result, activities_request in *; simpl in *.
      - intros Hin. exfalso.
        assert (Hin' : In resp (geocode_responses evs)).
        { destruct (sensor_dicts cities 0 items); simpl in Hin; [|exact Hin].
          unfold geocode_responses in *.
          rewrite List.flat_map_app in Hin. simpl in Hin.
          now rewrite List.app_nil_r in Hin. }
        specialize (Hn _ _ Hin' Ha). discriminate.
      - intros Hin. specialize (Hn _ _ Hin Ha). now injection Hn as ->. }
    split; [exact Hr|]. now apply fetch_raised_fires_nothing in Hr.
Qed.

Lemma fetch_city_assignment_witness :
  assigned (Json (JObj [("city", JObj []); ("name", JStr "Bygdoy")]))
  = Returned (JStr "Bygdoy")
  /\ result (sample_fetch (Json (JArr [JObj morning_ride])) (Json (JArr [])))
     = Raised AttributeError
  /\ exists a,
       In a (List.hd [] (published (events atlas_fetch)))
       /\ sensor_title a = JStr "Oslo Ride"
       /\ sensor_city a = JStr "Oslo".
Proof.
  split; [|split].
  - apply (proj1 (fetch_city_assignment (C := sample_const)
                    (scripted (page (Json (JArr [])) oslo)) (sample_world tt))).
  - apply (proj2 (proj2 (proj2
             (fetch_city_assignment (C := sample_const)
                (scripted (page (Json (JArr [JObj morning_ride]))
                             (Json (JArr []))))
                (sample_world tt))))
           (mk_response 200 (Json (JArr [])))).
    + vm_compute. left. reflexivity.
    + reflexivity.
  - destruct (proj1 (proj2 (proj2
               (fetch_city_assignment (C := sample_const) (scripted atlas)
                  (sample_world tt))))
               (List.hd [] (published (events atlas_fetch))))
      as (activities & items & dicts & Ht & Hi & Hp & Hl & _ & Hall).
    + vm_compute. do 4 right. left. reflexivity.
    + injection Ht as <-. injection Hi as <-.
      destruct dicts as [|a [|b [|c dicts]]]; try discriminate.
      destruct (Hall 0%nat (JObj oslo_ride) a eq_refl eq_refl)
        as (rq & resp & Hn & _ & Hc & Hs).
      vm_compute in Hn. injection Hn as <- <-.
      injection Hc as Hc. rewrite <- Hc in Hs.
      vm_compute in Hs. injection Hs as <-.
      eexists. split; [apply (Permutation_in _ Hp); left; reflexivity|].
      split; reflexivity.
Defined.

(** ** Absent and malformed fields *)




(** ** The POST handler *)

Section PostLemmas.
Context {R : Type}.

(** A run of [post], path by path. *)
Lemma post_run (request : web_request) (w : world R) :
  let request_host := header_get (headers request) "Host" in
  post request w =
  match extracted (payload request) with
  | Raised e => (Raised e, w, [])
  | Returned subscription_id =>
      if int_eq_opt subscription_id (webhook_id (webhook_view w))
      then (Returned ok_response, w,
            [Log DEBUG (PostReceived request_host); CreateTask fetch_task])
      else
        match request_host with
        | None => (Raised TypeError, w, [Log DEBUG (PostReceived None)])
        | Some h =>
            if contains (host (webhook_view w)) h
            then (Returned ok_response, w,
                  [Log DEBUG (PostReceived request_host);
                   CreateTask fetch_task])
            else (Returned ok_response, w,
                  [Log DEBUG (PostReceived request_host)])
        end
  end.
Proof.
  cbn zeta.
  unfold post, extracted, try_except, bind, loads, lift, log, emit,
    read_view, ret, str_in.
  destruct (payload request) as [|data]; cbn [exn_eqb obind app].
  - destruct (int_eq_opt (-1) (webhook_id (webhook_view w)));
      [reflexivity|].
    destruct (header_get (headers request) "Host") as [h|]; [|reflexivity].
    destruct (contains (host (webhook_view w)) h); reflexivity.
  - destruct (obind (get data "subscription_id" (JInt (-1))) int)
      as [i|e] eqn:E.
    + destruct (get data "subscription_id" (JInt (-1))) as [v|e];
        cbn [obind] in *; [|discriminate].
      rewrite E.
      destruct (int_eq_opt i (webhook_id (webhook_view w))); [reflexivity|].
      destruct (header_get (headers request) "Host") as [h|];
        [|reflexivity].
      destruct (contains (host (webhook_view w)) h); reflexivity.
    + destruct (get data "subscription_id" (JInt (-1))) as [v|e'];
        cbn [obind] in *.
      * rewrite E. destruct e; cbn [exn_eqb app]; try reflexivity.
        destruct (int_eq_opt (-1) (webhook_id (webhook_view w)));
          [reflexivity|].
        destruct (header_get (headers request) "Host") as [h|];
          [|reflexivity].
        destruct (contains (host (webhook_view w)) h); reflexivity.
      * injection E as ->. destruct e; cbn [exn_eqb app]; try reflexivity.
        destruct (int_eq_opt (-1) (webhook_id (webhook_view w)));
          [reflexivity|].
        destruct (header_get (headers request) "Host") as [h|];
          [|reflexivity].
        destruct (contains (host (webhook_view w)) h); reflexivity.
Qed.
End PostLemmas.

(** Whenever the subscription id can be read from the body, the fetch is
    handed to [async_create_task] once if the id or the host matches, and
    not at all otherwise. *)
Lemma post_dispatch {R : Type} (request : web_request) (w : world R)
      (subscription_id : Z) :
  extracted (payload request) = Returned subscription_id ->
  count is_fetch_task (events (post request w))
  = if int_eq_opt subscription_id (webhook_id (webhook_view w))
       || host_matches (webhook_view w) request
    then 1%nat else 0%nat.
Proof.
  intros E. rewrite post_run, E. unfold host_matches.
  destruct (int_eq_opt subscription_id (webhook_id (webhook_view w)));
    [reflexivity|].
  destruct (header_get (headers request) "Host") as [h|]; [|reflexivity].
  destruct (contains (host (webhook_view w)) h); reflexivity.
Qed.

(** Every answer [post] gives has status 200. *)
Lemma post_answers_ok {R : Type} (request : web_request) (w : world R)
      (r : web_response) :
  result (post request w) = Returned r -> resp_status r = 200.
Proof.
  rewrite post_run.
  destruct (extracted (payload request)) as [i|e]; [|discriminate].
  destruct (int_eq_opt i (webhook_id (webhook_view w)));
    [now intros [= <-]|].
  destruct (header_get (headers request) "Host") as [h|]; [|discriminate].
  destruct (contains (host (webhook_view w)) h); now intros [= <-].
Qed.

Lemma post_dispatch_witness :
  count is_fetch_task
    (events
       (post (notification (Json (JObj [("subscription_id", JInt 8)])))
          (sample_world tt)))
  = 1%nat
  /\ count is_fetch_task
       (events
          (post
             (mk_web_request [("Host", "elsewhere.example.com")] [] NotJson)
             (sample_world tt)))
     = 0%nat.
Proof.
  split.
  - apply (post_dispatch
             (notification (Json (JObj [("subscription_id", JInt 8)])))
             (sample_world tt) 8).
    reflexivity.
  - apply (post_dispatch
             (mk_web_request [("Host", "elsewhere.example.com")] [] NotJson)
             (sample_world tt) (-1)).
    reflexivity.
Defined.

Lemma post_answers_ok_witness : resp_status ok_response = 200.
Proof.
  apply (post_answers_ok
           (notification (Json (JObj [("subscription_id", JInt 8)])))
           (sample_world tt) ok_response).
  reflexivity.
Defined.

(** C2, at the input where the code leaves the claim: the Host header
    matches the known host, so the claim has the fetch scheduled; the id
    ["abc"] makes [int] raise [ValueError], which the [except] clause does
    not catch, and the handler ends before the comparison. *)
Lemma post_malformed_id_schedules_nothing :
  host_matches (StravaWebhookView "https://ha.example.org")
    (notification (Json (JObj [("subscription_id", JStr "abc")]))) = true
  /\ result
       (post (notification (Json (JObj [("subscription_id", JStr "abc")])))
          (sample_world tt))
     = Raised ValueError
  /\ count is_fetch_task
       (events
          (post (notification (Json (JObj [("subscription_id", JStr "abc")])))
             (sample_world tt)))
     = 0%nat.
Proof. vm_compute. repeat split; reflexivity. Qed.

(** C4, at inputs where the code leaves the claim: a body whose
    [subscription_id] is [null], a body that is a JSON list, and a request
    with no Host header and an id that does not match each make the handler
    raise instead of answering 200. *)
Lemma post_raises :
  result (post (notification (Json (JObj [("subscription_id", JNull)])))
            (sample_world tt))
  = Raised TypeError
  /\ result (post (notification (Json (JArr []))) (sample_world tt))
     = Raised AttributeError
  /\ result
       (post (mk_web_request [] [] (Json (JObj [("subscription_id", JInt 5)])))
          (sample_world tt))
     = Raised TypeError.
Proof. vm_compute. repeat split; reflexivity. Qed.

(** ** The reconciler *)

Section RenewLemmas.
Context {C : Const} {R : Type} (serve : request -> R -> response * R).

Lemma several_existing_behaved (config_data : dict) (n : nat) (w : world R) :
  well_behaved w (several_existing (R := R) config_data n w).
Proof.
  unfold several_existing, log, bind, lift, emit, ret.
  exec; behaved.
Qed.

Lemma none_existing_behaved (config_data : dict) (w : world R) :
  well_behaved w (none_existing serve config_data w).
Proof.
  unfold none_existing, finish, async_update_entry, loads, log, bind, lift,
    emit, ret, http.
  exec; behaved.
Qed.

Lemma one_existing_behaved (config_data : dict) (existing : json)
      (w : world R) :
  well_behaved w (one_existing serve config_data existing w).
Proof.
  unfold one_existing, finish, async_update_entry, loads, log, bind, lift,
    emit, ret, http.
  exec; behaved.
Qed.

(** A run of [renew_webhook_subscription], path by path, up to the
    branch on the number of subscriptions. *)
Lemma renew_run (w : world R) :
  renew_webhook_subscription serve w =
  match external_url w with
  | None => (Returned JNull, w, [Log ERROR NoPublicUrl])
  | Some ha_host =>
      let callback := JStr (ha_host ++ "/api/strava/webhook")%string in
      let config_data := dict_set (entry_data w) CONF_CALLBACK_URL callback in
      let rq1 := probe_request callback in
      let w1 := after serve rq1 w in
      if negb (Z.eqb (status (answer serve rq1 w)) 200) then
        (Returned JNull, w1,
         [Request rq1 (answer serve rq1 w); Log ERROR CallbackNotAvailable])
      else
        match dict_item (entry_data w) CONF_CLIENT_ID with
        | Raised e => (Raised e, w1, [Request rq1 (answer serve rq1 w)])
        | Returned client_id =>
            match dict_item (entry_data w) CONF_CLIENT_SECRET with
            | Raised e => (Raised e, w1, [Request rq1 (answer serve rq1 w)])
            | Returned client_secret =>
                let rq2 := list_request client_id client_secret in
                let w2 := after serve rq2 w1 in
                let pre := [Request rq1 (answer serve rq1 w);
                            Request rq2 (answer serve rq2 w1)] in
                match text (answer serve rq2 w1) with
                | NotJson => (Raised JSONDecodeError, w2, pre)
                | Json existing =>
                    match len existing with
                    | Raised e => (Raised e, w2, pre)
                    | Returned n =>
                        let x := branch serve config_data existing n w2 in
                        (result x, final x, pre ++ events x)
                    end
                end
            end
        end
  end.
Proof.
  unfold renew_webhook_subscription, try_except, get_url, read_entry_data,
    loads, log, bind, lift, emit, ret.
  destruct (external_url w) as [ha_host|]; cbn [of_option exn_eqb app];
    [|reflexivity].
  cbn zeta. unfold dict_item at 1. rewrite dict_get_set_same.
  unfold probe_request, list_request, answer, after, http, branch, result,
    final, events.
  cbn [of_option app].
  destruct (serve (mk_request GET (url_of _) []) (remote w)) as [resp1 r1].
  cbn [fst snd app remote set_remote entry_data].
  destruct (negb (Z.eqb (status resp1) 200)); [reflexivity|].
  destruct (dict_item (entry_data w) CONF_CLIENT_ID) as [client_id|e];
    [|reflexivity].
  destruct (dict_item (entry_data w) CONF_CLIENT_SECRET)
    as [client_secret|e]; [|reflexivity].
  cbn [fst snd app remote set_remote entry_data].
  destruct (serve (mk_request GET WEBHOOK_SUBSCRIPTION_URL _) r1)
    as [resp2 r2].
  cbn [fst snd app remote set_remote entry_data external_url webhook_view].
  destruct (text resp2) as [|existing]; [reflexivity|].
  destruct (len existing) as [n|e]; [|reflexivity].
  destruct (Nat.eqb n 1);
    [destruct (one_existing serve _ _ _) as [[? ?] ?]; reflexivity|].
  destruct (Nat.eqb n 0);
    [destruct (none_existing serve _ _) as [[? ?] ?]; reflexivity|].
  destruct (several_existing _ _ _) as [[? ?] ?]; reflexivity.
Qed.
Lemma branch_behaved (config_data : dict) (existing : json) (n : nat)
      (w : world R) :
  well_behaved w (branch serve config_data existing n w).
Proof.
  unfold branch. destruct (Nat.eqb n 1); [apply one_existing_behaved|].
  destruct (Nat.eqb n 0);
    [apply none_existing_behaved|apply several_existing_behaved].
Qed.

(** Events in front of a branch that are neither updates nor creations
    nor deletions do not change what the branch keeps to. *)
Lemma behaved_after_prefix (w w2 : world R) (pre : list event)
      (x : outcome json * world R * list event) :
  webhook_view w2 = webhook_view w ->
  entry_data w2 = entry_data w ->
  count is_update pre = 0%nat ->
  count is_create pre = 0%nat ->
  count is_delete pre = 0%nat ->
  well_behaved w2 x ->
  let y := (result x, final x, pre ++ events x) in
  webhook_view (final y) = webhook_view w
  /\ (count is_create (events y) = 0%nat
      \/ count is_delete (events y) = 0%nat)
  /\ updates_on_success w y.
Proof.
  intros Hv He Hup Hcr Hde (_ & Hv' & Hcd & Hs). cbn zeta.
  change (final (result x, final x, pre ++ events x)) with (final x).
  change (events (result x, final x, pre ++ events x))
    with (pre ++ events x).
  split; [congruence|]. split.
  - rewrite !count_app, Hcr, Hde. exact Hcd.
  - destruct Hs as [(Hr & pre' & data & Hev & Hpre & Hdata)|(Hr & Hn & Hd)].
    + left. split; [exact Hr|]. exists (pre ++ pre'), data.
      unfold events, final in *; cbn [fst snd] in *.
      rewrite Hev, List.app_assoc, count_app, Hup, Hpre.
      repeat split; assumption.
    + right. unfold events, final, result in *; cbn [fst snd] in *.
      rewrite count_app, Hup, Hn. repeat split; congruence.
Qed.

(** Every run of the reconciler leaves the view alone, does not both
    delete and create, and updates the entry on success only. *)
Lemma renew_behaved (w : world R) :
  let x := renew_webhook_subscription serve w in
  webhook_view (final x) = webhook_view w
  /\ (count is_create (events x) = 0%nat \/ count is_delete (events x) = 0%nat)
  /\ updates_on_success w x.
Proof.
  cbn zeta. rewrite renew_run.
  assert (early : forall (r : outcome json) (w' : world R) evs,
             r <> Returned (JBool true) ->
             webhook_view w' = webhook_view w ->
             entry_data w' = entry_data w ->
             count is_update evs = 0%nat ->
             count is_create evs = 0%nat ->
             webhook_view (final (r, w', evs)) = webhook_view w
             /\ (count is_create (events (r, w', evs)) = 0%nat
                 \/ count is_delete (events (r, w', evs)) = 0%nat)
             /\ updates_on_success w (r, w', evs)).
  { intros r w' evs Hr Hv He Hup Hcr.
    repeat split; try assumption; [now left|].
    right. repeat split; assumption. }
  destruct (external_url w) as [ha_host|]; cbn zeta.
  2:{ apply early; (reflexivity || discriminate). }
  destruct (negb _); [apply early; (reflexivity || discriminate)|].
  destruct (dict_item (entry_data w) CONF_CLIENT_ID) as [client_id|e];
    [|apply early; (reflexivity || discriminate)].
  destruct (dict_item (entry_data w) CONF_CLIENT_SECRET)
    as [client_secret|e]; [|apply early; (reflexivity || discriminate)].
  destruct (text _) as [|existing];
    [apply early; (reflexivity || discriminate)|].
  destruct (len existing) as [n|e];
    [|apply early; (reflexivity || discriminate)].
  eapply behaved_after_prefix; [..|apply branch_behaved]; reflexivity.
Qed.

(** When the services list one subscription and its callback address is
    the current one, the run neither creates nor deletes. *)
Lemma renew_matching (w : world R) (resp : response) (s : json)
      (ha_host : string) :
  let x := renew_webhook_subscription serve w in
  CONF_CALLBACK_URL <> CONF_WEBHOOK_ID ->
  external_url w = Some ha_host ->
  In resp (list_responses (events x)) ->
  text resp = Json (JArr [s]) ->
  item s CONF_CALLBACK_URL
  = Returned (JStr (ha_host ++ "/api/strava/webhook")%string) ->
  count is_create (events x) = 0%nat /\ count is_delete (events x) = 0%nat.
Proof.
  cbn zeta. intros Hkey Hu. rewrite renew_run, Hu. cbn zeta.
  destruct (negb _); [intros []|].
  destruct (dict_item (entry_data w) CONF_CLIENT_ID) as [client_id|e];
    [|intros []].
  destruct (dict_item (entry_data w) CONF_CLIENT_SECRET)
    as [client_secret|e]; [|intros []].
  set (w1 := after serve (probe_request _) w).
  set (rq2 := list_request client_id client_secret).
  destruct (text (answer serve rq2 w1)) as [|existing] eqn:Et.
  { intros [<-|[]] Hl. congruence. }
  destruct (len existing) as [n|e] eqn:En.
  2:{ intros [<-|[]] Hl. rewrite Et in Hl. injection Hl as ->.
      discriminate. }
  pose proof (branch_behaved
                (dict_set (entry_data w) CONF_CALLBACK_URL
                   (JStr (ha_host ++ "/api/strava/webhook")%string))
                existing n (after serve rq2 w1)) as (Hnone & _).
  unfold events at 1, list_responses. cbn [snd].
  rewrite List.flat_map_app. fold (list_responses (events
    (branch serve (dict_set (entry_data w) CONF_CALLBACK_URL
               (JStr (ha_host ++ "/api/strava/webhook")%string))
       existing n (after serve rq2 w1)))).
  rewrite Hnone. cbn [List.flat_map list_response probe_request rq2
                        list_request app].
  intros [<-|[]] Hl Hcb.
  rewrite Et in Hl. injection Hl as ->.
  cbn [len List.length] in En. injection En as <-.
  unfold branch. cbn [Nat.eqb].
  unfold one_existing, finish, async_update_entry, loads, log, bind, lift,
    emit, ret, http.
  cbn [item0 obind]. rewrite Hcb.
  destruct (item s "id") as [id|e]; [|split; reflexivity].
  unfold dict_item. rewrite dict_get_set_other by congruence.
  rewrite dict_get_set_same. cbn [of_option eq].
  rewrite String.eqb_refl. split; reflexivity.
Qed.
(** When the services list no subscription and the run succeeds, it has
    made exactly one creation and no deletion, and the id in the entry is
    the one the creation answered with. *)
Lemma renew_none (w : world R) (resp : response) :
  let x := renew_webhook_subscription serve w in
  In resp (list_responses (events x)) ->
  text resp = Json (JArr []) ->
  result x = Returned (JBool true) ->
  count is_create (events x) = 1%nat
  /\ count is_delete (events x) = 0%nat
  /\ exists rq created content id,
       In (Request rq created) (events x)
       /\ is_create (Request rq created) = true
       /\ text created = Json content
       /\ item content "id" = Returned id
       /\ dict_get (entry_data (final x)) CONF_WEBHOOK_ID = Some id.
Proof.
  cbn zeta. rewrite renew_run.
  destruct (external_url w) as [ha_host|]; cbn zeta; [|intros []].
  destruct (negb _); [intros []|].
  destruct (dict_item (entry_data w) CONF_CLIENT_ID) as [client_id|e];
    [|intros []].
  destruct (dict_item (entry_data w) CONF_CLIENT_SECRET)
    as [client_secret|e]; [|intros []].
  set (w1 := after serve (probe_request _) w).
  set (rq2 := list_request client_id client_secret).
  destruct (text (answer serve rq2 w1)) as [|existing] eqn:Et.
  { intros [<-|[]] Hl. congruence. }
  destruct (len existing) as [n|e] eqn:En.
  2:{ intros [<-|[]] Hl. rewrite Et in Hl. injection Hl as ->.
      discriminate. }
  pose proof (branch_behaved
                (dict_set (entry_data w) CONF_CALLBACK_URL
                   (JStr (ha_host ++ "/api/strava/webhook")%string))
                existing n (after serve rq2 w1)) as (Hnone & _).
  unfold events at 1, list_responses. cbn [snd].
  rewrite List.flat_map_app. fold (list_responses (events
    (branch serve (dict_set (entry_data w) CONF_CALLBACK_URL
               (JStr (ha_host ++ "/api/strava/webhook")%string))
       existing n (after serve rq2 w1)))).
  rewrite Hnone. cbn [List.flat_map list_response probe_request rq2
                        list_request app].
  intros [<-|[]] Hl.
  rewrite Et in Hl. injection Hl as ->.
  cbn [len List.length] in En. injection En as <-.
  unfold branch. cbn [Nat.eqb].
  unfold none_existing, finish, async_update_entry, loads, log, bind, lift,
    emit, ret, http, result, final, events.
  cbn [fst snd].
  repeat match goal with
         | |- context [match ?x with _ => _ end] =>
             lazymatch x with
             | context [match _ with _ => _ end] => fail
             | _ => destruct x eqn:?
             end; cbn [fst snd app]; try discriminate
         end.
  intros _. split; [reflexivity|]. split; [reflexivity|].
  do 4 eexists. split; [do 3 right; left; reflexivity|].
  split; [reflexivity|]. split; [eassumption|]. split; [eassumption|].
  cbn [entry_data]. apply dict_get_set_same.
Qed.
End RenewLemmas.

(** ** Error paths of the reconciler *)

Section RenewErrorPaths.
Context {C : Const} {R : Type} (serve : request -> R -> response * R).


End RenewErrorPaths.

(** ** Two or more subscriptions, and when the entry is updated *)



(** ** The view across reconciliations *)

Lemma renew_times_view {C : Const} {R : Type}
      (serve : request -> R -> response * R) (n : nat) (w : world R) :
  webhook_view (renew_times serve n w) = webhook_view w.
Proof.
  revert w; induction n as [|n IH]; intros w; simpl; [reflexivity|].
  rewrite IH. apply renew_behaved.
Qed.

(** C10: [renew_webhook_subscription] never writes the view: after a run
    the view is what it was; so the [webhook_id] that [__init__] sets to
    [None] is still [None] after setup and any number of reconciliations,
    the comparison of [post] with it is false whatever id a notification
    carries, and a notification schedules the fetch by its Host header
    alone. *)
Theorem renew_keeps_view {C : Const} {R : Type}
        (serve : request -> R -> response * R) (w : world R) (n : nat)
        (r : R) (u : option string) (entry : dict) (address : string) :
  webhook_view (final (renew_webhook_subscription serve w)) = webhook_view w
  /\ webhook_id (StravaWebhookView address) = None
  /\ let w' := renew_times serve n (mk_world r u entry (StravaWebhookView address)) in
     webhook_view w' = StravaWebhookView address
     /\ (forall subscription_id,
            int_eq_opt subscription_id (webhook_id (webhook_view w')) = false)
     /\ (forall request subscription_id,
            extracted (payload request) = Returned subscription_id ->
            count is_fetch_task (events (post request w'))
            = if host_matches (StravaWebhookView address) request
              then 1%nat else 0%nat).
Proof.
  split; [apply renew_behaved|]. split; [reflexivity|]. cbn zeta.
  pose proof (renew_times_view serve n
                (mk_world r u entry (StravaWebhookView address))) as Hv.
  cbn [webhook_view] in Hv.
  split; [exact Hv|]. split.
  - intros subscription_id. now rewrite Hv.
  - intros request subscription_id E.
    rewrite post_run, E, Hv. cbn [webhook_id StravaWebhookView int_eq_opt].
    unfold host_matches.
    destruct (header_get (headers request) "Host") as [h|]; [|reflexivity].
    destruct (contains (host (StravaWebhookView address)) h); reflexivity.
Qed.

Lemma renew_keeps_view_witness :
  count is_fetch_task
    (events
       (post
          (mk_web_request [("Host", "elsewhere.example.com")] []
             (Json (JObj [("subscription_id", JInt 8)])))
          (renew_times (C := sample_const) subscription_service 2
             (reconciled_with []))))
  = 0%nat.
Proof.
  apply (proj2 (proj2 (proj2 (proj2
           (renew_keeps_view (C := sample_const) subscription_service
              (reconciled_with []) 2 (mk_subscriptions [] 8)
              (Some "https://ha.example.org")
              [("client_id", JStr "4711"); ("client_secret", JStr "s3cr3t")]
              "https://ha.example.org")))))
    with (subscription_id := 8).
  reflexivity.
Defined.

(** ** One subscription with another callback address *)

(** No run of the reconciler both deletes and creates: the creation is the
    [elif] of the [if] whose body deletes. *)
Lemma renew_never_deletes_and_creates {C : Const} {R : Type}
      (serve : request -> R -> response * R) (w : world R) :
  count is_create (events (renew_webhook_subscription serve w)) = 0%nat
  \/ count is_delete (events (renew_webhook_subscription serve w)) = 0%nat.
Proof. apply renew_behaved. Qed.

(** C1, at the input where the code leaves the claim: the service holds
    one subscription, number 7, for another callback address, and answers
    the deletion with 204.  The run deletes it, creates nothing, reports
    success, and stores the id of the subscription it has just deleted;
    the service is left with no subscription. *)
Lemma renew_deletes_without_creating :
  count is_delete (events (sample_renew [subscription 7 stale_callback])) = 1%nat
  /\ count is_create (events (sample_renew [subscription 7 stale_callback]))
     = 0%nat
  /\ result (sample_renew [subscription 7 stale_callback])
     = Returned (JBool true)
  /\ dict_get (entry_data (final (sample_renew [subscription 7 stale_callback])))
       CONF_WEBHOOK_ID
     = Some (JInt 7)
  /\ registered (remote (final (sample_renew [subscription 7 stale_callback])))
     = [].
Proof. vm_compute. repeat split; reflexivity. Qed.

(** ** No subscription *)

(** When the services list no subscription and the run returns [True], it
    has made exactly one create call and no delete call, and the id stored
    in the config entry is the one the create call answered with. *)
Lemma renew_none_creates {C : Const} {R : Type}
      (serve : request -> R -> response * R) (w : world R) (resp : response) :
  In resp (list_responses (events (renew_webhook_subscription serve w))) ->
  text resp = Json (JArr []) ->
  result (renew_webhook_subscription serve w) = Returned (JBool true) ->
  count is_create (events (renew_webhook_subscription serve w)) = 1%nat
  /\ count is_delete (events (renew_webhook_subscription serve w)) = 0%nat
  /\ exists rq created content id,
       In (Request rq created) (events (renew_webhook_subscription serve w))
       /\ is_create (Request rq created) = true
       /\ text created = Json content
       /\ item content "id" = Returned id
       /\ dict_get (entry_data (final (renew_webhook_subscription serve w)))
            CONF_WEBHOOK_ID
          = Some id.
Proof. apply renew_none. Qed.

Lemma renew_none_creates_witness :
  count is_create (events (sample_renew [])) = 1%nat
  /\ count is_delete (events (sample_renew [])) = 0%nat.
Proof.
  destruct (renew_none_creates (C := sample_const) subscription_service
              (reconciled_with []) (mk_response 200 (Json (JArr []))))
    as (Hc & Hd & _).
  - vm_compute. left. reflexivity.
  - reflexivity.
  - reflexivity.
  - split; [exact Hc|exact Hd].
Defined.

(** ** Repeated reconciliation *)

(** When the services list one subscription and its callback address is the
    current one, a run neither creates nor deletes. *)
Lemma renew_matching_is_noop {C : Const} {R : Type}
      (serve : request -> R -> response * R) (w : world R) (resp : response)
      (s : json) (ha_host : string) :
  CONF_CALLBACK_URL <> CONF_WEBHOOK_ID ->
  external_url w = Some ha_host ->
  In resp (list_responses (events (renew_webhook_subscription serve w))) ->
  text resp = Json (JArr [s]) ->
  item s CONF_CALLBACK_URL
  = Returned (JStr (ha_host ++ "/api/strava/webhook")%string) ->
  count is_create (events (renew_webhook_subscription serve w)) = 0%nat
  /\ count is_delete (events (renew_webhook_subscription serve w)) = 0%nat.
Proof. apply renew_matching. Qed.

Lemma renew_matching_is_noop_witness :
  count is_create (events (sample_renew [subscription 7 current_callback]))
  = 0%nat
  /\ count is_delete (events (sample_renew [subscription 7 current_callback]))
     = 0%nat.
Proof.
  apply (renew_matching_is_noop (C := sample_const) subscription_service
           (reconciled_with [subscription 7 current_callback])
           (mk_response 200 (Json (JArr [subscription 7 current_callback])))
           (subscription 7 current_callback) "https://ha.example.org").
  - discriminate.
  - reflexivity.
  - vm_compute. left. reflexivity.
  - reflexivity.
  - reflexivity.
Defined.

(** C8, at the input where the code leaves the claim: the service holds one
    subscription for another callback address and nothing but the
    reconciler changes it.  The first run succeeds (it deletes), yet the
    second is no no-op: it creates.  Only the third run finds nothing to
    do. *)
Lemma renew_second_run_creates :
  let w1 := final (sample_renew [subscription 7 stale_callback]) in
  let run2 :=
    renew_webhook_subscription (C := sample_const) subscription_service w1 in
  let run3 :=
    renew_webhook_subscription (C := sample_const) subscription_service
      (final run2) in
  result (sample_renew [subscription 7 stale_callback]) = Returned (JBool true)
  /\ count is_create (events run2) = 1%nat
  /\ count is_create (events run3) = 0%nat
  /\ count is_delete (events run3) = 0%nat.
Proof. vm_compute. repeat split; reflexivity. Qed.

(** * Further properties *)

(** ** Strings *)

Lemma prefix_app (s t : string) : String.prefix s (s ++ t)%string = true.
Proof.
  induction s as [|c s IH]; simpl; [now destruct t|].
  destruct (ascii_dec c c); [exact IH|congruence].
Qed.

Lemma prefix_inv (s t : string) :
  String.prefix s t = true -> exists b, t = (s ++ b)%string.
Proof.
  revert t; induction s as [|c s IH]; intros t; simpl.
  - intros _. now exists t.
  - destruct t as [|c' t]; simpl; [discriminate|].
    destruct (ascii_dec c c') as [->|]; [|discriminate].
    intros H. destruct (IH _ H) as [b ->]. now exists b.
Qed.

(** [s in t] holds exactly when [s] occurs somewhere inside [t]. *)
Lemma contains_iff (t s : string) :
  contains t s = true <-> exists a b, t = (a ++ s ++ b)%string.
Proof.
  split.
  - induction t as [|c t IH]; cbn [contains].
    + rewrite Bool.orb_false_r. intros H.
      destruct (prefix_inv _ _ H) as [b Hb]. now exists EmptyString, b.
    + intros H. apply Bool.orb_true_iff in H as [H|H].
      * destruct (prefix_inv _ _ H) as [b Hb]. now exists EmptyString, b.
      * destruct (IH H) as (a & b & ->). now exists (String c a), b.
  - intros (a & b & ->). induction a as [|c a IH].
    + cbn [String.append].
      destruct (s ++ b)%string eqn:E; cbn [contains];
        rewrite <- E, prefix_app; reflexivity.
    + cbn [String.append contains]. rewrite IH. apply Bool.orb_true_r.
Qed.

(** ** More on the POST handler *)

(** The host comparison of [post] is a substring test: a notification whose
    Host header occurs anywhere inside the view's host, the empty header
    included, has the fetch scheduled whatever id it carries. *)
Lemma post_host_substring {R : Type} (request : web_request) (w : world R)
      (subscription_id : Z) (h a b : string) :
  extracted (payload request) = Returned subscription_id ->
  header_get (headers request) "Host" = Some h ->
  host (webhook_view w) = (a ++ h ++ b)%string ->
  result (post request w) = Returned ok_response
  /\ count is_fetch_task (events (post request w)) = 1%nat.
Proof.
  intros E Hh Hhost.
  assert (Hc : contains (host (webhook_view w)) h = true).
  { apply contains_iff. now exists a, b. }
  rewrite post_run, E, Hh, Hc.
  destruct (int_eq_opt subscription_id (webhook_id (webhook_view w)));
    split; reflexivity.
Qed.

Lemma post_host_substring_witness :
  count is_fetch_task
    (events
       (post (mk_web_request [("Host", "")] [] NotJson) (sample_world tt)))
  = 1%nat
  /\ count is_fetch_task
       (events
          (post
             (mk_web_request [("host", "example")] []
                (Json (JObj [("subscription_id", JInt 5)])))
             (sample_world tt)))
     = 1%nat.
Proof.
  split.
  - apply (post_host_substring
             (mk_web_request [("Host", "")] [] NotJson) (sample_world tt)
             (-1) "" "" "https://ha.example.org"); reflexivity.
  - apply (post_host_substring
             (mk_web_request [("host", "example")] []
                (Json (JObj [("subscription_id", JInt 5)])))
             (sample_world tt) 5 "example" "https://ha." ".org");
      reflexivity.
Defined.

(** Whatever the request, and also when it raises, [post] leaves the state
    as it was and does nothing but log and hand at most one task to
    [async_create_task]: it makes no request and publishes nothing
    itself. *)
Lemma post_only_schedules {R : Type} (request : web_request) (w : world R) :
  final (post request w) = w
  /\ List.forallb is_post_event (events (post request w)) = true
  /\ (List.length (events (post request w)) <= 2)%nat
  /\ (count is_fetch_task (events (post request w)) <= 1)%nat.
Proof.
  rewrite post_run.
  destruct (extracted (payload request)) as [i|e];
    [|repeat split; unfold final, events, count; simpl;
      first [reflexivity|lia]].
  destruct (int_eq_opt i (webhook_id (webhook_view w)));
    [repeat split; unfold final, events, count; simpl;
      first [reflexivity|lia]|].
  destruct (header_get (headers request) "Host") as [h|];
    [|repeat split; unfold final, events, count; simpl;
      first [reflexivity|lia]].
  destruct (contains (host (webhook_view w)) h); repeat split; unfold final, events, count; simpl;
      first [reflexivity|lia].
Qed.

(** ** More on the fetch *)

Section FetchMore.
Context {C : Const} {R : Type} (serve : request -> R -> response * R).

Lemma geocode_request_is_fetch_event (activity : json) (rq : request)
      (resp : response) :
  geocode_request activity = Returned rq ->
  is_fetch_event (Request rq resp) = true.
Proof.
  unfold geocode_request.
  destruct (get activity "start_latitude" (JInt 0)); cbn [obind];
    [|discriminate].
  destruct (get activity "start_longitude" (JInt 0)); cbn [obind];
    [|discriminate].
  now intros [= <-].
Qed.

(** The loop only makes geocode requests, one per activity and with its
    coordinates, and touches nothing but the remote services. *)
Lemma for_each_lookup_city_requests (items : list json) (w : world R) :
  let x := for_each items (lookup_city serve) w in
  entry_data (final x) = entry_data w
  /\ webhook_view (final x) = webhook_view w
  /\ external_url (final x) = external_url w
  /\ List.forallb is_fetch_event (events x) = true
  /\ (forall cities, result x = Returned cities ->
        List.map Returned (requests (events x))
        = List.map geocode_request items).
Proof.
  revert w; induction items as [|a items IH]; intros w; cbn zeta.
  - simpl. unfold ret, result, final, events; simpl.
    repeat split; reflexivity.
  - simpl for_each. rewrite bind_run, lookup_city_eq.
    destruct (geocode_request a) as [rq|e] eqn:Ea.
    2:{ unfold result, final, events; simpl.
        repeat split; try reflexivity. discriminate. }
    pose proof (geocode_request_is_fetch_event a rq (answer serve rq w) Ea)
      as Hrq.
    destruct (assigned (text (answer serve rq w))) as [c|e].
    2:{ unfold result, final, events, after, set_remote.
        cbn [fst snd List.forallb entry_data webhook_view external_url].
        rewrite Hrq. repeat split; try reflexivity. discriminate. }
    rewrite bind_run.
    destruct (IH (after serve rq w)) as (He & Hv & Hu & Hf & Hr).
    destruct (for_each items (lookup_city serve) (after serve rq w))
      as [[[cs|e] w2] evs];
      unfold ret, result, final, events, after, set_remote in *;
      cbn [fst snd List.forallb app entry_data webhook_view external_url] in *;
      rewrite Hrq.
    + rewrite List.app_nil_r.
      repeat split; try assumption.
      intros cities _. unfold requests in *.
      cbn [List.flat_map app List.map]. rewrite Ea. f_equal.
      now apply (Hr cs).
    + repeat split; try assumption. discriminate.
Qed.

(** [fetch_strava_data] touches nothing but the remote services it reads
    from: the config entry, the view and the public address are as before,
    and its events are log records, GET requests for the activities and the
    cities, and the update event; it never writes to the subscription
    service, never updates the entry and never schedules a task. *)
Lemma fetch_only_reads (w : world R) :
  let x := fetch_strava_data serve w in
  entry_data (final x) = entry_data w
  /\ webhook_view (final x) = webhook_view w
  /\ external_url (final x) = external_url w
  /\ List.forallb is_fetch_event (events x) = true.
Proof.
  cbn zeta. rewrite fetch_run.
  destruct (Z.eqb _ 200); [|repeat split; reflexivity].
  destruct (text _) as [|activities]; [repeat split; reflexivity|].
  destruct (iter activities) as [items|e]; [|repeat split; reflexivity].
  destruct (for_each_lookup_city_requests items
              (mk_world (snd (serve activities_request (remote w)))
                 (external_url w) (entry_data w) (webhook_view w)))
    as (He & Hv & Hu & Hf & _).
  destruct (for_each items (lookup_city serve) _) as [[[cities|e] w2] evs];
    unfold final, events in *; cbn [fst snd] in *.
  - destruct (sensor_dicts cities 0 items) as [dicts|e']; cbn [fst snd];
      (split; [assumption|]); (split; [assumption|]); (split; [assumption|]).
    + change (List.forallb is_fetch_event
                (evs ++ [Fire (sorted_reverse sensor_date dicts)]) = true).
      rewrite List.forallb_app, Hf. reflexivity.
    + exact Hf.
  - repeat split; first [assumption|exact Hf].
Qed.

(** A fetch that returns has made one request for the activities and then
    one geocode request per activity of the response, in their order and
    each with the coordinates of its activity: equal coordinates are asked
    for again. *)
Lemma fetch_requests (w : world R) (v : json) :
  result (fetch_strava_data serve w) = Returned v ->
  status (fst (serve activities_request (remote w))) <> 200
  \/ exists activities items,
       text (fst (serve activities_request (remote w))) = Json activities
       /\ iter activities = Returned items
       /\ List.map Returned (requests (events (fetch_strava_data serve w)))
          = Returned activities_request :: List.map geocode_request items.
Proof.
  rewrite fetch_run.
  destruct (Z.eqb_spec (status (fst (serve activities_request (remote w)))) 200)
    as [Hs|Hs]; [|now left].
  right.
  destruct (text (fst (serve activities_request (remote w))))
    as [|activities]; [discriminate|].
  destruct (iter activities) as [items|e] eqn:Ei; [|discriminate].
  destruct (for_each_lookup_city_requests items
              (mk_world (snd (serve activities_request (remote w)))
                 (external_url w) (entry_data w) (webhook_view w)))
    as (_ & _ & _ & _ & Hr).
  destruct (for_each items (lookup_city serve) _) as [[[cities|e] w2] evs];
    unfold result, events in *; cbn [fst snd] in *; [|discriminate].
  destruct (sensor_dicts cities 0 items); cbn [fst snd] in *; [|discriminate].
  exists activities, items. split; [reflexivity|]. split; [exact Ei|].
  unfold requests in *. cbn [List.flat_map app List.map].
  rewrite List.flat_map_app. cbn [List.flat_map]. rewrite List.app_nil_r.
  f_equal. now apply (Hr cities).
Qed.
End FetchMore.

Lemma fetch_requests_witness :
  List.map req_url
    (requests
       (events
          (sample_fetch
             (Json (JArr [JObj evening_run; JObj evening_run; JObj morning_ride]))
             oslo)))
  = [activities_url 10; geocode_url (JInt 0) (JInt 0);
     geocode_url (JInt 0) (JInt 0); geocode_url (JInt 0) (JInt 0)].
Proof.
  destruct (fetch_requests (C := sample_const)
              (scripted
                 (page
                    (Json (JArr [JObj evening_run; JObj evening_run;
                                 JObj morning_ride]))
                    oslo))
              (sample_world tt) JNull)
    as [Hs|(activities & items & Ht & Hi & Hr)].
  - reflexivity.
  - exfalso. apply Hs. reflexivity.
  - reflexivity.
Defined.

(** ** The sort is stable *)

Lemma lex_compare_refl (a : list Z) : lex_compare a a = Eq.
Proof.
  induction a as [|x a IH]; simpl; [reflexivity|].
  now rewrite Z.compare_refl.
Qed.

Lemma lex_compare_eq (a b : list Z) : lex_compare a b = Eq -> a = b.
Proof.
  revert b; induction a as [|x a IH]; intros [|y b]; simpl;
    try discriminate; [reflexivity|].
  destruct (Z.compare_spec x y) as [->| |]; try discriminate.
  intros Hab. f_equal. now apply IH.
Qed.

Lemma same_date_not_before (a b d : datetime) :
  dt_compare a d = Eq -> dt_compare b d = Eq -> dt_ltb a b = false.
Proof.
  unfold dt_ltb, dt_compare. intros Ha Hb.
  apply lex_compare_eq in Ha, Hb. rewrite Ha, <- Hb.
  now rewrite lex_compare_refl.
Qed.

Section Stable.
Context {A : Type} (key : A -> datetime).

Lemma insert_desc_dated (d : datetime) (x : A) (l : list A) :
  dated key d (insert_desc key x l) = dated key d (x :: l).
Proof.
  unfold dated. induction l as [|y l IH]; [reflexivity|].
  cbn [insert_desc].
  destruct (dt_ltb (key x) (key y)) eqn:E; [|reflexivity].
  cbn [List.filter] in *. rewrite IH.
  destruct (dt_compare (key x) d) eqn:Ex; try reflexivity.
  destruct (dt_compare (key y) d) eqn:Ey; try reflexivity.
  rewrite (same_date_not_before _ _ _ Ex Ey) in E. discriminate.
Qed.

(** [sorted(l, key=key, reverse=True)] keeps the elements of one timestamp
    in the order they had in [l]. *)
Lemma sorted_reverse_stable (d : datetime) (l : list A) :
  dated key d (sorted_reverse key l) = dated key d l.
Proof.
  induction l as [|x l IH]; [reflexivity|].
  cbn [sorted_reverse List.fold_right].
  fold (sorted_reverse key l). rewrite insert_desc_dated.
  unfold dated in *. cbn [List.filter]. now rewrite IH.
Qed.
End Stable.

(** Activities that start at the same time are published in the order the
    response lists them: whatever the timestamp, those the update event
    carries for it are the dicts of the response's activities for it, in
    the response's order. *)
Lemma fetch_published_stable {C : Const} {R : Type}
      (serve : request -> R -> response * R) (w : world R)
      (acts : list Activity) :
  In (Fire acts) (events (fetch_strava_data serve w)) ->
  exists activities items cities dicts,
    text (fst (serve activities_request (remote w))) = Json activities
    /\ iter activities = Returned items
    /\ List.map (fun r => assigned (text r))
         (geocode_responses (events (fetch_strava_data serve w)))
       = List.map Returned cities
    /\ sensor_dicts cities 0 items = Returned dicts
    /\ forall d, dated sensor_date d acts = dated sensor_date d dicts.
Proof.
  intros H.
  apply fetch_published in H
    as (activities & items & cities & dicts & _ & Ht & Hi & _ & Hm & Hd & -> & _).
  exists activities, items, cities, dicts.
  repeat (split; [assumption|]).
  intros d. apply sorted_reverse_stable.
Qed.

(** ** More on the reconciler *)

Section RenewMore.
Context {C : Const} {R : Type} (serve : request -> R -> response * R).

(** A branch that succeeds stores the config data it was given, with a
    subscription id. *)
Lemma branch_success (config_data : dict) (existing : json) (n : nat)
      (w : world R) :
  result (branch serve config_data existing n w) = Returned (JBool true) ->
  exists id,
    entry_data (final (branch serve config_data existing n w))
    = dict_set config_data CONF_WEBHOOK_ID id.
Proof.
  unfold branch.
  destruct (Nat.eqb n 1); [|destruct (Nat.eqb n 0)];
    unfold one_existing, none_existing, several_existing, finish,
      async_update_entry, loads, log, bind, lift, emit, ret, http, result,
      final;
    exec; cbn [fst snd entry_data]; try discriminate;
    intros _; eexists; reflexivity.
Qed.

(** A branch deletes only on one listed subscription, and then the one
    whose id the listing gave. *)
Lemma branch_delete (config_data : dict) (existing : json) (n : nat)
      (w : world R) (id : json) (data : dict) (resp : response) :
  In (Request (mk_request DELETE (subscription_url id) data) resp)
     (events (branch serve config_data existing n w)) ->
  n = 1%nat
  /\ exists s, item0 existing = Returned s /\ item s "id" = Returned id.
Proof.
  unfold branch.
  destruct (Nat.eqb_spec n 1) as [->|_]; [|destruct (Nat.eqb n 0)];
    unfold one_existing, none_existing, several_existing, finish,
      async_update_entry, loads, log, bind, lift, emit, ret, http, events;
    exec; cbn [fst snd app In];
    intros H;
    repeat match type of H with
           | _ \/ _ => destruct H as [H|H]
           | False => destruct H
           end;
    try discriminate;
    injection H as <- <- <-;
    (split; [reflexivity|]);
    match goal with
    | E : dict_item (dict_set _ CONF_WEBHOOK_ID ?i) CONF_WEBHOOK_ID = Returned _
      |- _ =>
        unfold dict_item in E; rewrite dict_get_set_same in E;
        injection E as <-
    end;
    eexists; split; first [eassumption|reflexivity].
Qed.

(** A run that returns [True] stores the entry it found, with the callback
    address built from the public address and with a subscription id:
    every other key of the entry is kept. *)
Lemma renew_persists (w : world R) :
  result (renew_webhook_subscription serve w) = Returned (JBool true) ->
  exists ha_host id,
    external_url w = Some ha_host
    /\ entry_data (final (renew_webhook_subscription serve w))
       = dict_set
           (dict_set (entry_data w) CONF_CALLBACK_URL
              (JStr (ha_host ++ "/api/strava/webhook")%string))
           CONF_WEBHOOK_ID id
    /\ dict_get (entry_data (final (renew_webhook_subscription serve w)))
         CONF_WEBHOOK_ID
       = Some id
    /\ forall k,
         k <> CONF_CALLBACK_URL -> k <> CONF_WEBHOOK_ID ->
         dict_get (entry_data (final (renew_webhook_subscription serve w))) k
         = dict_get (entry_data w) k.
Proof.
  rewrite renew_run.
  destruct (external_url w) as [ha_host|]; cbn zeta; [|discriminate].
  destruct (negb _); [discriminate|].
  destruct (dict_item (entry_data w) CONF_CLIENT_ID) as [client_id|e];
    [|discriminate].
  destruct (dict_item (entry_data w) CONF_CLIENT_SECRET)
    as [client_secret|e]; [|discriminate].
  destruct (text _) as [|existing]; [discriminate|].
  destruct (len existing) as [n|e]; [|discriminate].
  set (x := branch serve _ existing n _).
  change (final (result x, final x, _)) with (final x).
  change (result (result x, final x, _)) with (result x).
  intros H. apply branch_success in H as [id Hid].
  exists ha_host, id. subst x. rewrite Hid.
  split; [reflexivity|]. split; [reflexivity|].
  split; [apply dict_get_set_same|].
  intros k Hc Hw. now rewrite !dict_get_set_other by congruence.
Qed.

(** No request reaches the subscription service unless the public address
    resolves and the callback address answered the self-probe, the first
    request of the run, with 200. *)
Lemma renew_probes_first (w : world R) (rq : request) (resp : response) :
  In (Request rq resp) (events (renew_webhook_subscription serve w)) ->
  to_subscription_service rq = true ->
  exists ha_host rest,
    external_url w = Some ha_host
    /\ let probe :=
         probe_request (JStr (ha_host ++ "/api/strava/webhook")%string) in
       status (answer serve probe w) = 200
       /\ events (renew_webhook_subscription serve w)
          = Request probe (answer serve probe w) :: rest.
Proof.
  rewrite renew_run.
  destruct (external_url w) as [ha_host|]; cbn zeta.
  2:{ intros [|[]]; discriminate. }
  destruct (Z.eqb_spec
              (status
                 (answer serve
                    (probe_request
                       (JStr (ha_host ++ "/api/strava/webhook")%string)) w))
              200) as [Hs|Hs]; cbn [negb].
  2:{ intros [[= <- <-]|[|[]]]; discriminate. }
  intros _ _. exists ha_host.
  destruct (dict_item (entry_data w) CONF_CLIENT_ID) as [client_id|e];
    [|eexists; repeat split; first [exact Hs|reflexivity]].
  destruct (dict_item (entry_data w) CONF_CLIENT_SECRET)
    as [client_secret|e]; [|eexists; repeat split; first [exact Hs|reflexivity]].
  destruct (text _) as [|existing];
    [eexists; repeat split; first [exact Hs|reflexivity]|].
  destruct (len existing) as [n|e];
    eexists; repeat split; first [exact Hs|reflexivity].
Qed.

(** The delete call of a run names the subscription the listing gave: the
    listing held one subscription, and the id in the address of the delete
    call is its id, whatever its callback address. *)
Lemma renew_deletes_listed (w : world R) (id : json) (data : dict)
      (resp : response) :
  In (Request (mk_request DELETE (subscription_url id) data) resp)
     (events (renew_webhook_subscription serve w)) ->
  exists listing existing s,
    In listing (list_responses (events (renew_webhook_subscription serve w)))
    /\ text listing = Json existing
    /\ len existing = Returned 1%nat
    /\ item0 existing = Returned s
    /\ item s "id" = Returned id.
Proof.
  rewrite renew_run.
  destruct (external_url w) as [ha_host|]; cbn zeta.
  2:{ intros [|[]]; discriminate. }
  destruct (negb _); [intros [|[|[]]]; discriminate|].
  destruct (dict_item (entry_data w) CONF_CLIENT_ID) as [client_id|e];
    [|intros [|[]]; discriminate].
  destruct (dict_item (entry_data w) CONF_CLIENT_SECRET)
    as [client_secret|e]; [|intros [|[]]; discriminate].
  destruct (text _) as [|existing] eqn:Et;
    [intros [|[|[]]]; discriminate|].
  destruct (len existing) as [n|e] eqn:En;
    [|intros [|[|[]]]; discriminate].
  set (x := branch serve _ existing n _).
  change (events (result x, final x, ?l)) with l.
  cbn [app In].
  intros [|[|H]]; try discriminate.
  apply branch_delete in H as (-> & s & Hs & Hid).
  eexists _, existing, s.
  split; [|split; [exact Et|split; [exact En|split; assumption]]].
  unfold list_responses, probe_request, list_request.
  cbn [List.flat_map list_response app]. left. reflexivity.
Qed.
End RenewMore.


Lemma renew_persists_witness :
  dict_get (entry_data (final (sample_renew []))) "callback_url"
  = Some current_callback
  /\ dict_get (entry_data (final (sample_renew []))) "webhook_id"
     = Some (JInt 8)
  /\ dict_get (entry_data (final (sample_renew []))) "client_id"
     = Some (JStr "4711").
Proof.
  destruct (renew_persists (C := sample_const) subscription_service
              (reconciled_with []))
    as (ha_host & id & Hu & He & Hi & Hk).
  - reflexivity.
  - split; [reflexivity|]. split; [reflexivity|].
    unfold sample_renew. rewrite (Hk "client_id"); [reflexivity|discriminate|discriminate].
Defined.

Lemma renew_probes_first_witness :
  List.hd_error (requests (events (sample_renew [])))
  = Some (probe_request current_callback).
Proof.
  destruct (renew_probes_first (C := sample_const) subscription_service
              (reconciled_with [])
              (list_request (JStr "4711") (JStr "s3cr3t"))
              (mk_response 200 (Json (JArr []))))
    as (ha_host & rest & Hu & Hs & He).
  - vm_compute. right. left. reflexivity.
  - reflexivity.
  - injection Hu as <-. unfold sample_renew. rewrite He. reflexivity.
Defined.

Lemma renew_deletes_listed_witness :
  exists s,
    item0 (JArr [subscription 7 stale_callback]) = Returned s
    /\ item s "id" = Returned (JInt 7).
Proof.
  destruct (renew_deletes_listed (C := sample_const) subscription_service
              (reconciled_with [subscription 7 stale_callback]) (JInt 7)
              [("client_id", JStr "4711"); ("client_secret", JStr "s3cr3t")]
              (mk_response 204 NotJson))
    as (listing & existing & s & Hl & Ht & Hn & Hs & Hid).
  - vm_compute. do 3 right. left. reflexivity.
  - exists (subscription 7 stale_callback). split; reflexivity.
Defined.

Lemma fetch_published_stable_witness :
  List.map sensor_title tied_activities
  = [JStr "Evening Run"; JStr "Evening Walk"; JStr "Morning Ride"]
  /\ List.map sensor_title
       (dated sensor_date (mk_datetime 2018 2 17 18 5 0) tied_activities)
     = [JStr "Evening Run"; JStr "Evening Walk"].
Proof.
  split; [reflexivity|].
  destruct (fetch_published_stable (C := sample_const)
              (scripted (page tied_page oslo)) (sample_world tt)
              tied_activities)
    as (activities & items & cities & dicts & Ht & Hi & Hm & Hd & Hs).
  - vm_compute. do 5 right. left. reflexivity.
  - injection Ht as <-. injection Hi as <-.
    vm_compute in Hm.
    destruct cities as [|c1 [|c2 [|c3 [|c4 cities]]]]; try discriminate.
    injection Hm as <- <- <-.
    vm_compute in Hd. injection Hd as <-.
    rewrite Hs. reflexivity.
Defined.

(** ** Start-up *)

Section StartUpLemmas.
Context {C : Const} {R : Type} (serve : request -> R -> response * R).

Lemma branch_events (config_data : dict) (existing : json) (n : nat)
      (w : world R) :
  List.forallb is_renew_event (events (branch serve config_data existing n w))
  = true.
Proof.
  unfold branch.
  destruct (Nat.eqb n 1); [|destruct (Nat.eqb n 0)];
    unfold one_existing, none_existing, several_existing, finish,
      async_update_entry, loads, log, bind, lift, emit, ret, http, events;
    exec; reflexivity.
Qed.

(** The reconciler talks to the callback address and the subscription
    service only: it asks for no activity and no city, publishes nothing
    and schedules nothing. *)
Lemma renew_events (w : world R) :
  List.forallb is_renew_event (events (renew_webhook_subscription serve w))
  = true.
Proof.
  rewrite renew_run.
  destruct (external_url w) as [ha_host|]; cbn zeta; [|reflexivity].
  destruct (negb _); [reflexivity|].
  destruct (dict_item (entry_data w) CONF_CLIENT_ID) as [client_id|e];
    [|reflexivity].
  destruct (dict_item (entry_data w) CONF_CLIENT_SECRET)
    as [client_secret|e]; [|reflexivity].
  destruct (text _) as [|existing]; [reflexivity|].
  destruct (len existing) as [n|e]; [|reflexivity].
  set (x := branch serve _ existing n _).
  change (events (result x, final x, ?l)) with l.
  rewrite List.forallb_app. subst x. rewrite branch_events. reflexivity.
Qed.

Lemma renew_event_no_activities (evs : list event) :
  List.forallb is_renew_event evs = true ->
  ~ In activities_request (requests evs).
Proof.
  induction evs as [|e evs IH]; [intros _ []|].
  cbn [List.forallb]. intros H. apply andb_prop in H as [He H].
  unfold requests. cbn [List.flat_map]. intros Hin.
  apply List.in_app_or in Hin as [Hin|Hin]; [|now apply IH].
  destruct e as [[m u d] resp| | | |]; cbn [In] in Hin;
    try (destruct Hin; fail).
  destruct Hin as [Hin|[]]. unfold activities_request in Hin.
  injection Hin as -> -> ->. discriminate.
Qed.

Lemma fetch_asks_for_activities (w : world R) :
  In activities_request (requests (events (fetch_strava_data serve w))).
Proof.
  rewrite fetch_run. cbn zeta.
  destruct (Z.eqb _ 200);
    [destruct (text _) as [|activities];
     [|destruct (iter activities) as [items|e];
       [destruct (for_each items (lookup_city serve) _)
          as [[[cities|e] w2] evs];
        [destruct (sensor_dicts cities 0 items)|]|]]|];
    unfold events, requests; cbn [snd app List.flat_map];
    left; reflexivity.
Qed.

(** [strava_startup_functions] does not look at what the reconciler
    returns: the activities are fetched, in the state the reconciler left,
    whenever the reconciler returns, also when it gave up and returned
    [None]; they are not asked for exactly when the reconciler raised, and
    then the start-up raises the same exception. *)
Lemma startup_fetches_unless_renew_raises (w : world R) :
  let renewed := renew_webhook_subscription serve w in
  let fetched := fetch_strava_data serve (final renewed) in
  (In activities_request
      (requests (events (strava_startup_functions serve w)))
   <-> exists v, result renewed = Returned v)
  /\ (forall v, result renewed = Returned v ->
        events (strava_startup_functions serve w)
        = events renewed ++ events fetched
        /\ final (strava_startup_functions serve w) = final fetched
        /\ (result (strava_startup_functions serve w) = Returned (JBool true)
            <-> exists v', result fetched = Returned v'))
  /\ (forall e, result renewed = Raised e ->
        strava_startup_functions serve w
        = (Raised e, final renewed, events renewed)).
Proof.
  cbn zeta. unfold strava_startup_functions.
  rewrite bind_run.
  pose proof (renew_event_no_activities _ (renew_events w)) as Hno.
  destruct (renew_webhook_subscription serve w) as [[[v|e] w1] evs].
  - rewrite bind_run.
    pose proof (fetch_asks_for_activities w1) as Hact.
    change (final (Returned v, w1, evs)) with w1.
    destruct (fetch_strava_data serve w1) as [[[a|e] w2] evs2];
      unfold ret, result, final, events in *; cbn [fst snd] in *;
      rewrite ?List.app_nil_r.
    + split; [|split].
      * split; [intros _; now exists v|intros _].
        unfold requests in *. rewrite List.flat_map_app.
        apply List.in_or_app. now right.
      * intros _ _. split; [reflexivity|]. split; [reflexivity|].
        split; [intros _; now exists a|reflexivity].
      * discriminate.
    + split; [|split].
      * split; [intros _; now exists v|intros _].
        unfold requests in *. rewrite List.flat_map_app.
        apply List.in_or_app. now right.
      * intros _ _. split; [reflexivity|]. split; [reflexivity|].
        split; [discriminate|intros [v' Hv']; discriminate].
      * discriminate.
  - unfold result, final, events in *; cbn [fst snd] in *.
    split; [|split].
    + split; [intros H; now apply Hno in H|intros [v Hv]; discriminate].
    + discriminate.
    + now intros e' [= <-].
Qed.
End StartUpLemmas.

(** The events of a run of the reconciler are log records, the self-probe,
    requests to the subscription service and the update of the config
    entry: it asks for no activity and no city, publishes no update event
    and hands nothing to [async_create_task]. *)
Lemma renew_only_reconciles {C : Const} {R : Type}
      (serve : request -> R -> response * R) (w : world R) :
  List.forallb is_renew_event (events (renew_webhook_subscription serve w))
  = true
  /\ count is_fire (events (renew_webhook_subscription serve w)) = 0%nat
  /\ count is_fetch_task (events (renew_webhook_subscription serve w)) = 0%nat.
Proof.
  pose proof (renew_events serve w) as H.
  split; [exact H|].
  induction (events (renew_webhook_subscription serve w)) as [|e evs IH];
    [split; reflexivity|].
  cbn [List.forallb] in H. apply andb_prop in H as [He H].
  destruct (IH H) as [Hf Ht].
  unfold count in *.
  destruct e as [[m u d] resp| | | |]; cbn in *;
    first [discriminate|split; assumption].
Qed.

(** ** Set-up and unloading *)

Section EntryLemmas.
Context {C : Const} {N : EventNames} {R : Type} {L : Library R}.
Variable serve : request -> R -> response * R.

Lemma hbind_run {A B} (m : HM (R := R) A) (k : A -> HM B) (h : hass R) :
  hbind m k h =
  match m h with
  | (Returned a, h', evs) =>
      (hresult (k a h'), hfinal (k a h'), evs ++ hevents (k a h'))
  | (Raised e, h', evs) => (Raised e, h', evs)
  end.
Proof.
  unfold hbind, hresult, hfinal, hevents.
  destruct (m h) as [[[a|e] h'] evs]; [|reflexivity].
  now destruct (k a h') as [[r h''] evs'].
Qed.

Lemma hrun_eta {A} (x : outcome A * hass R * list hass_event) :
  (hresult x, hfinal x, hevents x) = x.
Proof. now destruct x as [[r h] evs]. Qed.

(** *** Listening *)

Lemma listen_once_run (t : string) (j : handler)
      (view : StravaWebhookView_obj) (h : hass R) :
  listen_once t j view h =
  if Nat.ltb (listeners (bus h) t) 1 then
    match domain_data h with
    | Some (Some removers) =>
        (Returned tt,
         mk_hass (core h)
           (Some (Some (removers ++ [remove_listener (allocated h)])))
           (bus h ++ [mk_listener (allocated h) t j view])
           (update_listeners h) (S (allocated h)),
         [])
    | _ => (Raised KeyError, h, [])
    end
  else (Returned tt, h, []).
Proof.
  unfold listen_once, async_listeners_get, read_removers, domain,
    async_listen, hbind, hlift, hret, set_domain.
  destruct (Nat.ltb (listeners (bus h) t) 1); [|reflexivity].
  destruct (domain_data h) as [[removers|]|]; reflexivity.
Qed.

Lemma listeners_app (b b' : list listener) (t : string) :
  listeners (b ++ b') t = (listeners b t + listeners b' t)%nat.
Proof. unfold listeners. now rewrite List.filter_app, List.length_app. Qed.

(** The statements that listen, one after the other: every event type
    named gets a listener unless it has one. *)
Lemma listen_each_run (l : list (string * handler))
      (view : StravaWebhookView_obj) (k : HM (R := R) unit) (h : hass R)
      (removers : list remover) :
  domain_data h = Some (Some removers) ->
  exists h' new,
    listen_each l view k h = k h'
    /\ core h' = core h
    /\ update_listeners h' = update_listeners h
    /\ (exists removers', domain_data h' = Some (Some removers'))
    /\ bus h' = bus h ++ new
    /\ (forall x,
          In x new -> In (event_type x, job x) l /\ closed_over x = view)
    /\ forall t,
         listeners (bus h') t
         = if Nat.eqb (listeners (bus h) t) 0
              && List.existsb (String.eqb t) (List.map fst l)
           then 1%nat else listeners (bus h) t.
Proof.
  revert h removers; induction l as [|[t0 j] l IH]; intros h removers Hd.
  - exists h, []. cbn [listen_each List.map List.existsb].
    do 3 (split; [reflexivity|]).
    split; [now exists removers|].
    split; [now rewrite List.app_nil_r|].
    split; [intros x []|].
    intros t. rewrite andb_false_r. reflexivity.
  - cbn [listen_each]. rewrite hbind_run, listen_once_run, Hd.
    destruct (Nat.ltb (listeners (bus h) t0) 1) eqn:E.
    + apply Nat.ltb_lt in E. cbn beta iota.
      set (h1 := mk_hass (core h)
                   (Some (Some (removers ++ [remove_listener (allocated h)])))
                   (bus h ++ [mk_listener (allocated h) t0 j view])
                   (update_listeners h) (S (allocated h))).
      destruct (IH h1 _ eq_refl)
        as (h' & new & Hk & Hc & Hu & Hr & Hb & Hv & Hn).
      exists h', (mk_listener (allocated h) t0 j view :: new).
      cbn [app]. rewrite hrun_eta, Hk.
      split; [reflexivity|]. split; [exact Hc|]. split; [exact Hu|].
      split; [exact Hr|].
      split; [rewrite Hb; cbn [bus h1]; now rewrite <- List.app_assoc|].
      split; [intros x [<-|Hx];
              [split; [now left|reflexivity]
              |destruct (Hv x Hx); split; [now right|assumption]]|].
      intros t. rewrite Hn. cbn [bus h1]. rewrite listeners_app.
      unfold listeners at 2 4.
      cbn [List.filter event_type List.map fst List.existsb].
      destruct (String.eqb_spec t0 t) as [->|Hne].
      * rewrite String.eqb_refl. cbn [List.length orb].
        replace (listeners (bus h) t) with 0%nat by lia.
        reflexivity.
      * destruct (String.eqb_spec t t0) as [->|_]; [now elim Hne|].
        cbn [List.length orb]. now rewrite Nat.add_0_r.
    + apply Nat.ltb_ge in E. cbn beta iota.
      destruct (IH h removers Hd)
        as (h' & new & Hk & Hc & Hu & Hr & Hb & Hv & Hn).
      exists h', new. cbn [app]. rewrite hrun_eta, Hk.
      split; [reflexivity|]. do 4 (split; [assumption|]).
      split; [intros x Hx; destruct (Hv x Hx); split;
              [now right|assumption]|].
      intros t. rewrite Hn. cbn [List.map fst List.existsb].
      destruct (String.eqb_spec t t0) as [->|_]; [|reflexivity].
      destruct (listeners (bus h) t0); [lia|reflexivity].
Qed.

Lemma register_event_listeners_run (view : StravaWebhookView_obj)
      (h : hass R) :
  match domain_data h with
  | None => register_event_listeners view h = (Raised KeyError, h, [])
  | Some _ =>
      exists id new,
        register_event_listeners view h
        = (Returned tt,
           mk_hass (core h) (Some (Some [remove_update_listener id]))
             (bus h ++ new) (update_listeners h ++ [id]) (S id),
           [])
        /\ (forall x,
              In x new ->
              In (event_type x, job x) wiring /\ closed_over x = view)
        /\ forall t,
             listeners (bus h ++ new) t
             = if Nat.eqb (listeners (bus h) t) 0
                  && List.existsb (String.eqb t) listened
               then 1%nat else listeners (bus h) t
  end.
Proof.
  unfold register_event_listeners.
  change (hbind (listen_once EVENT_HOMEASSISTANT_START ha_start_handler view) _)
    with (listen_each (R := R)
            wiring view
            (hbind add_update_listener (fun r => write_removers [r]))).
  destruct (domain_data h) as [d|] eqn:Hd.
  - rewrite hbind_run.
    unfold write_removers at 1, domain, hbind at 1. rewrite Hd.
    cbn [of_option app].
    destruct (listen_each_run
                wiring view
                (hbind add_update_listener (fun r => write_removers [r]))
                (set_domain h (Some (Some []))) [] eq_refl)
      as (h' & new & Hk & Hc & Hu & (rs & Hr) & Hb & Hv & Hn).
    exists (allocated h'), new. cbn [app]. rewrite hrun_eta, Hk.
    split; [|split; [exact Hv|]].
    + unfold add_update_listener, write_removers, domain, hbind, set_domain.
      cbn [domain_data core bus update_listeners allocated].
      rewrite Hr, Hc, Hu, Hb. reflexivity.
    + intros t. specialize (Hn t). rewrite Hb in Hn. exact Hn.
  - unfold write_removers, domain, hbind. rewrite Hd. reflexivity.
Qed.

(** *** Set-up *)

Lemma set_core_core (h : hass R) : set_core h (core h) = h.
Proof. now destruct h. Qed.

Lemma oauth_session_events (h : hass R) : hevents (oauth_session h) = [].
Proof.
  unfold oauth_session, htry_except, hbind, ask, call, entry_item, hevents.
  destruct (async_get_config_entry_implementation h) as [[]|e];
    cbn [fst snd app].
  - now destruct (async_ensure_token_valid h) as [[[]|e] h'].
  - destruct (exn_eqb e ValueError); [|reflexivity].
    destruct (dict_item (entry_data (core h)) CONF_CLIENT_ID);
      [|reflexivity].
    destruct (dict_item (entry_data (core h)) CONF_CLIENT_SECRET);
      [|reflexivity].
    destruct (async_register_implementation h) as [[]|e']; [|reflexivity].
    now destruct (async_ensure_token_valid h) as [[[]|e'] h'].
Qed.

(** [async_setup_entry], path by path. *)
Lemma setup_entry_run (h : hass R) :
  let p := oauth_session (hfinal (setdefault_domain h)) in
  async_setup_entry h =
  match hresult p with
  | Raised e => (Raised e, hfinal p, [])
  | Returned _ =>
      match external_url (core (hfinal p)) with
      | None => (Raised NoURLAvailableError, hfinal p, [])
      | Some host =>
          match register_view (StravaWebhookView host) (hfinal p) with
          | Raised e => (Raised e, hfinal p, [])
          | Returned _ =>
              let x :=
                register_event_listeners (StravaWebhookView host)
                  (set_core (hfinal p)
                     (mk_world (remote (core (hfinal p))) (Some host)
                        (entry_data (core (hfinal p)))
                        (StravaWebhookView host))) in
              match hresult x with
              | Raised e => (Raised e, hfinal x, hevents x)
              | Returned _ =>
                  (Returned true, hfinal x,
                   hevents x ++ [Scheduled (async_forward_entry_setup "sensor")])
              end
          end
      end
  end.
Proof.
  cbn zeta. set (h0 := hfinal (setdefault_domain h)).
  unfold async_setup_entry. rewrite hbind_run.
  change (setdefault_domain h) with (Returned tt, h0, @nil hass_event).
  cbn beta iota. cbn [app]. rewrite hrun_eta, hbind_run.
  pose proof (oauth_session_events h0) as Hp. clearbody h0.
  destruct (oauth_session h0) as [[[[]|e] h1] evs];
    unfold hevents in Hp; cbn [snd] in Hp; subst evs; [|reflexivity].
  cbn [app]. rewrite hrun_eta.
  change (hresult (Returned tt, h1, @nil hass_event)) with (Returned tt).
  change (hfinal (Returned tt, h1, @nil hass_event)) with h1.
  cbn beta iota.
  rewrite hbind_run. unfold core_run, get_url.
  rewrite set_core_core.
  destruct (external_url (core h1)) as [host|] eqn:Hu;
    cbn [of_option List.map]; [|reflexivity].
  cbn [app]. rewrite hrun_eta, hbind_run.
  unfold register at 1, ask, hbind at 1.
  destruct (register_view (StravaWebhookView host) h1) as [[]|e];
    [|reflexivity].
  cbn [app]. rewrite hrun_eta, Hu, hbind_run.
  destruct (register_event_listeners _ _) as [[[[]|e] h3] evs3];
    reflexivity.
Qed.

(** The state a set-up that returns leaves, in full. *)
Lemma setup_entry_final (h : hass R) (v : bool) :
  let hp := hfinal (oauth_session (hfinal (setdefault_domain h))) in
  hresult (async_setup_entry h) = Returned v ->
  exists host id new,
    external_url (core hp) = Some host
    /\ async_setup_entry h
       = (Returned true,
          mk_hass
            (mk_world (remote (core hp)) (Some host) (entry_data (core hp))
               (StravaWebhookView host))
            (Some (Some [remove_update_listener id]))
            (bus hp ++ new) (update_listeners hp ++ [id]) (S id),
          [Scheduled (async_forward_entry_setup "sensor")])
    /\ (forall x,
          In x new ->
          In (event_type x, job x) wiring
          /\ closed_over x = StravaWebhookView host)
    /\ forall t,
         listeners (bus hp ++ new) t
         = if Nat.eqb (listeners (bus hp) t) 0
              && List.existsb (String.eqb t) listened
           then 1%nat else listeners (bus hp) t.
Proof.
  cbn zeta. rewrite setup_entry_run. cbn zeta.
  destruct (hresult (oauth_session _)); [|discriminate].
  destruct (external_url _) as [host|] eqn:Hu; [|discriminate].
  destruct (register_view _ _); [|discriminate].
  match goal with
  | |- context [register_event_listeners ?view ?h2] =>
      pose proof (register_event_listeners_run view h2) as H;
      set (x := register_event_listeners view h2) in *
  end.
  destruct (domain_data _) as [d|] in H.
  2:{ rewrite H. discriminate. }
  destruct H as (id & new & -> & Hv & Hn).
  intros _. exists host, id, new.
  split; [reflexivity|]. split; [reflexivity|]. split; assumption.
Qed.
End EntryLemmas.

(** Without a public address [async_setup_entry] raises: [get_url] is
    called outside any [try].  Once the OAuth block has returned, the run
    ends with [NoURLAvailableError] in the state that block left: no view
    is registered, no listener added and nothing scheduled. *)
Lemma setup_entry_without_public_url {N : EventNames} {R : Type}
      {L : Library R} (h : hass R) :
  let p := oauth_session (hfinal (setdefault_domain h)) in
  hresult p = Returned tt ->
  external_url (core (hfinal p)) = None ->
  async_setup_entry h = (Raised NoURLAvailableError, hfinal p, []).
Proof.
  cbn zeta. intros Hp Hu. rewrite setup_entry_run. cbn zeta.
  now rewrite Hp, Hu.
Qed.

Lemma setup_entry_without_public_url_witness :
  hresult (async_setup_entry (N := sample_names)
             (L := plain_library subscriptions) no_address_hass)
  = Raised NoURLAvailableError
  /\ bus (hfinal (async_setup_entry (N := sample_names)
                    (L := plain_library subscriptions) no_address_hass))
     = [].
Proof.
  rewrite (setup_entry_without_public_url (N := sample_names)
             (L := plain_library subscriptions));
    [split; reflexivity|reflexivity|reflexivity].
Defined.

(** The block that registers the listeners, run where [hass.data] has the
    domain: it returns; what it leaves in
    [hass.data[DOMAIN]["remove_update_listener"]] is one remover, that of
    the update listener it added, so the removers of the bus listeners it
    made are dropped; the listeners it adds to the bus close over the new
    view; and an event type it listens to gets a listener only when it had
    none, so that each of them has as many listeners as before, or one. *)
Lemma setup_listens_once {N : EventNames} {R : Type}
      (view : StravaWebhookView_obj) (h : hass R)
      (d : option (list remover)) :
  domain_data h = Some d ->
  let x := register_event_listeners view h in
  hresult x = Returned tt
  /\ hevents x = []
  /\ core (hfinal x) = core h
  /\ (exists id,
        domain_data (hfinal x) = Some (Some [remove_update_listener id])
        /\ update_listeners (hfinal x) = update_listeners h ++ [id])
  /\ (exists new,
        bus (hfinal x) = bus h ++ new
        /\ forall l, In l new -> closed_over l = view)
  /\ forall t,
       listeners (bus (hfinal x)) t
       = if Nat.eqb (listeners (bus h) t) 0
            && List.existsb (String.eqb t) listened
         then 1%nat else listeners (bus h) t.
Proof.
  intros Hd. cbn zeta.
  pose proof (register_event_listeners_run view h) as H.
  rewrite Hd in H. destruct H as (id & new & -> & Hv & Hn).
  unfold hresult, hfinal, hevents.
  cbn [fst snd core domain_data bus update_listeners].
  split; [reflexivity|]. split; [reflexivity|]. split; [reflexivity|].
  split; [now exists id|].
  split; [exists new; split; [reflexivity|intros l Hl; now apply Hv]|].
  exact Hn.
Qed.

Lemma setup_listens_once_witness :
  listeners
    (bus (hfinal (register_event_listeners (N := sample_names)
                    (StravaWebhookView "https://ha.example.org")
                    reloading_hass)))
    "homeassistant_start"
  = 1%nat
  /\ List.map closed_over
       (List.filter
          (fun l => String.eqb (event_type l) "homeassistant_start")
          (bus (hfinal (register_event_listeners (N := sample_names)
                          (StravaWebhookView "https://ha.example.org")
                          reloading_hass))))
     = [StravaWebhookView "https://old.example.org"].
Proof.
  destruct (setup_listens_once (N := sample_names)
              (StravaWebhookView "https://ha.example.org") reloading_hass
              None eq_refl)
    as (_ & _ & _ & _ & _ & Hn).
  split; [rewrite Hn; reflexivity|reflexivity].
Defined.

(** A set-up that returns returns [True], has scheduled the set-up of the
    sensor platform and nothing else, and leaves: the view it made, with
    the public address as host and no webhook id, as the registered view;
    one remover in [hass.data], that of an update listener of the entry;
    and at least one listener for each of the four event types. *)
Lemma setup_entry_returns {N : EventNames} {R : Type} {L : Library R}
      (h : hass R) (v : bool) :
  hresult (async_setup_entry h) = Returned v ->
  v = true
  /\ hevents (async_setup_entry h)
     = [Scheduled (async_forward_entry_setup "sensor")]
  /\ (exists host,
        external_url (core (hfinal (async_setup_entry h))) = Some host
        /\ webhook_view (core (hfinal (async_setup_entry h)))
           = mk_view None host)
  /\ (exists id,
        domain_data (hfinal (async_setup_entry h))
        = Some (Some [remove_update_listener id])
        /\ In id (update_listeners (hfinal (async_setup_entry h))))
  /\ forall t,
       In t listened ->
       (1 <= listeners (bus (hfinal (async_setup_entry h))) t)%nat.
Proof.
  intros Hv.
  destruct (setup_entry_final h v Hv)
    as (host & id & new & Hu & Hrun & _ & Hn).
  rewrite Hrun in *. injection Hv as <-.
  unfold hfinal, hevents.
  cbn [fst snd core domain_data bus update_listeners external_url
       webhook_view].
  split; [reflexivity|]. split; [reflexivity|].
  split; [now exists host|].
  split; [exists id; split; [reflexivity|apply List.in_or_app; right; now left]|].
  intros t Ht. rewrite Hn.
  assert (He : List.existsb (String.eqb t) listened = true).
  { apply List.existsb_exists. exists t. split; [exact Ht|].
    apply String.eqb_refl. }
  rewrite He, andb_true_r.
  destruct (listeners _ t); cbn [Nat.eqb]; lia.
Qed.

Lemma setup_entry_returns_witness :
  hevents (sample_setup [])
  = [Scheduled (async_forward_entry_setup "sensor")]
  /\ domain_data (hfinal (sample_setup []))
     = Some (Some [remove_update_listener 4])
  /\ List.length (bus (hfinal (sample_setup []))) = 4%nat.
Proof.
  destruct (setup_entry_returns (N := sample_names)
              (L := plain_library subscriptions) (fresh_hass []) true
              eq_refl)
    as (_ & He & _ & _ & _).
  split; [exact He|]. split; reflexivity.
Defined.

(** *** Unloading *)

Section UnloadLemmas.
Context {C : Const} {R : Type} {L : Library R}.
Variable serve : request -> R -> response * R.

Lemma call_remover_run (r : remover) (h : hass R) :
  exists o h',
    call_remover r h = (o, h', [Called r])
    /\ core h' = core h
    /\ domain_data h' = domain_data h
    /\ (forall id, r = remove_update_listener id -> bus h' = bus h).
Proof.
  unfold call_remover, hbind, hemit.
  destruct r as [id|id]; cbn [app].
  - eexists _, _. split; [reflexivity|]. split; [reflexivity|].
    split; [reflexivity|]. discriminate.
  - destruct (list_remove id (update_listeners h)) as [l|e];
      eexists _, _; (split; [reflexivity|]); repeat split; reflexivity.
Qed.

Lemma removers_loop (removers : list remover) (h : hass R) :
  let x := hfor_each removers call_remover h in
  core (hfinal x) = core h
  /\ domain_data (hfinal x) = domain_data h
  /\ core_events (hevents x) = []
  /\ unloading (hevents x) = []
  /\ (exists k, called (hevents x) = List.firstn k removers)
  /\ (forall v, hresult x = Returned v -> called (hevents x) = removers)
  /\ ((forall r, In r removers -> exists id, r = remove_update_listener id) ->
      bus (hfinal x) = bus h).
Proof.
  revert h; induction removers as [|r removers IH]; intros h; cbn zeta.
  - cbn [hfor_each]. unfold hret, hresult, hfinal, hevents. cbn [fst snd].
    repeat split; try reflexivity. now exists 0%nat.
  - cbn [hfor_each]. rewrite hbind_run.
    destruct (call_remover_run r h) as (o & h' & -> & Hc & Hd & Hb).
    destruct o as [[]|e].
    + rewrite hbind_run.
      destruct (IH h') as (Hc' & Hd' & He' & Hu' & (k & Hk) & Hr' & Hb').
      destruct (hfor_each removers call_remover h') as [[[vs|e] h''] evs];
        unfold hret, hresult, hfinal, hevents in *; cbn [fst snd app] in *;
        rewrite ?List.app_nil_r;
        unfold core_events, called, unloading in *;
        cbn [List.flat_map app].
      * split; [congruence|]. split; [congruence|].
        split; [exact He'|]. split; [exact Hu'|].
        split; [exists (S k); cbn [List.firstn]; now rewrite Hk|].
        split; [intros v _; f_equal; now apply (Hr' vs)|].
        intros Hall. rewrite Hb'.
        -- destruct (Hall r (or_introl eq_refl)) as [id ->]. now apply (Hb id).
        -- intros r' Hr. apply Hall. now right.
      * split; [congruence|]. split; [congruence|].
        split; [exact He'|]. split; [exact Hu'|].
        split; [exists (S k); cbn [List.firstn]; now rewrite Hk|].
        split; [discriminate|].
        intros Hall. rewrite Hb'.
        -- destruct (Hall r (or_introl eq_refl)) as [id ->]. now apply (Hb id).
        -- intros r' Hr. apply Hall. now right.
    + unfold hresult, hfinal, hevents, core_events, called, unloading.
      cbn [fst snd List.flat_map app].
      split; [exact Hc|]. split; [exact Hd|].
      split; [reflexivity|]. split; [reflexivity|].
      split; [now exists 1%nat|]. split; [discriminate|].
      intros Hall. destruct (Hall r (or_introl eq_refl)) as [id ->].
      now apply (Hb id).
Qed.

(** The network part of [async_unload_entry], path by path. *)
Lemma delete_subscription_run (h : hass R) :
  delete_subscription serve h =
  match dict_item (entry_data (core h)) CONF_CLIENT_ID with
  | Raised e => (Raised e, h, [])
  | Returned client_id =>
      match dict_item (entry_data (core h)) CONF_CLIENT_SECRET with
      | Raised e => (Raised e, h, [])
      | Returned client_secret =>
          let rq := list_request client_id client_secret in
          let listing := answer serve rq (core h) in
          let w1 := after serve rq (core h) in
          let pre := [Core (Request rq listing)] in
          match text listing with
          | NotJson => (Raised JSONDecodeError, set_core h w1, pre)
          | Json existing =>
              match len existing with
              | Raised e => (Raised e, set_core h w1, pre)
              | Returned n =>
                  if Nat.eqb n 1 then
                    match obind (item0 existing) (fun s => item s "id") with
                    | Raised e => (Raised e, set_core h w1, pre)
                    | Returned id =>
                        let rq2 :=
                          mk_request DELETE (subscription_url id)
                            [("client_id", client_id);
                             ("client_secret", client_secret)] in
                        let deleted := answer serve rq2 w1 in
                        let w2 := after serve rq2 w1 in
                        let pre2 := pre ++ [Core (Request rq2 deleted)] in
                        match dict_item (entry_data (core h))
                                CONF_CALLBACK_URL with
                        | Raised e => (Raised e, set_core h w2, pre2)
                        | Returned callback =>
                            if Z.eqb (status deleted) 204 then
                              (Returned true, set_core h w2,
                               pre2
                               ++ [Logged DEBUG (DeletedSubscription callback)])
                            else
                              (Returned false, set_core h w2,
                               pre2
                               ++ [Logged ERROR
                                     (CouldNotDelete callback (text deleted))])
                        end
                    end
                  else
                    match dict_item (entry_data (core h))
                            CONF_CALLBACK_URL with
                    | Raised e => (Raised e, set_core h w1, pre)
                    | Returned callback =>
                        (Returned false, set_core h w1,
                         pre ++ [Logged ERROR (ExpectedOne callback n)])
                    end
              end
          end
      end
  end.
Proof.
  unfold delete_subscription, entry_item, core_run, http, loads, hbind,
    hlift, hemit, hret, lift, list_request, answer, after, set_remote,
    set_core.
  destruct (dict_item (entry_data (core h)) CONF_CLIENT_ID)
    as [client_id|e] eqn:Ei; [|reflexivity].
  destruct (dict_item (entry_data (core h)) CONF_CLIENT_SECRET)
    as [client_secret|e] eqn:Es; [|reflexivity].
  cbn zeta.
  destruct (serve (mk_request GET WEBHOOK_SUBSCRIPTION_URL _) (remote (core h)))
    as [listing r1].
  cbn [fst snd app List.map core domain_data bus update_listeners allocated
       remote external_url entry_data webhook_view].
  destruct (text listing) as [|existing]; [reflexivity|].
  cbn [fst snd app List.map core domain_data bus update_listeners allocated
       remote external_url entry_data webhook_view].
  destruct (len existing) as [n|e]; [|reflexivity].
  cbn [app].
  destruct (Nat.eqb n 1).
  - destruct (item0 existing) as [s|e]; cbn [obind app]; [|reflexivity].
    destruct (item s "id") as [id|e]; cbn [app]; [|reflexivity].
    cbn [fst snd app List.map core domain_data bus update_listeners allocated
         remote external_url entry_data webhook_view].
    rewrite Ei, Es. cbn [app].
    destruct (serve (mk_request DELETE (subscription_url id) _) r1)
      as [deleted r2].
    cbn [fst snd app List.map core domain_data bus update_listeners allocated
         remote external_url entry_data webhook_view].
    destruct (Z.eqb (status deleted) 204);
      cbn [fst snd app List.map core domain_data bus update_listeners
           allocated remote external_url entry_data webhook_view];
      destruct (dict_item (entry_data (core h)) CONF_CALLBACK_URL);
      reflexivity.
  - cbn [fst snd app List.map core domain_data bus update_listeners
         allocated remote external_url entry_data webhook_view].
    destruct (dict_item (entry_data (core h)) CONF_CALLBACK_URL);
      reflexivity.
Qed.

Lemma unload_platforms_run (h : hass R) :
  unload_platforms h =
  match async_forward_entry_unload "sensor" h with
  | (Raised e, h') => (Raised e, h', [Unloading "sensor"])
  | (Returned ok, h') =>
      match domain_data h' with
      | None => (Raised KeyError, h', [Unloading "sensor"])
      | Some _ => (Returned (ok && true), set_domain h' None, [Unloading "sensor"])
      end
  end.
Proof.
  unfold unload_platforms, PLATFORMS, del_domain, domain.
  cbn [hfor_each]. unfold hbind, hemit, hret, call.
  destruct (async_forward_entry_unload "sensor" h) as [[ok|e] h'];
    cbn [app]; [|reflexivity].
  destruct (domain_data h'); reflexivity.
Qed.

(** [async_unload_entry], stage by stage. *)
Lemma unload_entry_run (h : hass R) :
  async_unload_entry serve h =
  match async_get_config_entry_implementation h with
  | Raised e => (Raised e, h, [])
  | Returned _ =>
      match domain_data h with
      | Some (Some removers) =>
          let x := hfor_each removers call_remover h in
          match hresult x with
          | Raised e => (Raised e, hfinal x, hevents x)
          | Returned _ =>
              let y := delete_subscription serve (hfinal x) in
              match hresult y with
              | Raised e => (Raised e, hfinal y, hevents x ++ hevents y)
              | Returned false =>
                  (Returned false, hfinal y, hevents x ++ hevents y)
              | Returned true =>
                  let z := unload_platforms (hfinal y) in
                  (hresult z, hfinal z, hevents x ++ hevents y ++ hevents z)
              end
          end
      | _ => (Raised KeyError, h, [])
      end
  end.
Proof.
  unfold async_unload_entry.
  change (hbind (hfor_each PLATFORMS _) _) with (unload_platforms (R := R)).
  rewrite hbind_run. unfold ask at 1.
  destruct (async_get_config_entry_implementation h) as [[]|e];
    [|reflexivity].
  cbn [app]. rewrite hrun_eta, hbind_run.
  unfold read_removers, domain, hbind at 1, hlift.
  destruct (domain_data h) as [[removers|]|]; cbn [of_option];
    [|reflexivity|reflexivity].
  cbn [app]. rewrite hrun_eta, hbind_run. cbn zeta.
  destruct (hfor_each removers call_remover h) as [[[vs|e] h1] evs1];
    [|reflexivity].
  rewrite hbind_run.
  unfold hresult, hfinal, hevents. cbn [fst snd].
  destruct (delete_subscription serve h1) as [[[[|]|e] h2] evs2];
    unfold hret; cbn [fst snd]; rewrite ?List.app_nil_r; reflexivity.
Qed.
End UnloadLemmas.

Section UnloadFacts.
Context {C : Const} {R : Type} {L : Library R}.
Variable serve : request -> R -> response * R.

Lemma core_events_app (l l' : list hass_event) :
  core_events (l ++ l') = core_events l ++ core_events l'.
Proof. apply List.flat_map_app. Qed.

Lemma called_app (l l' : list hass_event) :
  called (l ++ l') = called l ++ called l'.
Proof. apply List.flat_map_app. Qed.

Lemma unloading_app (l l' : list hass_event) :
  unloading (l ++ l') = unloading l ++ unloading l'.
Proof. apply List.flat_map_app. Qed.

(** What the network part leaves alone. *)
Lemma delete_subscription_frame (h : hass R) :
  let y := delete_subscription serve h in
  domain_data (hfinal y) = domain_data h
  /\ bus (hfinal y) = bus h
  /\ entry_data (core (hfinal y)) = entry_data (core h)
  /\ called (hevents y) = []
  /\ unloading (hevents y) = [].
Proof.
  cbn zeta. delete_paths (delete_subscription_run serve) serve h; repeat split; reflexivity.
Qed.

(** Its requests. *)
Lemma delete_subscription_requests (h : hass R) :
  let evs := core_events (hevents (delete_subscription serve h)) in
  List.forallb is_unload_request evs = true
  /\ (count is_delete evs <= 1)%nat
  /\ forall id data resp,
       In (Request (mk_request DELETE (subscription_url id) data) resp) evs ->
       exists listing existing s,
         In listing (list_responses evs)
         /\ text listing = Json existing
         /\ len existing = Returned 1%nat
         /\ item0 existing = Returned s
         /\ item s "id" = Returned id.
Proof.
  cbn zeta. delete_paths (delete_subscription_run serve) serve h;
    (split; [reflexivity|]); (split; [unfold count; cbn; lia|]);
    intros id' data resp Hin; cbn [In] in Hin;
    repeat match type of Hin with
           | _ \/ _ => destruct Hin as [Hin|Hin]
           | False => destruct Hin
           end;
    try discriminate;
    injection Hin as <- <- <-;
    destruct (item0 existing) as [s|] eqn:E0; cbn [obind] in Eid;
    try discriminate;
    eexists _, existing, s;
    (split; [left; reflexivity|]); subst n; repeat split; assumption.
Qed.

(** What it returns. *)
Lemma delete_subscription_result (h : hass R) :
  let y := delete_subscription serve h in
  let evs := core_events (hevents y) in
  (hresult y = Returned true ->
   exists id data resp,
     In (Request (mk_request DELETE (subscription_url id) data) resp) evs
     /\ status resp = 204)
  /\ (hresult y = Returned false ->
      forall id data resp,
        In (Request (mk_request DELETE (subscription_url id) data) resp) evs ->
        status resp <> 204)
  /\ (dict_get (entry_data (core h)) CONF_CALLBACK_URL = None ->
      exists e, hresult y = Raised e).
Proof.
  cbn zeta. delete_paths (delete_subscription_run serve) serve h;
    (split; [try discriminate|split; [try discriminate|]]).
  all: try (intros Hnone; unfold dict_item in Ec; rewrite Hnone in Ec;
            discriminate).
  all: try (intros _; eexists; reflexivity).
  - intros _. eexists _, _, _. split; [right; left; reflexivity|exact Hs].
  - intros _ id' data resp Hin.
    destruct Hin as [Hin|[Hin|[]]]; [discriminate|].
    injection Hin as <- <- <-. exact Hs.
  - intros _ id' data resp Hin.
    destruct Hin as [Hin|[]]; discriminate.
Qed.

Lemma unload_platforms_spec (h : hass R) :
  let z := unload_platforms h in
  hevents z = [Unloading "sensor"]
  /\ forall b, hresult z = Returned b -> domain_data (hfinal z) = None.
Proof.
  cbn zeta. rewrite unload_platforms_run.
  destruct (async_forward_entry_unload "sensor" h) as [[ok|e] h'];
    [destruct (domain_data h')|]; split; try reflexivity; discriminate.
Qed.
End UnloadFacts.

Section UnloadStages.
Context {C : Const} {R : Type} {L : Library R}.
Variable serve : request -> R -> response * R.

(** A run of [async_unload_entry] either stops before it talks to the
    subscription service, or has called every remover and goes on as the
    network part says. *)
Lemma unload_stages (h : hass R) :
  let u := async_unload_entry serve h in
  ((exists e, hresult u = Raised e)
   /\ core_events (hevents u) = []
   /\ unloading (hevents u) = []
   /\ domain_data (hfinal u) = domain_data h
   /\ core (hfinal u) = core h
   /\ forall removers,
        domain_data h = Some (Some removers) ->
        (exists k, called (hevents u) = List.firstn k removers)
        /\ ((forall r, In r removers -> exists id, r = remove_update_listener id) ->
            bus (hfinal u) = bus h))
  \/ exists removers h1,
       domain_data h = Some (Some removers)
       /\ core h1 = core h
       /\ domain_data h1 = domain_data h
       /\ ((forall r, In r removers -> exists id, r = remove_update_listener id) ->
           bus h1 = bus h)
       /\ called (hevents u) = removers
       /\ core_events (hevents u)
          = core_events (hevents (delete_subscription serve h1))
       /\ match hresult (delete_subscription serve h1) with
          | Returned true =>
              hresult u
              = hresult (unload_platforms
                           (hfinal (delete_subscription serve h1)))
              /\ hfinal u
                 = hfinal (unload_platforms
                             (hfinal (delete_subscription serve h1)))
              /\ unloading (hevents u) = ["sensor"]
          | _ =>
              hresult u = hresult (delete_subscription serve h1)
              /\ hfinal u = hfinal (delete_subscription serve h1)
              /\ unloading (hevents u) = []
          end.
Proof.
  cbn zeta. rewrite unload_entry_run.
  destruct (async_get_config_entry_implementation h) as [[]|e].
  2:{ left. unfold hresult, hfinal, hevents. cbn [fst snd].
      split; [now exists e|]. do 4 (split; [reflexivity|]).
      intros removers _. split; [now exists 0%nat|reflexivity]. }
  destruct (domain_data h) as [[removers|]|] eqn:Hd.
  2,3: left; unfold hresult, hfinal, hevents; cbn [fst snd];
       (split; [now exists KeyError|]);
       do 4 (split; [first [reflexivity|exact Hd]|]);
       intros removers; discriminate.
  cbn zeta.
  destruct (removers_loop removers h)
    as (Hc & Hdd & He & Hu & Hk & Hr & Hb).
  destruct (hresult (hfor_each removers call_remover h)) as [vs|e] eqn:Hx.
  2:{ left. unfold hresult, hfinal, hevents in *. cbn [fst snd] in *.
      split; [now exists e|]. split; [exact He|]. split; [exact Hu|].
      split; [congruence|]. split; [exact Hc|].
      intros rs [= <-]. split; [exact Hk|exact Hb]. }
  right. exists removers, (hfinal (hfor_each removers call_remover h)).
  set (h1 := hfinal (hfor_each removers call_remover h)) in *.
  split; [reflexivity|]. split; [exact Hc|]. split; [congruence|].
  split; [exact Hb|].
  destruct (delete_subscription_frame serve h1) as (_ & _ & _ & Hyc & Hyu).
  destruct (unload_platforms_spec (hfinal (delete_subscription serve h1)))
    as (Hz & _).
  destruct (hresult (delete_subscription serve h1)) as [[|]|e];
    match goal with
    | |- context [hevents (?a, ?b, ?c)] =>
        change (hevents (a, b, c)) with c;
        change (hresult (a, b, c)) with a;
        change (hfinal (a, b, c)) with b
    end;
    rewrite ?called_app, ?core_events_app, ?unloading_app, ?He, ?Hu, ?Hyc,
      ?Hyu, ?Hz, (Hr vs eq_refl), ?List.app_nil_r;
    repeat split; reflexivity.
Qed.
End UnloadStages.

(** Unloading talks to the subscription service only, lists once and
    deletes at most once: it never creates a subscription and never
    updates the config entry.  A delete call is for the one subscription
    the listing held, whatever callback address that subscription has. *)
Lemma unload_requests {C : Const} {R : Type} {L : Library R}
      (serve : request -> R -> response * R) (h : hass R) :
  let evs := core_events (hevents (async_unload_entry serve h)) in
  List.forallb is_unload_request evs = true
  /\ (count is_delete evs <= 1)%nat
  /\ forall id data resp,
       In (Request (mk_request DELETE (subscription_url id) data) resp) evs ->
       exists listing existing s,
         In listing (list_responses evs)
         /\ text listing = Json existing
         /\ len existing = Returned 1%nat
         /\ item0 existing = Returned s
         /\ item s "id" = Returned id.
Proof.
  cbn zeta.
  destruct (unload_stages serve h)
    as [(_ & -> & _)|(removers & h1 & _ & _ & _ & _ & _ & -> & _)].
  - split; [reflexivity|]. split; [unfold count; cbn; lia|].
    intros id data resp [].
  - apply delete_subscription_requests.
Qed.

(** What the result of unloading tells.  [True]: a delete call was
    answered with 204, the platform was asked to unload, and
    [hass.data[DOMAIN]] is gone.  [False]: either the platform was asked to
    unload, and [hass.data[DOMAIN]] is gone all the same; or no delete call
    was answered with 204, no platform was asked to unload and
    [hass.data[DOMAIN]] is still there, although every remover in it has
    been called. *)
Lemma unload_result {C : Const} {R : Type} {L : Library R}
      (serve : request -> R -> response * R) (h : hass R) (ok : bool) :
  let u := async_unload_entry serve h in
  hresult u = Returned ok ->
  (unloading (hevents u) = ["sensor"]
   /\ domain_data (hfinal u) = None
   /\ exists id data resp,
        In (Request (mk_request DELETE (subscription_url id) data) resp)
           (core_events (hevents u))
        /\ status resp = 204)
  \/ (ok = false
      /\ unloading (hevents u) = []
      /\ (exists removers,
            domain_data (hfinal u) = Some (Some removers)
            /\ called (hevents u) = removers)
      /\ forall id data resp,
           In (Request (mk_request DELETE (subscription_url id) data) resp)
              (core_events (hevents u)) ->
           status resp <> 204).
Proof.
  cbn zeta. intros Hok.
  destruct (unload_stages serve h)
    as [([e He] & _)
       |(removers & h1 & Hd & _ & Hd1 & _ & Hc & Hev & Hy)];
    [rewrite Hok in He; discriminate|].
  destruct (delete_subscription_frame serve h1) as (Hyd & _).
  destruct (delete_subscription_result serve h1) as (Ht & Hf & _).
  rewrite Hev.
  destruct (hresult (delete_subscription serve h1)) as [[|]|e] eqn:Er.
  - destruct Hy as (Hr & Hfin & Hu). left.
    split; [exact Hu|]. split; [|now apply Ht].
    rewrite Hfin. rewrite Hr in Hok.
    now apply (unload_platforms_spec _) in Hok.
  - destruct Hy as (Hr & Hfin & Hu). right.
    split; [congruence|]. split; [exact Hu|].
    split; [exists removers; split; [congruence|exact Hc]|].
    now apply Hf.
  - destruct Hy as (Hr & _). rewrite Hok in Hr. discriminate.
Qed.

Lemma unload_result_witness :
  hresult (sample_unload (set_up_and_reconciled [])) = Returned true
  /\ domain_data (hfinal (sample_unload (set_up_and_reconciled []))) = None.
Proof.
  destruct (unload_result (C := sample_const)
              (L := plain_library subscriptions) subscription_service
              (set_up_and_reconciled []) true eq_refl)
    as [(_ & Hd & _)|(Hf & _)].
  - split; [reflexivity|exact Hd].
  - discriminate.
Defined.

(** An entry whose data has no callback address cannot be unloaded: every
    path through the network part reads [entry.data[CONF_CALLBACK_URL]]
    for its log record.  The run raises, also after the subscription was
    deleted remotely; no platform is asked to unload and
    [hass.data[DOMAIN]] stays. *)
Lemma unload_needs_callback_url {C : Const} {R : Type} {L : Library R}
      (serve : request -> R -> response * R) (h : hass R) :
  dict_get (entry_data (core h)) CONF_CALLBACK_URL = None ->
  let u := async_unload_entry serve h in
  (exists e, hresult u = Raised e)
  /\ unloading (hevents u) = []
  /\ domain_data (hfinal u) = domain_data h.
Proof.
  intros Hnone. cbn zeta.
  destruct (unload_stages serve h)
    as [(He & _ & Hu & Hd & _)
       |(removers & h1 & Hd & Hc1 & Hd1 & _ & Hc & Hev & Hy)];
    [now repeat split|].
  destruct (delete_subscription_frame serve h1) as (Hyd & _).
  destruct (delete_subscription_result serve h1) as (_ & _ & Hr).
  rewrite Hc1 in Hr. destruct (Hr Hnone) as [e He].
  rewrite He in Hy. destruct Hy as (Hres & Hfin & Hu).
  split; [exists e; exact Hres|]. split; [exact Hu|]. congruence.
Qed.

Lemma unload_needs_callback_url_witness :
  hresult (sample_unload (hfinal (sample_setup [subscription 7 stale_callback])))
  = Raised KeyError
  /\ registered
       (remote
          (core
             (hfinal
                (sample_unload
                   (hfinal (sample_setup [subscription 7 stale_callback]))))))
     = [].
Proof.
  destruct (unload_needs_callback_url (C := sample_const)
              (L := plain_library subscriptions) subscription_service
              (hfinal (sample_setup [subscription 7 stale_callback]))
              eq_refl)
    as ([e He] & _).
  split; reflexivity.
Defined.

(** Unloading what a set-up left calls no remover of a bus listener: the
    one remover it can call is that of the update listener.  When the
    platform leaves the bus alone, the listeners the set-up found or made
    are all still on the bus after the entry is unloaded. *)
Lemma unload_after_setup {C : Const} {N : EventNames} {R : Type}
      {L : Library R} (serve : request -> R -> response * R) (h : hass R)
      (v : bool) :
  hresult (async_setup_entry h) = Returned v ->
  let u := async_unload_entry serve (hfinal (async_setup_entry h)) in
  (exists id,
     domain_data (hfinal (async_setup_entry h))
     = Some (Some [remove_update_listener id])
     /\ (called (hevents u) = []
         \/ called (hevents u) = [remove_update_listener id]))
  /\ ((forall component h',
         bus (snd (async_forward_entry_unload component h')) = bus h') ->
      bus (hfinal u) = bus (hfinal (async_setup_entry h))).
Proof.
  intros Hv. cbn zeta.
  destruct (setup_entry_final h v Hv) as (host & id & new & _ & Hrun & _).
  assert (Hd : domain_data (hfinal (async_setup_entry h))
               = Some (Some [remove_update_listener id]))
    by now rewrite Hrun.
  clear Hrun.
  set (h0 := hfinal (async_setup_entry h)) in *.
  assert (Hall : forall r, In r [remove_update_listener id] ->
                           exists id', r = remove_update_listener id').
  { intros r [<-|[]]. now exists id. }
  destruct (unload_stages serve h0)
    as [(_ & _ & _ & _ & _ & Hk)
       |(removers & h1 & Hd' & _ & _ & Hb & Hc & _ & Hy)].
  - destruct (Hk _ Hd) as ([k Hk'] & Hb).
    split; [|intros _; now apply Hb].
    exists id. split; [exact Hd|]. rewrite Hk'.
    destruct k as [|[|k]]; [now left|now right|now right].
  - rewrite Hd in Hd'. injection Hd' as <-.
    split; [exists id; split; [exact Hd|now right]|].
    intros Hlib. specialize (Hb Hall).
    destruct (delete_subscription_frame serve h1) as (_ & Hyb & _).
    destruct (hresult (delete_subscription serve h1)) as [[|]|e];
      destruct Hy as (_ & -> & _); try congruence.
    rewrite unload_platforms_run.
    specialize (Hlib "sensor" (hfinal (delete_subscription serve h1))).
    destruct (async_forward_entry_unload "sensor" _) as [[ok|e] h'];
      cbn [snd] in Hlib;
      [destruct (domain_data h')|];
      unfold hfinal at 1; cbn [fst snd set_domain bus]; congruence.
Qed.

Lemma unload_after_setup_witness :
  called (hevents (sample_unload (set_up_and_reconciled [])))
  = [remove_update_listener 4]
  /\ List.length (bus (hfinal (sample_unload (hfinal (sample_setup [])))))
     = 4%nat.
Proof.
  split; [reflexivity|].
  destruct (unload_after_setup (C := sample_const) (N := sample_names)
              (L := plain_library subscriptions) subscription_service
              (fresh_hass []) true eq_refl)
    as (_ & Hb).
  unfold sample_unload, sample_setup. rewrite Hb; reflexivity.
Defined.

(** Setting an entry up where each of the four event types already has a
    listener adds no listener to the bus: those an earlier set-up left
    stay, with the closures and the view of that set-up. *)
Lemma setup_entry_again {N : EventNames} {R : Type} {L : Library R}
      (h : hass R) (v : bool) :
  let p := oauth_session (hfinal (setdefault_domain h)) in
  hresult (async_setup_entry h) = Returned v ->
  (forall t, In t listened -> (1 <= listeners (bus (hfinal p)) t)%nat) ->
  bus (hfinal (async_setup_entry h)) = bus (hfinal p).
Proof.
  cbn zeta. intros Hv Hall.
  destruct (setup_entry_final h v Hv)
    as (host & id & new & Hu & -> & _ & Hn).
  match goal with
  | |- context [hfinal (?a, ?b, ?c)] => change (hfinal (a, b, c)) with b
  end.
  cbn [bus].
  destruct new as [|l new]; [now rewrite List.app_nil_r|]. exfalso.
  specialize (Hn (event_type l)).
  rewrite listeners_app in Hn.
  unfold listeners at 2 in Hn. cbn [List.filter] in Hn.
  rewrite String.eqb_refl in Hn. cbn [List.length] in Hn.
  destruct (List.existsb (String.eqb (event_type l)) listened) eqn:E.
  - apply List.existsb_exists in E as (t & Ht & Et).
    apply String.eqb_eq in Et. subst t. specialize (Hall _ Ht).
    destruct (listeners _ (event_type l)); cbn [Nat.eqb andb] in Hn; lia.
  - rewrite andb_false_r in Hn. lia.
Qed.

Lemma setup_entry_again_witness :
  bus (hfinal (async_setup_entry (N := sample_names)
                 (L := plain_library subscriptions)
                 (hfinal (sample_unload (set_up_and_reconciled [])))))
  = bus (hfinal (sample_setup [])).
Proof.
  rewrite (setup_entry_again (N := sample_names)
             (L := plain_library subscriptions)
             (hfinal (sample_unload (set_up_and_reconciled []))) true
             eq_refl).
  - reflexivity.
  - intros t [<-|[<-|[<-|[<-|[]]]]]; vm_compute;
      repeat constructor.
Defined.

(** *** From an options update to the fetch *)

Lemma filter_length_zero {A : Type} (p : A -> bool) (l : list A) :
  List.length (List.filter p l) = 0%nat -> List.filter p l = [].
Proof. now destruct (List.filter p l). Qed.

Lemma wiring_functional {N : EventNames} (t : string) (j j' : handler) :
  NoDup listened -> In (t, j) wiring -> In (t, j') wiring -> j = j'.
Proof.
  unfold listened. induction wiring as [|[a b] l IH]; [intros _ []|].
  cbn [List.map fst In]. intros Hnd Hj Hj'.
  inversion Hnd as [|? ? Hnotin Hnd']; subst.
  destruct Hj as [Hj|Hj]; destruct Hj' as [Hj'|Hj'].
  - congruence.
  - injection Hj as -> ->. elim Hnotin. apply List.in_map_iff.
    now exists (t, j').
  - injection Hj' as -> ->. elim Hnotin. apply List.in_map_iff.
    now exists (t, j).
  - now apply IH.
Qed.

(** After a set-up that found no listener for the four event types, and
    with the four event types distinct, an update of the options reaches
    the fetch: the update listener logs, fires the component's config
    update event, and the one coroutine this hands to
    [async_create_task] is [async_strava_config_update_handler] of the view
    the set-up made. *)
Lemma config_update_schedules_fetch {N : EventNames} {R : Type}
      {L : Library R} (h : hass R) (v : bool) :
  let p := oauth_session (hfinal (setdefault_domain h)) in
  let h' := hfinal (async_setup_entry h) in
  NoDup listened ->
  (forall t, In t listened -> listeners (bus (hfinal p)) t = 0%nat) ->
  hresult (async_setup_entry h) = Returned v ->
  exists host,
    external_url (core h') = Some host
    /\ strava_config_update_helper h'
       = (Returned tt, h',
          [Logged DEBUG (ConfigUpdateFired (entry_data (core h')));
           Scheduled (config_update_of (mk_view None host))]).
Proof.
  cbn zeta. intros Hnd Hzero Hv.
  destruct (setup_entry_final h v Hv)
    as (host & id & new & Hu & -> & Hnew & Hn).
  exists host.
  match goal with
  | |- context [hfinal (?a, ?b, ?c)] => change (hfinal (a, b, c)) with b
  end.
  split; [reflexivity|].
  unfold strava_config_update_helper, fire, hbind, hemit.
  cbn [core bus entry_data app].
  assert (Hin : In CONF_STRAVA_CONFIG_UPDATE_EVENT listened).
  { unfold listened, wiring. cbn. auto. }
  pose proof (Hn CONF_STRAVA_CONFIG_UPDATE_EVENT) as Hone.
  rewrite (Hzero _ Hin) in Hone.
  assert (He : List.existsb (String.eqb CONF_STRAVA_CONFIG_UPDATE_EVENT)
                 listened = true).
  { apply List.existsb_exists. eexists. split; [exact Hin|].
    apply String.eqb_refl. }
  rewrite He in Hone. cbn [Nat.eqb andb] in Hone.
  rewrite listeners_app, (Hzero _ Hin) in Hone. cbn [Nat.add] in Hone.
  rewrite List.filter_app.
  rewrite (filter_length_zero _ _ (Hzero _ Hin)). cbn [app].
  unfold listeners in Hone.
  destruct (List.filter _ new) as [|l [|l' rest]] eqn:Ef;
    try discriminate.
  assert (Hl : In l (List.filter
                       (fun l => String.eqb (event_type l)
                                   CONF_STRAVA_CONFIG_UPDATE_EVENT) new)).
  { rewrite Ef. now left. }
  apply List.filter_In in Hl as [Hl Ht]. apply String.eqb_eq in Ht.
  destruct (Hnew l Hl) as [Hw Hview].
  rewrite Ht in Hw.
  assert (Hj : job l = strava_config_update_handler).
  { apply (wiring_functional CONF_STRAVA_CONFIG_UPDATE_EVENT);
      [exact Hnd|exact Hw|].
    unfold wiring. cbn. auto. }
  cbn [List.flat_map List.map app]. unfold handle. rewrite Hj, Hview.
  reflexivity.
Qed.

Lemma config_update_schedules_fetch_witness :
  hevents
    (strava_config_update_helper (N := sample_names)
       (hfinal (sample_setup [])))
  = [Logged DEBUG
       (ConfigUpdateFired
          [("client_id", JStr "4711"); ("client_secret", JStr "s3cr3t")]);
     Scheduled (config_update_of (StravaWebhookView "https://ha.example.org"))].
Proof.
  destruct (config_update_schedules_fetch (N := sample_names)
              (L := plain_library subscriptions) (fresh_hass []) true)
    as (host & Hu & He).
  - unfold listened, wiring. cbn [List.map fst].
    repeat constructor; cbn [In]; intros H;
      repeat match type of H with
             | _ \/ _ => destruct H as [H|H]
             | False => destruct H
             end; discriminate.
  - intros t _. reflexivity.
  - reflexivity.
  - injection Hu as <-. unfold sample_setup. rewrite He. reflexivity.
Defined.

(** Unloading takes [hass.data[DOMAIN]] away whenever it gets as far as
    the platform, also when it then returns [False]; unloading again
    raises before it calls a remover or makes a request, and changes
    nothing. *)
Lemma unload_twice {C : Const} {R : Type} {L : Library R}
      (serve : request -> R -> response * R) (h : hass R) (ok : bool) :
  let u := async_unload_entry serve h in
  hresult u = Returned ok ->
  unloading (hevents u) = ["sensor"] ->
  exists e, async_unload_entry serve (hfinal u) = (Raised e, hfinal u, []).
Proof.
  cbn zeta. intros Hok Hu.
  assert (Hd : domain_data (hfinal (async_unload_entry serve h)) = None).
  { destruct (unload_stages serve h)
      as [([e He] & _)
         |(removers & h1 & _ & _ & _ & _ & _ & _ & Hy)];
      [rewrite Hok in He; discriminate|].
    destruct (hresult (delete_subscription serve h1)) as [[|]|e];
      destruct Hy as (Hr & Hfin & Hu');
      [|rewrite Hu in Hu'; discriminate|rewrite Hu in Hu'; discriminate].
    rewrite Hfin. rewrite Hr in Hok.
    now apply (unload_platforms_spec _) in Hok. }
  rewrite (unload_entry_run serve (hfinal (async_unload_entry serve h))), Hd.
  destruct (async_get_config_entry_implementation _) as [[]|e];
    eexists; reflexivity.
Qed.

Lemma unload_twice_witness :
  sample_unload (hfinal (sample_unload (set_up_and_reconciled [])))
  = (Raised KeyError, hfinal (sample_unload (set_up_and_reconciled [])), []).
Proof.
  destruct (unload_twice (C := sample_const)
              (L := plain_library subscriptions) subscription_service
              (set_up_and_reconciled []) true eq_refl eq_refl)
    as [e He].
  unfold sample_unload. rewrite He.
  vm_compute in He. injection He as <-. reflexivity.
Defined.
